(** * AddressME: slot generation, booking and application workflow

    A shallow embedding of the scheduling and booking routes of [app.py]
    over the tables of [models.py].  Every route is a function from the
    persisted store to a new store and a response; the request-scoped
    SQLAlchemy session is a working copy of the store that [commit]
    either persists as a whole or discards. *)

From Stdlib Require Import ZArith String Ascii List Bool Lia.
Import ListNotations.
Local Open Scope Z_scope.

(** ** Naive datetimes

    Python's naive [datetime], [date], [time] and [timedelta] values live on
    one linear time line with microsecond resolution.  A [datetime] is the
    number of microseconds since 0001-01-01T00:00:00, a [date] the number of
    days since 0001-01-01 (that is [toordinal() - 1]), a [time] the number of
    microseconds since midnight.  0001-01-01 is a Monday, so [weekday] is the
    day number modulo 7.  The upper bound of the calendar (year 9999) is not
    modelled. *)
Module Datetime.

Definition datetime := Z.
Definition date := Z.
Definition time := Z.
Definition timedelta := Z.

Definition us_per_minute : Z := 60000000.
Definition us_per_hour : Z := 3600000000.
Definition us_per_day : Z := 86400000000.

(** [timedelta(minutes=n)], [timedelta(hours=n)], [timedelta(days=n)] *)
Definition minutes (n : Z) : timedelta := n * us_per_minute.
Definition hours (n : Z) : timedelta := n * us_per_hour.
Definition days (n : Z) : timedelta := n * us_per_day.

(** [dt.date()], [dt.time()], [datetime.combine(d, t)], [d.weekday()] *)
Definition date_of (dt : datetime) : date := dt / us_per_day.
Definition time_of (dt : datetime) : time := dt mod us_per_day.
Definition combine (d : date) (t : time) : datetime := d * us_per_day + t.
Definition weekday (d : date) : Z := d mod 7.

(** The value [strptime(s, '%H:%M').time()] yields for "hh:mm". *)
Definition hm (h m : Z) : time := hours h + minutes m.

End Datetime.
Import Datetime.

(** ** Tables of [models.py]

    Columns outside the modelled store (password hashes, photo paths, the
    resident's address fields, [leader_id], [meeting_notes], [created_at] of
    tables other than the applications, [updated_at]) are left out; a route
    that writes one of them is modelled by what it does to the columns
    that are kept. *)
Module Models.

Record User := mkUser {
  user_id : Z;
  fullName : string;
  email : string;
  userType : string;          (* resident, leader, police *)
  isVerified : bool
}.

Record ResidentInfo := mkResidentInfo {
  ri_id : Z;
  ri_user_id : Z;
  firstName : string;
  lastName : string;
  phoneNumber : string
}.

Record PoliceInfo := mkPoliceInfo {
  pi_id : Z;
  pi_user_id : Z;
  stationName : string;
  pi_municipality : string;
  postalCode : string;
  isApproved : bool
}.

Record AddressApplication := mkApplication {
  app_id : Z;
  applicant_id : Z;
  app_officer_id : option Z;
  app_status : string;
  leader_notes : option string;
  officer_notes : option string;
  app_created_at : datetime
}.

Record Appointment := mkAppointment {
  appt_id : Z;
  resident_id : Z;
  appt_officer_id : Z;
  application_id : Z;
  appointment_date : datetime;
  duration_minutes : Z;
  appt_status : string         (* scheduled, completed, cancelled *)
}.

Record WeeklySchedule := mkWeeklySchedule {
  ws_id : Z;
  ws_officer_id : Z;
  day_of_week : Z;             (* 0=Monday, 6=Sunday *)
  ws_start_time : time;
  ws_end_time : time;
  is_active : bool
}.

Record ScheduledBreak := mkScheduledBreak {
  sb_id : Z;
  schedule_id : Z;
  break_start_time : time;
  break_end_time : time
}.

Record AvailableTimeSlot := mkSlot {
  slot_id : Z;
  officer_id : Z;
  weekly_schedule_id : option Z;
  start_time : datetime;
  end_time : datetime;
  is_booked : bool;
  municipality : option string;
  station_name : option string;
  postal_code : option string
}.

Record AddressCertificate := mkCertificate {
  cert_id : Z;
  cert_application_id : Z;
  certificate_number : string;
  issue_date : datetime;
  expiry_date : datetime;
  pdf_path : string
}.

End Models.
Import Models.

(** ** The store and the session

    A route works on the rows of its request-scoped session and the store
    changes only at [db.session.commit()].  The session flushes before every
    query, so a query sees the rows the route added or changed before it:
    the session is modelled as a working copy of the store.  A query that
    fails raises out of the route and the request ends without a commit;
    the model lets the store fail at the commit only. *)

Record DB := mkDB {
  users : list User;
  resident_infos : list ResidentInfo;
  police_infos : list PoliceInfo;
  applications : list AddressApplication;
  appointments : list Appointment;
  weekly_schedules : list WeeklySchedule;
  scheduled_breaks : list ScheduledBreak;
  slots : list AvailableTimeSlot;
  certificates : list AddressCertificate
}.

Definition with_users (v : list User) (db : DB) : DB :=
  mkDB v (resident_infos db) (police_infos db) (applications db)
       (appointments db) (weekly_schedules db) (scheduled_breaks db)
       (slots db) (certificates db).
Definition with_resident_infos (v : list ResidentInfo) (db : DB) : DB :=
  mkDB (users db) v (police_infos db) (applications db)
       (appointments db) (weekly_schedules db) (scheduled_breaks db)
       (slots db) (certificates db).
Definition with_applications (v : list AddressApplication) (db : DB) : DB :=
  mkDB (users db) (resident_infos db) (police_infos db) v
       (appointments db) (weekly_schedules db) (scheduled_breaks db)
       (slots db) (certificates db).
Definition with_appointments (v : list Appointment) (db : DB) : DB :=
  mkDB (users db) (resident_infos db) (police_infos db) (applications db)
       v (weekly_schedules db) (scheduled_breaks db)
       (slots db) (certificates db).
Definition with_weekly_schedules (v : list WeeklySchedule) (db : DB) : DB :=
  mkDB (users db) (resident_infos db) (police_infos db) (applications db)
       (appointments db) v (scheduled_breaks db)
       (slots db) (certificates db).
Definition with_scheduled_breaks (v : list ScheduledBreak) (db : DB) : DB :=
  mkDB (users db) (resident_infos db) (police_infos db) (applications db)
       (appointments db) (weekly_schedules db) v
       (slots db) (certificates db).
Definition with_slots (v : list AvailableTimeSlot) (db : DB) : DB :=
  mkDB (users db) (resident_infos db) (police_infos db) (applications db)
       (appointments db) (weekly_schedules db) (scheduled_breaks db)
       v (certificates db).
Definition with_certificates (v : list AddressCertificate) (db : DB) : DB :=
  mkDB (users db) (resident_infos db) (police_infos db) (applications db)
       (appointments db) (weekly_schedules db) (scheduled_breaks db)
       (slots db) v.

(** Integer primary keys are assigned as SQLite does for a rowid alias:
    one more than the largest key of the table, 1 for an empty table. *)
Definition next_id (ids : list Z) : Z := 1 + fold_right Z.max 0 ids.

(** [Model.query.get(k)] and [query.filter(...).first()]: rows are visited in
    table order. *)
Definition first {A : Type} (p : A -> bool) (rows : list A) : option A :=
  find p rows.

(** Assignment to attributes of the rows a query returned: every row of the
    table that satisfies [p] is replaced by its image under [f]. *)
Definition update_where {A : Type} (p : A -> bool) (f : A -> A)
    (rows : list A) : list A :=
  map (fun r => if p r then f r else r) rows.

(** Assignment to attributes of the one row [.first()] returned. *)
Fixpoint update_first {A : Type} (p : A -> bool) (f : A -> A)
    (rows : list A) : list A :=
  match rows with
  | [] => []
  | r :: rest => if p r then f r :: rest else r :: update_first p f rest
  end.

(** [db.session.commit()]: the store takes the whole session or, when it
    refuses the transaction ([accepts = false]: a violated constraint, a
    lost connection), raises and keeps what it had. *)
Definition commit (accepts : bool) (session : DB) : option DB :=
  if accepts then Some session else None.

(** The store is SQLite: its INTEGER is a signed 64-bit number, and binding
    a Python [int] outside that range to a statement raises
    [OverflowError].  The numbers a form submits are checked where the
    routes bind them; keys that arrive in a URL or a form are taken within
    the range. *)
Definition fits_int64 (n : Z) : bool :=
  (- 2 ^ 63 <=? n) && (n <=? 2 ^ 63 - 1).

(** What a route answers: a redirect after a flashed message of the given
    category, a redirect with no message, a rendered page, the redirect of [@login_required], the 404 of
    [get_or_404], or an unhandled exception (HTTP 500; the session is discarded when the request
    ends). *)
Inductive Response :=
| Flash (category : string) (message : string)
| Rendered
| Redirect
| LoginRequired
| NotFound
| ServerError.

(** Flask-Login's [current_user]: the row of the user whose key [uid] the
    login session holds ([current_user.id] is [uid]), or nobody. *)
Definition current_user (db : DB) (uid : Z) : option User :=
  first (fun u => user_id u =? uid) (users db).

(** ** Request forms

    A form field is absent (missing or empty, falsy in Python), present but
    rejected by the parser ([int], [strptime]), or parsed.  The day of the
    week is tested with [is None]: it is [Absent] only when it is missing,
    and an empty day is [Malformed]. *)
Inductive Field (A : Type) : Type :=
| Absent
| Malformed
| Parsed (a : A).
Arguments Absent {A}.
Arguments Malformed {A}.
Arguments Parsed {A} a.

Record WeeklyForm := mkWeeklyForm {
  form_day_of_week : Field Z;
  form_start_time : Field time;
  form_end_time : Field time;
  form_break_starts : list (Field time);     (* getlist('break_start[]') *)
  form_break_ends : list (Field time)        (* getlist('break_end[]') *)
}.

(** ** Weekly slot generation: [police_add_weekly_availability] *)

Definition interview_duration : timedelta := minutes 30.
Definition gap_duration : timedelta := minutes 15.

(** The half-open overlap test of a candidate against the breaks, on
    times of day. *)
Definition is_break_time (break_times : list (time * time))
    (current_slot_start current_slot_end : datetime) : bool :=
  existsb (fun b => let '(break_start, break_end) := b in
             (time_of current_slot_start <? break_end)
             && (time_of current_slot_end >? break_start))
          break_times.

(** The persisted slots of [officer] that overlap [s, e). *)
Definition overlapping_slots (officer : Z) (s e : datetime)
    (rows : list AvailableTimeSlot) : list AvailableTimeSlot :=
  filter (fun r => (officer_id r =? officer)
                   && (start_time r <? e) && (end_time r >? s)) rows.

Definition add_slot (r : AvailableTimeSlot) (session : DB) : DB :=
  with_slots (slots session ++ [r]) session.

Definition new_generated_slot (session : DB) (uid sid : Z)
    (police_info : PoliceInfo) (s e : datetime) : AvailableTimeSlot :=
  mkSlot (next_id (map slot_id (slots session))) uid (Some sid) s e false
         (Some (pi_municipality police_info))
         (Some (stationName police_info))
         (Some (postalCode police_info)).

(** The [while] loop over one day.  Each turn moves [current_slot_start]
    forward by at least the interview duration, so [fuel] turns suffice when
    [fuel] exceeds the number of durations left before [day_end]
    (see [walk_day_fuel]). *)
Fixpoint walk_day (fuel : nat) (police_info : PoliceInfo) (uid sid : Z)
    (break_times : list (time * time)) (day_end : datetime)
    (current_slot_start : datetime) (session : DB) : DB :=
  match fuel with
  | O => session
  | S fuel' =>
      if current_slot_start + interview_duration <=? day_end then
        let current_slot_end := current_slot_start + interview_duration in
        if is_break_time break_times current_slot_start current_slot_end then
          walk_day fuel' police_info uid sid break_times day_end
                   current_slot_end session
        else
          let session' :=
            match overlapping_slots uid current_slot_start current_slot_end
                                    (slots session) with
            | [] => add_slot (new_generated_slot session uid sid police_info
                                current_slot_start current_slot_end) session
            | _ :: _ => session
            end in
          walk_day fuel' police_info uid sid break_times day_end
                   (current_slot_end + gap_duration) session'
      else session
  end.

Definition day_fuel (day_start day_end : datetime) : nat :=
  S (Z.to_nat ((day_end - day_start) / interview_duration)).

(** The breaks stored for the schedule, as pairs of times of day. *)
Definition break_times_of (session : DB) (sid : Z) : list (time * time) :=
  map (fun b => (break_start_time b, break_end_time b))
      (filter (fun b => schedule_id b =? sid) (scheduled_breaks session)).

(** One turn of [for week in range(4)]; [clock week] is what
    [datetime.now()] reads at the guard of that turn. *)
Definition generate_week (police_info : PoliceInfo) (uid sid : Z)
    (start_time_obj end_time_obj : time) (next_date : date)
    (clock : nat -> datetime) (session : DB) (week : nat) : DB :=
  let slot_date := next_date + Z.of_nat week * 7 in
  let day_start := combine slot_date start_time_obj in
  let day_end := combine slot_date end_time_obj in
  if day_start <? clock week then session
  else
    let break_times := break_times_of session sid in
    walk_day (day_fuel day_start day_end) police_info uid sid break_times
             day_end day_start session.

(** The loop over the submitted breaks.  [break_ends[i]] is read only when
    [break_starts[i]] is truthy; reading past the end of [break_ends] raises
    ([None]).  A pair that does not parse is logged and skipped. *)
Fixpoint add_breaks (sid : Z) (break_starts break_ends : list (Field time))
    (i : nat) (session : DB) : option DB :=
  match break_starts with
  | [] => Some session
  | bs :: rest =>
      match bs with
      | Absent => add_breaks sid rest break_ends (S i) session
      | _ =>
          match nth_error break_ends i with
          | None => None
          | Some be =>
              match bs, be with
              | Parsed s, Parsed e =>
                  add_breaks sid rest break_ends (S i)
                    (with_scheduled_breaks
                       (scheduled_breaks session ++
                        [mkScheduledBreak
                           (next_id (map sb_id (scheduled_breaks session)))
                           sid s e])
                       session)
              | _, _ => add_breaks sid rest break_ends (S i) session
              end
          end
      end
  end.

Definition days_ahead_of (day_of_week : Z) (end_time_obj : time)
    (now : datetime) : Z :=
  let days_ahead := (day_of_week - weekday (date_of now)) mod 7 in
  if days_ahead =? 0 then
    if time_of now >=? end_time_obj then 7 else days_ahead
  else days_ahead.

Definition police_info_of (db : DB) (uid : Z) : option PoliceInfo :=
  first (fun p => pi_user_id p =? uid) (police_infos db).

Definition police_add_weekly_availability (db : DB) (uid : Z)
    (form : WeeklyForm) (now : datetime) (clock : nat -> datetime)
    (accepts : bool) : DB * Response :=
  match current_user db uid with
  | None => (db, LoginRequired)
  | Some cu =>
  if negb (userType cu =? "police")%string then
    (db, Flash "danger" "Access denied.")
  else
  match police_info_of db uid with
  | None => (db, Flash "warning" "Your police officer account is pending approval.")
  | Some police_info =>
  if negb (isApproved police_info) then
    (db, Flash "warning" "Your police officer account is pending approval.")
  else
  match form_day_of_week form, form_start_time form, form_end_time form with
  | Absent, _, _ | _, Absent, _ | _, _, Absent =>
      (db, Flash "danger" "Please select a day and provide both start and end times.")
  | Malformed, _, _ | _, Malformed, _ | _, _, Malformed =>
      (db, Flash "danger" "Invalid time format. Please use the time picker.")
  | Parsed day_of_week, Parsed start_time_obj, Parsed end_time_obj =>
  if start_time_obj >=? end_time_obj then
    (db, Flash "danger" "Start time must be before end time.")
  else
  (* the query for an existing schedule binds day_of_week, outside any try *)
  if negb (fits_int64 day_of_week) then (db, ServerError)
  else
  match first (fun w => (ws_officer_id w =? uid)
                        && (Models.day_of_week w =? day_of_week)
                        && is_active w) (weekly_schedules db) with
  | Some _ =>
      (db, Flash "warning" "You already have a schedule for this day. Please delete the existing schedule first.")
  | None =>
      let failed := (db, Flash "danger" "An error occurred while saving your weekly schedule. Please try again.") in
      let sid := next_id (map ws_id (weekly_schedules db)) in
      let session :=
        with_weekly_schedules
          (weekly_schedules db ++
           [mkWeeklySchedule sid uid day_of_week start_time_obj end_time_obj true])
          db in
      match add_breaks sid (form_break_starts form) (form_break_ends form)
                       0%nat session with
      | None => failed
      | Some session =>
          let next_date :=
            date_of now + days_ahead_of day_of_week end_time_obj now in
          let session :=
            fold_left (generate_week police_info uid sid start_time_obj
                         end_time_obj next_date clock)
                      (seq 0 4) session in
          match commit accepts session with
          | None => failed
          | Some db' =>
              (* days[day_of_week] in the flashed message *)
              if (-7 <=? day_of_week) && (day_of_week <=? 6) then
                (db', Flash "success" "Added weekly schedule for {day} and generated {slots_added} interview slots.")
              else (db', snd failed)
          end
      end
  end
  end
  end
  end.


(** ** Ad-hoc slots: [police_add_availability] *)

Record SlotForm := mkSlotForm {
  form_slot_date : Field date;
  form_slot_start : Field time;
  form_slot_end : Field time
}.

Definition police_add_availability (db : DB) (uid : Z) (form : SlotForm)
    (now : datetime) (accepts : bool) : DB * Response :=
  match current_user db uid with
  | None => (db, LoginRequired)
  | Some cu =>
  if negb (userType cu =? "police")%string then
    (db, Flash "danger" "Access denied.")
  else
  match police_info_of db uid with
  | None => (db, Flash "warning" "Your police officer account is pending approval.")
  | Some police_info =>
  if negb (isApproved police_info) then
    (db, Flash "warning" "Your police officer account is pending approval.")
  else
  match form_slot_date form, form_slot_start form, form_slot_end form with
  | Absent, _, _ | _, Absent, _ | _, _, Absent =>
      (db, Flash "danger" "All fields are required.")
  | Malformed, _, _ | _, Malformed, _ | _, _, Malformed =>
      (db, Flash "danger" "Invalid date or time format.")
  | Parsed slot_date, Parsed start_t, Parsed end_t =>
  let start_datetime := combine slot_date start_t in
  let end_datetime := combine slot_date end_t in
  if start_datetime >=? end_datetime then
    (db, Flash "danger" "End time must be after start time.")
  else if start_datetime <? now then
    (db, Flash "danger" "Cannot add time slots in the past.")
  else
  match overlapping_slots uid start_datetime end_datetime (slots db) with
  | _ :: _ =>
      (db, Flash "danger" "This time slot overlaps with an existing slot.")
  | [] =>
      let new_slot :=
        mkSlot (next_id (map slot_id (slots db))) uid None
               start_datetime end_datetime false
               (Some (pi_municipality police_info))
               (Some (stationName police_info))
               (Some (postalCode police_info)) in
      match commit accepts (add_slot new_slot db) with
      | Some db' => (db', Flash "success" "Time slot added successfully.")
      | None => (db, Flash "danger" "An error occurred. Please try again.")
      end
  end
  end
  end
  end.

(** ** Certificate numbers

    [uuid.uuid4().hex] is ['%032x' % self.int]: the 32 lowercase hexadecimal
    digits of the 128-bit integer of the UUID, most significant first. *)

Definition hex_digit (d : Z) : ascii :=
  if d <? 10 then ascii_of_nat (Z.to_nat (48 + d))
  else ascii_of_nat (Z.to_nat (87 + d)).

Fixpoint hex_digits (n : nat) (v : Z) (acc : list ascii) : list ascii :=
  match n with
  | O => acc
  | S n' => hex_digits n' (v / 16) (hex_digit (v mod 16) :: acc)
  end.

Definition uuid_hex (uuid_int : Z) : list ascii := hex_digits 32 uuid_int [].

(** [str.upper()] on ASCII text. *)
Definition upper_char (c : ascii) : ascii :=
  let n := nat_of_ascii c in
  if (97 <=? n)%nat && (n <=? 122)%nat then ascii_of_nat (n - 32) else c.

Definition upper (s : list ascii) : list ascii := map upper_char s.

(** [f"AM-{uuid.uuid4().hex[:8].upper()}"] *)
Definition make_certificate_number (uuid_int : Z) : string :=
  ("AM-" ++ string_of_list_ascii (upper (firstn 8 (uuid_hex uuid_int))))%string.

(** The certificate the booking routes and the interview route build. *)
Definition new_certificate (session : DB) (application : AddressApplication)
    (uuid_int : Z) (now : datetime) : AddressCertificate :=
  let certificate_number := make_certificate_number uuid_int in
  let issue_date := now in
  let expiry_date := issue_date + days 365 in
  mkCertificate (next_id (map cert_id (certificates session)))
                (app_id application) certificate_number issue_date expiry_date
                "/static/certificates/demo_certificate.pdf".

(** [certificate_number] is declared [unique=True]: the store refuses a
    second certificate with a number it already holds. *)
Definition certificate_number_free (db : DB) (c : AddressCertificate) : bool :=
  negb (existsb (fun c' => (certificate_number c' =? certificate_number c)%string)
                (certificates db)).

(** ** Booking: [book_interview_slot] *)

Definition set_booked (b : bool) (s : AvailableTimeSlot) : AvailableTimeSlot :=
  mkSlot (slot_id s) (officer_id s) (weekly_schedule_id s) (start_time s)
         (end_time s) b (municipality s) (station_name s) (postal_code s).

Definition set_app_status (st : string) (a : AddressApplication)
    : AddressApplication :=
  mkApplication (app_id a) (applicant_id a) (app_officer_id a) st
                (leader_notes a) (officer_notes a) (app_created_at a).

Definition set_app_officer (officer : Z) (a : AddressApplication)
    : AddressApplication :=
  mkApplication (app_id a) (applicant_id a) (Some officer) (app_status a)
                (leader_notes a) (officer_notes a) (app_created_at a).

Definition set_officer_notes (n : string) (a : AddressApplication)
    : AddressApplication :=
  mkApplication (app_id a) (applicant_id a) (app_officer_id a) (app_status a)
                (leader_notes a) (Some n) (app_created_at a).

Definition set_leader_notes (n : string) (a : AddressApplication)
    : AddressApplication :=
  mkApplication (app_id a) (applicant_id a) (app_officer_id a) (app_status a)
                (Some n) (officer_notes a) (app_created_at a).

Definition set_appt_status (st : string) (a : Appointment) : Appointment :=
  mkAppointment (appt_id a) (resident_id a) (appt_officer_id a)
                (application_id a) (appointment_date a) (duration_minutes a) st.

(** The auto-approval both booking routes apply to the application. *)
Definition auto_approve (officer : Z) (a : AddressApplication)
    : AddressApplication :=
  set_officer_notes "Auto-approved for testing purposes"
    (set_app_officer officer (set_app_status "approved" a)).

(** The filter of the buffer query: the other, unbooked slots of the officer
    that start before the buffered end and end after the booked slot starts. *)
Definition in_buffer (time_slot : AvailableTimeSlot) (s : AvailableTimeSlot)
    : bool :=
  let buffer_end_time := end_time time_slot + minutes 15 in
  (officer_id s =? officer_id time_slot)
  && negb (slot_id s =? slot_id time_slot)
  && negb (is_booked s)
  && (start_time s <? buffer_end_time)
  && (end_time s >? start_time time_slot).

(** The keys a booking form carries; [None] is a missing or empty field.  A
    field that is not a number finds no row, like a number that is no key. *)
Record BookForm := mkBookForm {
  book_slot_id : option Z;
  book_application_id : option Z
}.

(** The changes the route makes to the rows of the session between the
    checks and the commit: the appointment and the certificate it builds,
    the flags and the status it sets. *)
Definition booking_session (db : DB) (cu : User)
    (application : AddressApplication) (time_slot : AvailableTimeSlot)
    (now : datetime) (uuid_int : Z) : DB :=
  let appointment :=
    mkAppointment (next_id (map appt_id (appointments db)))
                  (user_id cu) (officer_id time_slot) (app_id application)
                  (start_time time_slot) 30 "completed" in
  (* time_slot.is_booked = True *)
  let session :=
    with_slots (update_first (fun s => slot_id s =? slot_id time_slot)
                             (set_booked true) (slots db)) db in
  (* for slot in overlapping_slots: slot.is_booked = True *)
  let session :=
    with_slots (update_where (in_buffer time_slot) (set_booked true)
                             (slots session)) session in
  let session :=
    with_applications
      (update_first (fun a => app_id a =? app_id application)
                    (auto_approve (officer_id time_slot))
                    (applications session)) session in
  let certificate := new_certificate session application uuid_int now in
  let session :=
    with_appointments (appointments session ++ [appointment]) session in
  with_certificates (certificates session ++ [certificate]) session.

Definition booked_flash : Response :=
  Flash "success" "Interview scheduled and automatically approved for testing! You may now download your address certificate.".

Definition book_interview_slot (db : DB) (uid : Z) (form : BookForm)
    (now : datetime) (uuid_int : Z) (accepts : bool) : DB * Response :=
  match current_user db uid with
  | None => (db, LoginRequired)
  | Some cu =>
  if negb (userType cu =? "resident")%string then
    (db, Flash "danger" "Access denied.")
  else
  match book_slot_id form, book_application_id form with
  | None, _ | _, None => (db, Flash "danger" "Missing required information.")
  | Some slot_id, Some application_id =>
  match first (fun a => app_id a =? application_id) (applications db) with
  | None => (db, Flash "danger" "Application not found.")
  | Some application =>
  if negb (applicant_id application =? user_id cu) then
    (db, Flash "danger" "Application not found.")
  else if negb (app_status application =? "leader_approved")%string then
    (db, Flash "danger" "This application is not ready for interview scheduling.")
  else
  match first (fun s => Models.slot_id s =? slot_id) (slots db) with
  | None => (db, Flash "danger" "Time slot not found.")
  | Some time_slot =>
  if is_booked time_slot then
    (db, Flash "danger" "This time slot is no longer available.")
  else
    let session := booking_session db cu application time_slot now uuid_int in
    let certificate := new_certificate db application uuid_int now in
    match commit (accepts && certificate_number_free db certificate) session with
    | Some db' => (db', booked_flash)
    | None => (db, Flash "danger" "An error occurred: {e}")
    end
  end
  end
  end
  end.

(** ** Booking from the schedule page: [resident_schedule_interview] *)

Inductive Method := GET | POST.

(** [order_by(created_at.desc()).first()]: the row created last, the earliest
    in table order among equals. *)
Fixpoint latest_created (rows : list AddressApplication)
    : option AddressApplication :=
  match rows with
  | [] => None
  | a :: rest =>
      match latest_created rest with
      | None => Some a
      | Some b => if app_created_at a >=? app_created_at b then Some a else Some b
      end
  end.

Definition resident_schedule_interview (db : DB) (uid : Z) (method : Method)
    (form_slot_id : option Z) (now : datetime) (uuid_int : Z)
    (accepts : bool) : DB * Response :=
  match current_user db uid with
  | None => (db, LoginRequired)
  | Some cu =>
  if negb (userType cu =? "resident")%string then
    (db, Flash "danger" "Access denied.")
  else
  match latest_created
          (filter (fun a => (applicant_id a =? user_id cu)
                            && (app_status a =? "leader_approved")%string)
                  (applications db)) with
  | None =>
      (db, Flash "warning" "You can only schedule an interview after your application has been approved by the community leader.")
  | Some pending_application =>
  match first (fun p => application_id p =? app_id pending_application)
              (appointments db) with
  | Some _ => (db, Flash "info" "You already have a scheduled interview.")
  | None =>
  match method with
  | GET => (db, Rendered)
  | POST =>
  match form_slot_id with
  | None => (db, Flash "warning" "Please select a time slot.")
  | Some slot_id =>
  match first (fun s => Models.slot_id s =? slot_id) (slots db) with
  | None => (db, Flash "danger" "The selected time slot is no longer available.")
  | Some time_slot =>
  if is_booked time_slot then
    (db, Flash "danger" "The selected time slot is no longer available.")
  else
    let appointment :=
      mkAppointment (next_id (map appt_id (appointments db)))
                    (user_id cu) (officer_id time_slot)
                    (app_id pending_application)
                    (start_time time_slot) 30 "completed" in
    (* time_slot.is_booked = True *)
    let session :=
      with_slots (update_first (fun s => Models.slot_id s =? slot_id)
                               (set_booked true) (slots db)) db in
    let session :=
      with_applications
        (update_first (fun a => app_id a =? app_id pending_application)
                      (auto_approve (officer_id time_slot))
                      (applications session)) session in
    let certificate :=
      new_certificate session pending_application uuid_int now in
    let session :=
      with_appointments (appointments session ++ [appointment]) session in
    let session :=
      with_certificates (certificates session ++ [certificate]) session in
    match commit (accepts && certificate_number_free db certificate) session with
    | Some db' => (db', booked_flash)
    | None => (db, Flash "danger" "An error occurred: {e}")
    end
  end
  end
  end
  end
  end
  end.

(** ** The per-application schedule page: [schedule_interview] *)

(** [User.query.join(PoliceInfo).filter(PoliceInfo.isApproved == True)]:
    the users that have an approved police record.  SQLite walks the police
    records, the table the filter is on, and looks the user of each record
    up by key, so the rows come in the order of the police records.  The
    route uses the list for [officers[0]] and for its emptiness only. *)
Definition approved_officers (db : DB) : list User :=
  flat_map (fun p => if isApproved p
                     then filter (fun u => user_id u =? pi_user_id p) (users db)
                     else [])
           (police_infos db).

(** The demo slots: 09:00, 11:00, 13:00 and 15:00 on each of the seven days
    that start tomorrow, thirty minutes each, for the first officer. *)
Definition mock_slot_times (now : datetime) : list datetime :=
  let start_date := now + days 1 in
  flat_map (fun day =>
              let slot_date := start_date + days day in
              map (fun hour => combine (date_of slot_date) 0 + hours hour)
                  [9; 11; 13; 15])
           [0; 1; 2; 3; 4; 5; 6].

Definition add_mock_slots (officer : Z) (times : list datetime) (session : DB)
    : DB :=
  fold_left (fun s slot_time =>
               add_slot (mkSlot (next_id (map slot_id (slots s))) officer None
                                slot_time (slot_time + minutes 30) false
                                None None None) s)
            times session.

Definition schedule_interview (db : DB) (uid : Z) (application_id : Z)
    (method : Method) (form_time_slot : option Z) (now : datetime)
    (accepts_slots accepts_booking : bool) : DB * Response :=
  match current_user db uid with
  | None => (db, LoginRequired)
  | Some cu =>
  if negb (userType cu =? "resident")%string then
    (db, Flash "danger" "Access denied.")
  else
  match first (fun a => app_id a =? application_id) (applications db) with
  | None => (db, NotFound)
  | Some application =>
  if negb (applicant_id application =? user_id cu) then
    (db, Flash "danger" "Access denied.")
  else if negb (app_status application =? "leader_approved")%string then
    (db, Flash "warning" "Your application is not ready for interview scheduling.")
  else
  let officers := approved_officers db in
  let available_slots := filter (fun s => negb (is_booked s)) (slots db) in
  (* For demo purposes, create some available time slots if none exist *)
  let seeded :=
    match available_slots, officers with
    | [], officer :: _ =>
        commit accepts_slots
               (add_mock_slots (user_id officer) (mock_slot_times now) db)
    | _, _ => Some db
    end in
  match seeded with
  | None => (db, ServerError)
  | Some db1 =>
  match method with
  | GET => (db1, Rendered)
  | POST =>
  match form_time_slot with
  | None => (db1, Flash "danger" "Please select a time slot.")
  | Some slot_id =>
  match first (fun s => Models.slot_id s =? slot_id) (slots db1) with
  | None => (db1, Flash "danger" "The selected time slot is no longer available.")
  | Some slot =>
  if is_booked slot then
    (db1, Flash "danger" "The selected time slot is no longer available.")
  else
    let session :=
      with_slots (update_first (fun s => Models.slot_id s =? slot_id)
                               (set_booked true) (slots db1)) db1 in
    let appointment :=
      mkAppointment (next_id (map appt_id (appointments db1)))
                    (user_id cu) (officer_id slot) (app_id application)
                    (start_time slot) 30 "scheduled" in
    let session :=
      with_applications
        (update_first (fun a => app_id a =? application_id)
                      (fun a => set_app_officer (officer_id slot)
                                  (set_app_status "interview_scheduled" a))
                      (applications session)) session in
    let session :=
      with_appointments (appointments session ++ [appointment]) session in
    match commit accepts_booking session with
    | Some db' => (db', Flash "success" "Interview successfully scheduled.")
    | None => (db1, ServerError)
    end
  end
  end
  end
  end
  end
  end.

(** ** Cancellation: [cancel_interview] *)

(** The changes the route makes to the rows of the session before the
    commit. *)
Definition cancellation_session (db : DB) (appointment : Appointment) : DB :=
  (* appointment.status = 'cancelled' *)
  let session :=
    with_appointments
      (update_first (fun p => appt_id p =? appt_id appointment)
                    (set_appt_status "cancelled") (appointments db)) db in
  (* if application: application.status = 'leader_approved' *)
  let session :=
    with_applications
      (update_first (fun a => app_id a =? application_id appointment)
                    (set_app_status "leader_approved")
                    (applications session)) session in
  (* time_slot = ...filter_by(officer_id, start_time, is_booked=True).first()
     if time_slot: time_slot.is_booked = False *)
  with_slots
    (update_first (fun s => (officer_id s =? appt_officer_id appointment)
                            && (start_time s =? appointment_date appointment)
                            && is_booked s)
                  (set_booked false) (slots session)) session.

Definition cancel_interview (db : DB) (uid : Z) (form_appointment_id : option Z)
    (accepts : bool) : DB * Response :=
  match current_user db uid with
  | None => (db, LoginRequired)
  | Some cu =>
  if negb (userType cu =? "resident")%string then
    (db, Flash "danger" "Access denied.")
  else
  match form_appointment_id with
  | None => (db, Flash "danger" "Missing appointment information.")
  | Some appointment_id =>
  match first (fun p => appt_id p =? appointment_id) (appointments db) with
  | None => (db, Flash "danger" "Appointment not found.")
  | Some appointment =>
  if negb (resident_id appointment =? user_id cu) then
    (db, Flash "danger" "Appointment not found.")
  else if negb (appt_status appointment =? "scheduled")%string then
    (db, Flash "danger" "This appointment cannot be cancelled.")
  else
    match commit accepts (cancellation_session db appointment) with
    | Some db' => (db', Flash "success" "Interview cancelled successfully.")
    | None => (db, Flash "danger" "An error occurred. Please try again.")
    end
  end
  end
  end.

(** ** Profile changes: [resident_profile_settings] *)

(** A submitted text field is truthy when it is present and not empty. *)
Definition truthy (v : option string) : bool :=
  match v with
  | Some s => negb (s =? "")%string
  | None => false
  end.

(** The text of a field that was found truthy. *)
Definition text (v : option string) : string :=
  match v with
  | Some s => s
  | None => ""
  end.

Record ProfileForm := mkProfileForm {
  form_type : string;
  form_firstName : option string;
  form_lastName : option string;
  form_phoneNumber : option string;
  form_email : option string;
  form_idPhoto : option string;          (* filename of the uploaded file *)
  form_profilePhoto : option string;
  (* currentPassword: missing, or what check_password_hash answers for it
     against the stored hash, which is outside the modelled store *)
  form_currentPassword : option bool;
  form_newPassword : option string;
  form_confirmPassword : option string
}.

(** [a != b] for two fields that may be missing ([None == None]). *)
Definition fields_differ (a b : option string) : bool :=
  match a, b with
  | Some x, Some y => negb (x =? y)%string
  | None, None => false
  | _, _ => true
  end.

Definition set_identity (first_name last_name email : string) (u : User)
    : User :=
  mkUser (user_id u) (first_name ++ " " ++ last_name)%string email
         (userType u) false.

Definition set_unverified (u : User) : User :=
  mkUser (user_id u) (fullName u) (email u) (userType u) false.

Definition set_names (first_name last_name phone_number : string)
    (r : ResidentInfo) : ResidentInfo :=
  mkResidentInfo (ri_id r) (ri_user_id r) first_name last_name phone_number.

(** Every pending application of the user is cancelled with the given note. *)
Definition cancel_pending (uid : Z) (note : string)
    (rows : list AddressApplication) : list AddressApplication :=
  update_where (fun a => (applicant_id a =? uid)
                         && (app_status a =? "pending")%string)
               (fun a => set_leader_notes note (set_app_status "cancelled" a))
               rows.

(** [email] is declared [unique=True]. *)
Definition email_free (db : DB) (uid : Z) (e : string) : bool :=
  negb (existsb (fun u => negb (user_id u =? uid) && (email u =? e)%string)
                (users db)).

Definition resident_profile_settings (db : DB) (uid : Z) (method : Method)
    (form : ProfileForm) (accepts : bool) : DB * Response :=
  match current_user db uid with
  | None => (db, LoginRequired)
  | Some cu =>
  if negb (userType cu =? "resident")%string then
    (db, Flash "danger" "Access denied.")
  else
  let resident_info :=
    first (fun r => ri_user_id r =? user_id cu) (resident_infos db) in
  match method with
  | GET => (db, Rendered)
  | POST =>
  if (form_type form =? "personal_info")%string then
    let first_name := form_firstName form in
    let last_name := form_lastName form in
    let phone_number := form_phoneNumber form in
    let email := form_email form in
    if truthy first_name && truthy last_name
       && truthy phone_number && truthy email then
      match resident_info with
      | None => (db, ServerError)     (* attribute of None *)
      | Some _ =>
          let session :=
            with_resident_infos
              (update_first (fun r => ri_user_id r =? user_id cu)
                            (set_names (text first_name) (text last_name)
                                       (text phone_number))
                            (resident_infos db)) db in
          let session :=
            with_users
              (update_first (fun u => user_id u =? uid)
                            (set_identity (text first_name) (text last_name)
                                          (text email))
                            (users session)) session in
          let session :=
            with_applications
              (cancel_pending (user_id cu)
                 "Application cancelled due to profile information change."
                 (applications session)) session in
          match commit (accepts && email_free db uid (text email)) session with
          | Some db' =>
              (db', Flash "warning" "Personal information updated successfully! Your address verification has been reset and will need to be verified again.")
          | None => (db, ServerError)
          end
      end
    else (db, Flash "danger" "Please fill in all required fields.")
  else if (form_type form =? "security")%string then
    if fields_differ (form_newPassword form) (form_confirmPassword form) then
      (db, Flash "danger" "New passwords do not match.")
    else
      match form_currentPassword form with
      | None => (db, ServerError)      (* the hash of a missing password *)
      | Some false => (db, Flash "danger" "Current password is incorrect.")
      | Some true =>
          match form_newPassword form with
          | None => (db, ServerError)  (* the hash of a missing password *)
          | Some _ =>
              (* only the password hash, which is not modelled, changes *)
              match commit accepts db with
              | Some db' => (db', Flash "success" "Password updated successfully!")
              | None => (db, ServerError)
              end
          end
      end
  else if (form_type form =? "id_photo")%string
          && match form_idPhoto form with Some _ => true | None => false end then
    if truthy (form_idPhoto form) then
      match resident_info with
      | None => (db, ServerError)
      | Some _ =>
          let session :=
            with_users (update_first (fun u => user_id u =? uid) set_unverified
                                     (users db)) db in
          let session :=
            with_applications
              (cancel_pending (user_id cu)
                 "Application cancelled due to ID photo change."
                 (applications session)) session in
          match commit accepts session with
          | Some db' =>
              (db', Flash "warning" "ID photo updated successfully! Your address verification has been reset and will need to be verified again.")
          | None => (db, ServerError)
          end
      end
    else (db, Redirect)
  else if (form_type form =? "face_photo")%string
          && match form_profilePhoto form with Some _ => true | None => false end then
    if truthy (form_profilePhoto form) then
      match resident_info with
      | None => (db, ServerError)
      | Some _ =>
          let session :=
            with_users (update_first (fun u => user_id u =? uid) set_unverified
                                     (users db)) db in
          let session :=
            with_applications
              (cancel_pending (user_id cu)
                 "Application cancelled due to profile photo change."
                 (applications session)) session in
          match commit accepts session with
          | Some db' =>
              (db', Flash "warning" "Profile photo updated successfully! Your address verification has been reset and will need to be verified again.")
          | None => (db, ServerError)
          end
      end
    else (db, Redirect)
  else if (form_type form =? "notifications")%string then
    (db, Flash "success" "Notification preferences updated successfully!")
  else (db, Redirect)
  end
  end.

(** ** Removing a slot: [police_delete_availability] *)

(** [db.session.delete(row)] for the row [.first()] or [.get()] returned. *)
Fixpoint delete_first {A : Type} (p : A -> bool) (rows : list A) : list A :=
  match rows with
  | [] => []
  | r :: rest => if p r then rest else r :: delete_first p rest
  end.

Definition police_delete_availability (db : DB) (uid : Z) (slot_id : Z)
    (accepts : bool) : DB * Response :=
  match current_user db uid with
  | None => (db, LoginRequired)
  | Some cu =>
  if negb (userType cu =? "police")%string then
    (db, Flash "danger" "Access denied.")
  else
  match police_info_of db uid with
  | None => (db, Flash "warning" "Your police officer account is pending approval.")
  | Some police_info =>
  if negb (isApproved police_info) then
    (db, Flash "warning" "Your police officer account is pending approval.")
  else
  match first (fun s => Models.slot_id s =? slot_id) (slots db) with
  | None => (db, Flash "danger" "Time slot not found.")
  | Some time_slot =>
  if negb (officer_id time_slot =? uid) then
    (db, Flash "danger" "Time slot not found.")
  else if is_booked time_slot then
    (db, Flash "danger" "Cannot delete a booked time slot.")
  else
    match commit accepts
            (with_slots (delete_first (fun s => Models.slot_id s =? slot_id)
                                      (slots db)) db) with
    | Some db' => (db', Flash "success" "Time slot deleted successfully.")
    | None => (db, Flash "danger" "An error occurred. Please try again.")
    end
  end
  end
  end.

(** ** Removing a weekly schedule: [police_delete_weekly_schedule] *)

Definition set_active (b : bool) (w : WeeklySchedule) : WeeklySchedule :=
  mkWeeklySchedule (ws_id w) (ws_officer_id w) (day_of_week w)
                   (ws_start_time w) (ws_end_time w) b.

(** [AvailableTimeSlot.weekly_schedule_id == sid]; a slot without a schedule
    compares unequal. *)
Definition generated_by (sid : Z) (s : AvailableTimeSlot) : bool :=
  match weekly_schedule_id s with
  | Some k => k =? sid
  | None => false
  end.

Definition police_delete_weekly_schedule (db : DB) (uid : Z) (schedule_id : Z)
    (now : datetime) (accepts : bool) : DB * Response :=
  match current_user db uid with
  | None => (db, LoginRequired)
  | Some cu =>
  if negb (userType cu =? "police")%string then
    (db, Flash "danger" "Access denied.")
  else
  match police_info_of db uid with
  | None => (db, Flash "warning" "Your police officer account is pending approval.")
  | Some police_info =>
  if negb (isApproved police_info) then
    (db, Flash "warning" "Your police officer account is pending approval.")
  else
  match first (fun w => (ws_id w =? schedule_id) && (ws_officer_id w =? uid))
              (weekly_schedules db) with
  | None => (db, Flash "danger" "Schedule not found.")
  | Some schedule =>
      let failed := Flash "danger" "An error occurred while removing the schedule. Please try again." in
      (* schedule.is_active = False *)
      let session :=
        with_weekly_schedules
          (update_first (fun w => (ws_id w =? schedule_id)
                                  && (ws_officer_id w =? uid))
                        (set_active false) (weekly_schedules db)) db in
      (* the future, unbooked slots of the schedule are deleted *)
      let session :=
        with_slots
          (filter (fun s => negb (generated_by (ws_id schedule) s
                                  && negb (is_booked s)
                                  && (start_time s >? now)))
                  (slots session)) session in
      match commit accepts session with
      | None => (db, failed)
      | Some db' =>
          (* days[schedule.day_of_week] in the flashed message *)
          if (-7 <=? day_of_week schedule) && (day_of_week schedule <=? 6) then
            (db', Flash "success" "Removed weekly schedule for {day} and {deleted_slots} future slots.")
          else (db', failed)
      end
  end
  end
  end.

(** ** Clearing the availability: [police_clear_availability] *)

Definition police_clear_availability (db : DB) (uid : Z) (now : datetime)
    (accepts : bool) : DB * Response :=
  match current_user db uid with
  | None => (db, LoginRequired)
  | Some cu =>
  if negb (userType cu =? "police")%string then
    (db, Flash "danger" "Access denied.")
  else
  match police_info_of db uid with
  | None => (db, Flash "warning" "Your police officer account is pending approval.")
  | Some police_info =>
  if negb (isApproved police_info) then
    (db, Flash "warning" "Your police officer account is pending approval.")
  else
    (* the future, unbooked slots of the officer are deleted *)
    let session :=
      with_slots
        (filter (fun s => negb ((officer_id s =? uid)
                                && negb (is_booked s)
                                && (start_time s >? now)))
                (slots db)) db in
    (* the active schedules of the officer are marked inactive *)
    let session :=
      with_weekly_schedules
        (update_where (fun w => (ws_officer_id w =? uid) && is_active w)
                      (set_active false) (weekly_schedules session)) session in
    match commit accepts session with
    | Some db' =>
        (db', Flash "success" "Successfully cleared all weekly schedules and {deleted_slots} future available time slots.")
    | None => (db, Flash "danger" "An error occurred. Please try again.")
    end
  end
  end.

(** ** A new address: [resident_update_address]

    The address columns of the resident's record are outside the modelled
    store; of the submitted fields only the ward number can make the route
    fail.  A missing ward number ([Absent]) defaults to 1; for one that
    [int] rejects, the empty text included ([Malformed]), [int] raises; for
    a number SQLite's INTEGER does not hold, the autoflush before the next
    query raises.  Both are caught by the route's [except]. *)

(** The ward number the route gets to store, if any. *)
Definition ward_number (form_wardNumber : Field Z) : option Z :=
  match form_wardNumber with
  | Absent => Some 1
  | Malformed => None
  | Parsed w => if fits_int64 w then Some w else None
  end.

Definition in_flight (st : string) : bool :=
  (st =? "pending")%string || (st =? "leader_approved")%string
  || (st =? "interview_scheduled")%string
  || (st =? "interview_completed")%string.

Definition newline : string := String (ascii_of_nat 10) EmptyString.

Definition superseded_note : string :=
  "This application has been superseded by an address update.".

(** [app.status = 'superseded'] and the note, appended after an empty line
    to notes that are there. *)
Definition supersede (a : AddressApplication) : AddressApplication :=
  mkApplication (app_id a) (applicant_id a) (app_officer_id a) "superseded"
                (leader_notes a)
                (if truthy (officer_notes a)
                 then Some (text (officer_notes a) ++ newline ++ newline
                            ++ superseded_note)%string
                 else Some superseded_note)
                (app_created_at a).

Definition resident_update_address (db : DB) (uid : Z) (method : Method)
    (form_wardNumber : Field Z) (utcnow : datetime) (accepts : bool)
    : DB * Response :=
  match current_user db uid with
  | None => (db, LoginRequired)
  | Some cu =>
  if negb (userType cu =? "resident")%string then
    (db, Flash "danger" "Access denied.")
  else
  match first (fun r => ri_user_id r =? user_id cu) (resident_infos db) with
  | None =>
      (db, Flash "warning" "No address information found. Please complete your profile first.")
  | Some resident_info =>
  match latest_created
          (filter (fun a => (applicant_id a =? user_id cu)
                            && in_flight (app_status a))
                  (applications db)) with
  | Some pending_application =>
      (db, Flash "warning" "You already have a pending application. Please wait for it to be processed before updating your address.")
  | None =>
  match method with
  | GET => (db, Rendered)
  | POST =>
      let failed := (db, Flash "danger" "Error updating address: {e}") in
      match ward_number form_wardNumber with
      | None => failed
      | Some _ =>
          let session :=
            with_applications
              (update_where (fun a => (applicant_id a =? user_id cu)
                                      && (app_status a =? "approved")%string)
                            supersede (applications db)) db in
          let new_application :=
            mkApplication (next_id (map app_id (applications session)))
                          (user_id cu) None "pending" None None utcnow in
          let session :=
            with_applications (applications session ++ [new_application])
                              session in
          let session :=
            with_users (update_first (fun u => user_id u =? uid) set_unverified
                                     (users session)) session in
          match commit accepts session with
          | Some db' =>
              (db', Flash "info" "Your address has been updated. You will need to go through the verification process again.")
          | None => failed
          end
      end
  end
  end
  end
  end.

(** ** The leader's decision: [leader_review_application]

    The leaders' records are a table of their own, which the route only
    reads; it is passed to the route.  The [leader_id] the route stores with
    the decision is a column outside the modelled store. *)

Record LeaderInfo := mkLeaderInfo {
  li_id : Z;
  li_user_id : Z;
  li_isApproved : bool
}.

(** [request.form.get(name) == value] *)
Definition field_is (field : option string) (value : string) : bool :=
  match field with
  | Some s => (s =? value)%string
  | None => false
  end.

Definition set_leader_decision (st : string) (notes : option string)
    (a : AddressApplication) : AddressApplication :=
  mkApplication (app_id a) (applicant_id a) (app_officer_id a) st
                notes (officer_notes a) (app_created_at a).

(** [application.status], [application.leader_notes] as the decision
    sets them. *)
Definition leader_decision (db : DB) (application_id : Z) (st : string)
    (notes : option string) : DB :=
  with_applications
    (update_first (fun a => app_id a =? application_id)
                  (set_leader_decision st notes) (applications db)) db.

Definition leader_review_application (leader_infos : list LeaderInfo)
    (db : DB) (uid : Z) (application_id : Z) (method : Method)
    (form_decision : option string) (form_leader_notes : option string)
    (accepts : bool) : DB * Response :=
  match current_user db uid with
  | None => (db, LoginRequired)
  | Some cu =>
  if negb (userType cu =? "leader")%string then
    (db, Flash "danger" "Access denied.")
  else
  match first (fun l => li_user_id l =? user_id cu) leader_infos with
  | None => (db, Flash "warning" "Your account is not yet verified as a leader.")
  | Some leader_info =>
  if negb (li_isApproved leader_info) then
    (db, Flash "warning" "Your account is not yet verified as a leader.")
  else
  match first (fun a => app_id a =? application_id) (applications db) with
  | None => (db, NotFound)
  | Some application =>
  match first (fun u => user_id u =? applicant_id application) (users db) with
  | None => (db, ServerError)          (* resident.id of None *)
  | Some resident =>
  match method with
  | GET => (db, Rendered)
  | POST =>
      let session :=
        if field_is form_decision "approve" then
          leader_decision db application_id "leader_approved" form_leader_notes
        else if field_is form_decision "reject" then
          leader_decision db application_id "rejected" form_leader_notes
        else db in
      let response :=
        if field_is form_decision "approve" then
          Flash "success" "Application has been approved."
        else if field_is form_decision "reject" then
          Flash "info" "Application has been rejected."
        else Redirect in
      match commit accepts session with
      | Some db' => (db', response)
      | None => (db, ServerError)
      end
  end
  end
  end
  end
  end.

(** ** The officer's decision: [conduct_interview]

    The [meeting_notes] the route stores with the appointment are a column
    outside the modelled store. *)

Definition set_officer_decision (st : string) (notes : option string)
    (a : AddressApplication) : AddressApplication :=
  mkApplication (app_id a) (applicant_id a) (app_officer_id a) st
                (leader_notes a) notes (app_created_at a).

(** [appointment.status] and [application.status], [officer_notes] as a
    decision sets them. *)
Definition officer_decision (db : DB) (appointment : Appointment)
    (appointment_status application_status : string) (notes : option string)
    : DB :=
  let session :=
    with_appointments
      (update_first (fun p => appt_id p =? appt_id appointment)
                    (set_appt_status appointment_status) (appointments db)) db in
  with_applications
    (update_first (fun a => app_id a =? application_id appointment)
                  (set_officer_decision application_status notes)
                  (applications session)) session.

Definition conduct_interview (db : DB) (uid : Z) (appointment_id : Z)
    (method : Method) (form_decision : option string)
    (form_officer_notes : option string) (now : datetime) (uuid_int : Z)
    (accepts : bool) : DB * Response :=
  match current_user db uid with
  | None => (db, LoginRequired)
  | Some cu =>
  if negb (userType cu =? "police")%string then
    (db, Flash "danger" "Access denied.")
  else
  match first (fun p => appt_id p =? appointment_id) (appointments db) with
  | None => (db, NotFound)
  | Some appointment =>
  if negb (appt_officer_id appointment =? user_id cu) then
    (db, Flash "danger" "Access denied.")
  else
  let application :=
    first (fun a => app_id a =? application_id appointment) (applications db) in
  match first (fun u => user_id u =? resident_id appointment) (users db) with
  | None => (db, ServerError)          (* resident.id of None *)
  | Some resident =>
  match method with
  | GET => (db, Rendered)
  | POST =>
      if field_is form_decision "approve" then
        match application with
        | None => (db, ServerError)    (* application.status of None *)
        | Some application =>
            let session :=
              officer_decision db appointment "completed" "approved"
                               form_officer_notes in
            let certificate :=
              new_certificate session application uuid_int now in
            let session :=
              with_certificates (certificates session ++ [certificate])
                                session in
            match commit (accepts && certificate_number_free db certificate)
                         session with
            | Some db' =>
                (db', Flash "success" "Application has been approved and certificate generated.")
            | None => (db, ServerError)
            end
        end
      else if field_is form_decision "reject" then
        match application with
        | None => (db, ServerError)
        | Some _ =>
            match commit accepts
                    (officer_decision db appointment "completed" "rejected"
                                      form_officer_notes) with
            | Some db' => (db', Flash "info" "Application has been rejected.")
            | None => (db, ServerError)
            end
        end
      else if field_is form_decision "reschedule" then
        match application with
        | None => (db, ServerError)
        | Some _ =>
            match commit accepts
                    (officer_decision db appointment "cancelled"
                                      "leader_approved" form_officer_notes) with
            | Some db' =>
                (db', Flash "warning" "Interview has been cancelled. The resident will need to reschedule.")
            | None => (db, ServerError)
            end
        end
      else
        match commit accepts db with
        | Some db' => (db', Redirect)
        | None => (db, ServerError)
        end
  end
  end
  end
  end.

(** ** The camera step: [verification]

    The face photo paths and the leader's record are outside the modelled
    store.  The route answers with the same redirect whether or not the
    commit is taken. *)

Definition with_police_infos (v : list PoliceInfo) (db : DB) : DB :=
  mkDB (users db) (resident_infos db) v (applications db)
       (appointments db) (weekly_schedules db) (scheduled_breaks db)
       (slots db) (certificates db).

Definition set_verified (b : bool) (u : User) : User :=
  mkUser (user_id u) (fullName u) (email u) (userType u) b.

Definition set_police_approved (b : bool) (p : PoliceInfo) : PoliceInfo :=
  mkPoliceInfo (pi_id p) (pi_user_id p) (stationName p) (pi_municipality p)
               (postalCode p) b.

Definition verification (db : DB) (uid : Z) (method : Method) (accepts : bool)
    : DB * Response :=
  match current_user db uid with
  | None => (db, LoginRequired)
  | Some cu =>
  match method with
  | GET => (db, Rendered)
  | POST =>
      let verified :=
        with_users (update_first (fun u => user_id u =? uid) (set_verified true)
                                 (users db)) db in
      let session :=
        if (userType cu =? "resident")%string then verified
        else if (userType cu =? "leader")%string then verified
        else if (userType cu =? "police")%string then
          (* current_user.police_info.isApproved = True *)
          with_police_infos
            (update_first (fun p => pi_user_id p =? user_id cu)
                          (set_police_approved true) (police_infos verified))
            verified
        else db in
      match commit accepts session with
      | Some db' => (db', Redirect)
      | None => (db, Redirect)
      end
  end
  end.

(** ** The availability API *)

Inductive ApiResponse (A : Type) : Type :=
| ApiOk (body : A)
| ApiFail (status : Z) (error : string)
| ApiLoginRequired.
Arguments ApiOk {A} body.
Arguments ApiFail {A} status error.
Arguments ApiLoginRequired {A}.

(** [order_by(AvailableTimeSlot.start_time)]: ascending, rows with equal
    start times in table order. *)
Fixpoint insert_by_start (s : AvailableTimeSlot)
    (rows : list AvailableTimeSlot) : list AvailableTimeSlot :=
  match rows with
  | [] => [s]
  | x :: rest =>
      if start_time s <=? start_time x then s :: rows
      else x :: insert_by_start s rest
  end.

Definition order_by_start_time (rows : list AvailableTimeSlot)
    : list AvailableTimeSlot :=
  fold_right insert_by_start [] rows.

(** [api_officer_availability]: the free, future slots of an approved
    officer; each JSON object carries the key, the start and the end. *)
Definition api_officer_availability (db : DB) (uid : Z) (officer_id : Z)
    (now : datetime) : ApiResponse (list (Z * datetime * datetime)) :=
  match current_user db uid with
  | None => ApiLoginRequired
  | Some _ =>
  match first (fun u => (user_id u =? officer_id)
                        && (userType u =? "police")%string) (users db) with
  | None => ApiOk []
  | Some officer =>
  match first (fun p => pi_user_id p =? officer_id) (police_infos db) with
  | None => ApiOk []
  | Some police_info =>
  if negb (isApproved police_info) then ApiOk []
  else
    let available_slots :=
      order_by_start_time
        (filter (fun s => (Models.officer_id s =? officer_id)
                          && negb (is_booked s)
                          && (start_time s >? now)) (slots db)) in
    ApiOk (map (fun s => (slot_id s, start_time s, end_time s)) available_slots)
  end
  end
  end.



(** [api_slot_details]: the row of a slot.  [get_or_404] stands inside the
    [try], so the 404 it raises for an unknown key is caught and answered
    as a 500. *)
Definition api_slot_details (db : DB) (uid : Z) (slot_id : Z)
    : ApiResponse AvailableTimeSlot :=
  match current_user db uid with
  | None => ApiLoginRequired
  | Some _ =>
  match first (fun s => Models.slot_id s =? slot_id) (slots db) with
  | None => ApiFail 500 "Error retrieving slot details"
  | Some slot =>
  match first (fun u => user_id u =? officer_id slot) (users db) with
  | None => ApiFail 404 "Officer not found"
  | Some officer =>
  match first (fun p => pi_user_id p =? user_id officer) (police_infos db) with
  | None => ApiFail 404 "Officer information not found"
  | Some officer_info => ApiOk slot
  end
  end
  end
  end.

(** ** The registration forms: [resident_form], [police_form]

    Of the submitted fields the names, the phone number and the station's
    location are columns of the modelled store; a field that is missing is
    read as the empty text.  The ward number of [resident_form] is a column
    outside the store, but it can make the route fail. *)

(** The ward number as submitted: whether [str.isdigit] holds of the text,
    and what [int] makes of it ([None] when [int] raises).  A missing field
    is read as the text of 1. *)
Record WardText := mkWardText {
  ward_isdigit : bool;
  ward_int : option Z
}.

(** The ward number the route gets to store, if any.  For a record that
    exists, [int] is tried and its [ValueError] replaced by 1; for a new
    record, [int] is called when [isdigit] holds, outside any [try] of its
    own, and 1 is taken otherwise.  A number SQLite's INTEGER does not hold
    makes the flush raise.  What is raised is caught by the route's
    [except]. *)
Definition ward_to_store (existing : bool) (w : WardText) : option Z :=
  let value :=
    if existing then
      Some (match ward_int w with Some n => n | None => 1 end)
    else if ward_isdigit w then ward_int w
    else Some 1 in
  match value with
  | Some n => if fits_int64 n then Some n else None
  | None => None
  end.

Definition resident_form (db : DB) (uid : Z) (method : Method)
    (form_firstName form_lastName form_phoneNumber : option string)
    (form_wardNumber : WardText) (utcnow : datetime) (accepts : bool)
    : DB * Response :=
  match current_user db uid with
  | None => (db, LoginRequired)
  | Some cu =>
  if negb (userType cu =? "resident")%string then
    (db, Flash "danger" "Access denied.")
  else
  match method with
  | GET => (db, Rendered)
  | POST =>
      let failed := (db, Flash "danger" "Error saving information: {e}") in
      let existing_info :=
        first (fun r => ri_user_id r =? user_id cu) (resident_infos db) in
      match ward_to_store (match existing_info with
                           | Some _ => true
                           | None => false
                           end) form_wardNumber with
      | None => failed
      | Some _ =>
      let session :=
        match existing_info with
        | Some _ =>
            with_resident_infos
              (update_first (fun r => ri_user_id r =? user_id cu)
                            (set_names (text form_firstName)
                                       (text form_lastName)
                                       (text form_phoneNumber))
                            (resident_infos db)) db
        | None =>
            with_resident_infos
              (resident_infos db
               ++ [mkResidentInfo (next_id (map ri_id (resident_infos db)))
                                  (user_id cu) (text form_firstName)
                                  (text form_lastName)
                                  (text form_phoneNumber)]) db
        end in
      let existing_application :=
        first (fun a => applicant_id a =? user_id cu) (applications session) in
      let session :=
        match existing_application with
        | Some _ => session
        | None =>
            with_applications
              (applications session
               ++ [mkApplication (next_id (map app_id (applications session)))
                                 (user_id cu) None "pending" None None utcnow])
              session
        end in
      match commit accepts session with
      | Some db' => (db', Redirect)
      | None => failed
      end
      end
  end
  end.

Definition set_station (station municipality postal : string)
    (p : PoliceInfo) : PoliceInfo :=
  mkPoliceInfo (pi_id p) (pi_user_id p) station municipality postal
               (isApproved p).

Definition police_form (db : DB) (uid : Z) (method : Method)
    (form_stationName form_municipality form_postalCode : option string)
    (accepts : bool) : DB * Response :=
  match current_user db uid with
  | None => (db, LoginRequired)
  | Some cu =>
  if negb (userType cu =? "police")%string then
    (db, Flash "danger" "Access denied.")
  else
  match method with
  | GET => (db, Rendered)
  | POST =>
      let existing_info :=
        first (fun p => pi_user_id p =? user_id cu) (police_infos db) in
      let session :=
        match existing_info with
        | Some _ =>
            with_police_infos
              (update_first (fun p => pi_user_id p =? user_id cu)
                            (set_station (text form_stationName)
                                         (text form_municipality)
                                         (text form_postalCode))
                            (police_infos db)) db
        | None =>
            (* isApproved takes its default, False *)
            with_police_infos
              (police_infos db
               ++ [mkPoliceInfo (next_id (map pi_id (police_infos db)))
                                (user_id cu) (text form_stationName)
                                (text form_municipality)
                                (text form_postalCode) false]) db
        end in
      match commit accepts session with
      | Some db' => (db', Redirect)
      | None => (db, Flash "danger" "Error saving information: {e}")
      end
  end
  end.

(** ** Sending a certificate: [email_certificate]

    The route stores nothing; the message is only printed. *)

Definition email_certificate (db : DB) (uid : Z) (certificate_id : Z)
    (form_recipient_email : option string) : Response :=
  match current_user db uid with
  | None => LoginRequired
  | Some cu =>
  if negb (userType cu =? "resident")%string then
    Flash "danger" "Access denied. Only residents can email address certificates."
  else if negb (truthy form_recipient_email) then
    Flash "danger" "Please provide a recipient email address."
  else
  match first (fun c => cert_id c =? certificate_id) (certificates db) with
  | None => Flash "danger" "Certificate not found."
  | Some certificate =>
  match first (fun a => app_id a =? cert_application_id certificate)
              (applications db) with
  | None =>
      Flash "danger" "Access denied. You can only access your own certificates."
  | Some application =>
  if negb (applicant_id application =? user_id cu) then
    Flash "danger" "Access denied. You can only access your own certificates."
  else
    Flash "success" "Demo Mode: Certificate would be emailed to {recipient_email}. In a real application, the email would be sent with the certificate attached."
  end
  end
  end.

(** * Specification vocabulary *)

(** ** The day loop as a relation

    [while_day ... cur s s'] holds when the [while] loop of the generation,
    entered with [current_slot_start = cur] and session [s], leaves with
    session [s']. *)
Inductive while_day (police_info : PoliceInfo) (uid sid : Z)
    (break_times : list (time * time)) (day_end : datetime)
    : datetime -> DB -> DB -> Prop :=
| while_done cur s :
    day_end < cur + interview_duration ->
    while_day police_info uid sid break_times day_end cur s s
| while_skip_break cur s s' :
    cur + interview_duration <= day_end ->
    is_break_time break_times cur (cur + interview_duration) = true ->
    while_day police_info uid sid break_times day_end
              (cur + interview_duration) s s' ->
    while_day police_info uid sid break_times day_end cur s s'
| while_add cur s s' :
    cur + interview_duration <= day_end ->
    is_break_time break_times cur (cur + interview_duration) = false ->
    overlapping_slots uid cur (cur + interview_duration) (slots s) = [] ->
    while_day police_info uid sid break_times day_end
              (cur + interview_duration + gap_duration)
              (add_slot (new_generated_slot s uid sid police_info cur
                           (cur + interview_duration)) s) s' ->
    while_day police_info uid sid break_times day_end cur s s'
| while_overlap cur s s' :
    cur + interview_duration <= day_end ->
    is_break_time break_times cur (cur + interview_duration) = false ->
    overlapping_slots uid cur (cur + interview_duration) (slots s) <> [] ->
    while_day police_info uid sid break_times day_end
              (cur + interview_duration + gap_duration) s s' ->
    while_day police_info uid sid break_times day_end cur s s'.

(** The interval of a slot. *)
Definition interval (r : AvailableTimeSlot) : datetime * datetime :=
  (start_time r, end_time r).

(** The times of day the walk of one day visits and keeps when no persisted
    slot is in the way: the candidates clear of the breaks. *)
Fixpoint day_candidates (fuel : nat) (break_times : list (time * time))
    (end_t t : time) : list (time * time) :=
  match fuel with
  | O => []
  | S fuel' =>
      if t + interview_duration <=? end_t then
        if existsb (fun b => (t <? snd b) && (t + interview_duration >? fst b))
                   break_times
        then day_candidates fuel' break_times end_t (t + interview_duration)
        else (t, t + interview_duration)
             :: day_candidates fuel' break_times end_t
                  (t + interview_duration + gap_duration)
      else []
  end.

(** A time interval of day [d]. *)
Definition on_date (d : date) (c : time * time) : datetime * datetime :=
  (combine d (fst c), combine d (snd c)).

(** The intervals one week contributes: none when the day has begun by the
    time the guard reads the clock, the candidates of the day otherwise. *)
Definition week_intervals (start_t end_t : time)
    (break_times : list (time * time)) (next_date : date)
    (clock : nat -> datetime) (week : nat) : list (datetime * datetime) :=
  let d := next_date + Z.of_nat week * 7 in
  if combine d start_t <? clock week then []
  else map (on_date d)
           (day_candidates (S (Z.to_nat ((end_t - start_t) / interview_duration)))
                           break_times end_t start_t).

(** ** The overlap invariant of the slot table *)

Definition overlap (a b : AvailableTimeSlot) : Prop :=
  officer_id a = officer_id b
  /\ start_time a < end_time b /\ start_time b < end_time a.

Definition overlapb (a b : AvailableTimeSlot) : bool :=
  (officer_id a =? officer_id b)
  && (start_time a <? end_time b) && (start_time b <? end_time a).

(** No two rows of the table belong to one officer and overlap. *)
Definition slots_disjoint (rows : list AvailableTimeSlot) : Prop :=
  ForallOrdPairs (fun a b => ~ overlap a b) rows.

Fixpoint slots_disjointb (rows : list AvailableTimeSlot) : bool :=
  match rows with
  | [] => true
  | a :: rest => forallb (fun b => negb (overlapb a b)) rest
                 && slots_disjointb rest
  end.

(** ** Concrete stores and requests *)

(** One approved officer and nothing else. *)
Definition officer_db : DB :=
  mkDB [mkUser 7 "Officer Seven" "seven@station.example" "police" true]
       []
       [mkPoliceInfo 1 7 "Central" "Tshwane" "0001" true]
       [] [] [] [] [] [].

(** Monday 2026-11-02 and Tuesday 2026-11-03, both at 10:00. *)
Definition monday_10 : datetime := combine 739921 (hm 10 0).
Definition tuesday_10 : datetime := combine 739922 (hm 10 0).

(** Monday 09:00-12:00 with one break 10:00-10:15. *)
Definition monday_form : WeeklyForm :=
  mkWeeklyForm (Parsed 0) (Parsed (hm 9 0)) (Parsed (hm 12 0))
               [Parsed (hm 10 0)] [Parsed (hm 10 15)].

(** Monday 09:00-12:00 without breaks. *)
Definition monday_form_no_break : WeeklyForm :=
  mkWeeklyForm (Parsed 0) (Parsed (hm 9 0)) (Parsed (hm 12 0)) [] [].

(** The three slots the walk of such a Monday keeps. *)
Definition monday_slots : list (time * time) :=
  [(hm 9 0, hm 9 30); (hm 10 15, hm 10 45); (hm 11 0, hm 11 30)].

(** The slot list the claimed scenario expects for a Monday. *)
Definition claimed_monday_slots : list (time * time) :=
  [(hm 9 0, hm 9 30); (hm 9 45, hm 10 0);
   (hm 10 15, hm 10 45); (hm 11 0, hm 11 30)].

(** The officer submits the Monday schedule on Tuesday 2026-11-03 at 10:00;
    the first Monday of the horizon is 2026-11-09 (day 739928). *)
Definition tuesday_run : DB * Response :=
  police_add_weekly_availability officer_db 7 monday_form tuesday_10
                                 (fun _ => tuesday_10) true.

(** The officer submits Monday 09:00-12:00 on Monday 2026-11-02 at 10:00. *)
Definition monday_run : DB * Response :=
  police_add_weekly_availability officer_db 7 monday_form_no_break monday_10
                                 (fun _ => monday_10) true.

Definition slots_on (d : date) (db : DB) : list AvailableTimeSlot :=
  filter (fun r => date_of (start_time r) =? d) (slots db).

(** ** Certificate numbers *)

(** One of the sixteen uppercase hexadecimal characters. *)
Definition is_upper_hex (c : ascii) : Prop :=
  In c (list_ascii_of_string "0123456789ABCDEF").

(** ** A small town *)

(** Two residents whose applications a leader approved, one officer. *)
Definition town_db : DB :=
  mkDB [mkUser 1 "Resident One" "one@home.example" "resident" true;
        mkUser 2 "Resident Two" "two@home.example" "resident" true;
        mkUser 7 "Officer Seven" "seven@station.example" "police" true]
       [mkResidentInfo 1 1 "Resident" "One" "0110000001";
        mkResidentInfo 2 2 "Resident" "Two" "0110000002"]
       [mkPoliceInfo 1 7 "Central" "Tshwane" "0001" true]
       [mkApplication 1 1 None "leader_approved" None None 100;
        mkApplication 2 2 None "leader_approved" None None 200]
       [] [] [] [] [].

(** On Tuesday the officer adds two ad-hoc slots for Wednesday 2026-11-04
    (day 739923): 09:00-09:30 and 09:30-10:00. *)
Definition two_slot_db : DB :=
  fst (police_add_availability
         (fst (police_add_availability town_db 7
                 (mkSlotForm (Parsed 739923) (Parsed (hm 9 0)) (Parsed (hm 9 30)))
                 tuesday_10 true))
         7 (mkSlotForm (Parsed 739923) (Parsed (hm 9 30)) (Parsed (hm 10 0)))
         tuesday_10 true).

Definition uuid_a : Z := 34784419729695855966531441567273056265.
Definition uuid_b : Z := 210791369453958289155946763495526772729.

(** Resident 1 books slot 1 for application 1 through [book_interview_slot]. *)
Definition booked_run : DB * Response :=
  book_interview_slot two_slot_db 1 (mkBookForm (Some 1) (Some 1))
                      tuesday_10 uuid_a true.

(** Resident 1 books slot 1 for application 1 through the per-application
    page, which leaves the appointment "scheduled". *)
Definition scheduled_run : DB * Response :=
  schedule_interview two_slot_db 1 1 POST (Some 1) tuesday_10 true true.

(** The filter of the slot query of [cancel_interview]. *)
Definition consumed_by (appointment : Appointment) (s : AvailableTimeSlot)
    : bool :=
  (officer_id s =? appt_officer_id appointment)
  && (start_time s =? appointment_date appointment)
  && is_booked s.

(** A resident with two pending applications and one approved. *)
Definition pending_db : DB :=
  mkDB [mkUser 1 "Resident One" "one@home.example" "resident" true;
        mkUser 2 "Resident Two" "two@home.example" "resident" true]
       [mkResidentInfo 1 1 "Resident" "One" "0110000001";
        mkResidentInfo 2 2 "Resident" "Two" "0110000002"]
       []
       [mkApplication 1 1 None "approved" None None 100;
        mkApplication 2 1 None "pending" None None 200;
        mkApplication 3 2 None "pending" None None 300;
        mkApplication 4 1 None "pending" None None 400]
       [] [] [] [] [].

Definition rename_form : ProfileForm :=
  mkProfileForm "personal_info" (Some "Nomsa"%string) (Some "Dlamini"%string)
                (Some "0110000001"%string) (Some "one@home.example"%string)
                None None None None None.

(** Resident 1 books slot 1 through the schedule page
    ([resident_schedule_interview]) instead. *)
Definition schedule_page_run : DB * Response :=
  resident_schedule_interview two_slot_db 1 POST (Some 1) tuesday_10 uuid_a true.

(** After [booked_run] every slot is booked; resident 2 opens the schedule
    page of application 2. *)
Definition demo_run : DB * Response :=
  schedule_interview (fst booked_run) 2 2 GET None tuesday_10 true true.

(** The test of the buffer, on the rows as stored before the booking:
    another unbooked slot of the officer of [time_slot] that starts before
    the end of [time_slot] plus 15 minutes and ends after its start. *)
Definition buffered (time_slot s : AvailableTimeSlot) : bool :=
  (officer_id s =? officer_id time_slot)
  && negb (is_booked s)
  && (start_time s <? end_time time_slot + minutes 15)
  && (end_time s >? start_time time_slot).

(** ** One active schedule per officer and day

    The routes compare the day numbers as they are stored.  The generation
    and the names of the days read a number modulo 7: 0 and -7 are both
    Monday. *)

(** Two active rows of one officer with the same stored day number. *)
Definition same_day_active (a b : WeeklySchedule) : Prop :=
  ws_officer_id a = ws_officer_id b
  /\ day_of_week a = day_of_week b
  /\ is_active a = true /\ is_active b = true.

(** No two rows of the schedule table are active for one officer under one
    day number. *)
Definition one_active_per_day (rows : list WeeklySchedule) : Prop :=
  ForallOrdPairs (fun a b => ~ same_day_active a b) rows.

(** The day of the week a day number stands for: [days[n]] for the numbers
    -7..6, and the weekday of the dates the generation walks for any
    number. *)
Definition day_of_number (n : Z) : Z := n mod 7.

(** Two active rows of one officer for the same day of the week. *)
Definition same_weekday_active (a b : WeeklySchedule) : Prop :=
  ws_officer_id a = ws_officer_id b
  /\ day_of_number (day_of_week a) = day_of_number (day_of_week b)
  /\ is_active a = true /\ is_active b = true.

(** No two rows of the schedule table are active for one officer on one day
    of the week. *)
Definition one_active_per_weekday (rows : list WeeklySchedule) : Prop :=
  ForallOrdPairs (fun a b => ~ same_weekday_active a b) rows.

(** Every stored day number is one the select box offers. *)
Definition day_numbers_in_week (rows : list WeeklySchedule) : Prop :=
  Forall (fun w => 0 <= day_of_week w <= 6) rows.

(** The answer of the weekly route to a second schedule for a day. *)
Definition duplicate_schedule_flash : Response :=
  Flash "warning" "You already have a schedule for this day. Please delete the existing schedule first.".

(** The answer of the police routes to an officer who is not approved. *)
Definition pending_approval_flash : Response :=
  Flash "warning" "Your police officer account is pending approval.".

(** A row the generation builds for the interval that starts at [c]. *)
Definition generated_row (police_info : PoliceInfo) (uid sid : Z)
    (c : datetime) (r : AvailableTimeSlot) : Prop :=
  exists session,
    r = new_generated_slot session uid sid police_info c
                           (c + interview_duration).

(** Two rows of the slot table with the same officer and the same times. *)
Definition same_interval (s s' : AvailableTimeSlot) : Prop :=
  officer_id s' = officer_id s
  /\ start_time s' = start_time s /\ end_time s' = end_time s.

(** A demo slot of the per-application schedule page, as stored. *)
Definition demo_slot (officer : Z) (slot_time : datetime)
    (r : AvailableTimeSlot) : Prop :=
  r = mkSlot (slot_id r) officer None slot_time (slot_time + minutes 30)
             false None None None.

(** ** More concrete stores and requests *)

(** Monday 09:00-12:00 with a break that starts at 10:00 and has no end. *)
Definition open_break_form : WeeklyForm :=
  mkWeeklyForm (Parsed 0) (Parsed (hm 9 0)) (Parsed (hm 12 0))
               [Parsed (hm 10 0)] [].

(** 09:00-12:00 for day number 9, which no select box offers. *)
Definition day_nine_form : WeeklyForm :=
  mkWeeklyForm (Parsed 9) (Parsed (hm 9 0)) (Parsed (hm 12 0)) [] [].

(** A user who registered as police, with a police record nobody
    approved. *)
Definition recruit_db : DB :=
  mkDB [mkUser 8 "Officer Eight" "eight@station.example" "police" false]
       []
       [mkPoliceInfo 2 8 "North" "Tshwane" "0002" false]
       [] [] [] [] [] [].

(** A resident whose application was rejected, a leader, an officer with
    one free slot on Wednesday 2026-11-04. *)
Definition ward_db : DB :=
  mkDB [mkUser 1 "Resident One" "one@home.example" "resident" true;
        mkUser 5 "Leader Five" "five@ward.example" "leader" true;
        mkUser 7 "Officer Seven" "seven@station.example" "police" true]
       [mkResidentInfo 1 1 "Resident" "One" "0110000001"]
       [mkPoliceInfo 1 7 "Central" "Tshwane" "0001" true]
       [mkApplication 1 1 None "rejected" None None 100]
       [] [] []
       [mkSlot 1 7 None (combine 739923 (hm 9 0)) (combine 739923 (hm 9 30))
               false None None None]
       [].

Definition ward_leaders : list LeaderInfo := [mkLeaderInfo 1 5 true].

(** The Monday schedule the officer stored with [tuesday_run]. *)
Definition monday_schedule : WeeklySchedule :=
  mkWeeklySchedule 1 7 0 (hm 9 0) (hm 12 0) true.

(** Resident 1 cancels the interview scheduled with [scheduled_run]. *)
Definition cancelled_run : DB * Response :=
  cancel_interview (fst scheduled_run) 1 (Some 1) true.

(** After [booked_run], resident 1 moves house. *)
Definition moved_run : DB * Response :=
  resident_update_address (fst booked_run) 1 POST Absent tuesday_10 true.

(** The leader approves the rejected application of [ward_db]. *)
Definition revived_run : DB * Response :=
  leader_review_application ward_leaders ward_db 5 1 POST
                            (Some "approve"%string) None true.

(** Monday as day number -7, 13:00-15:00, without breaks. *)
Definition minus_seven_form : WeeklyForm :=
  mkWeeklyForm (Parsed (-7)) (Parsed (hm 13 0)) (Parsed (hm 15 0)) [] [].

(** After [tuesday_run] the officer stores a Tuesday schedule as well. *)
Definition two_day_db : DB :=
  fst (police_add_weekly_availability (fst tuesday_run) 7
         (mkWeeklyForm (Parsed 1) (Parsed (hm 9 0)) (Parsed (hm 12 0)) [] [])
         tuesday_10 (fun _ => tuesday_10) true).

(** Wednesday 09:00-12:00 without breaks. *)
Definition wednesday_form : WeeklyForm :=
  mkWeeklyForm (Parsed 2) (Parsed (hm 9 0)) (Parsed (hm 12 0)) [] [].

(** Two approved officers whose police records were stored in the other
    order than their users, a resident with a leader-approved application,
    and no slot. *)
Definition two_station_db : DB :=
  mkDB [mkUser 2 "Resident Two" "two@home.example" "resident" true;
        mkUser 7 "Officer Seven" "seven@station.example" "police" true;
        mkUser 8 "Officer Eight" "eight@station.example" "police" true]
       [mkResidentInfo 2 2 "Resident" "Two" "0110000002"]
       [mkPoliceInfo 1 8 "North" "Tshwane" "0002" true;
        mkPoliceInfo 2 7 "Central" "Tshwane" "0001" true]
       [mkApplication 2 2 None "leader_approved" None None 200]
       [] [] [] [] [].

(** Monday 2026-11-02 at 08:00, before the schedule of that day starts. *)
Definition monday_8 : datetime := combine 739921 (hm 8 0).

(** The officer submits Monday 09:00-12:00 on Monday 2026-11-02 at 08:00. *)
Definition early_monday_run : DB * Response :=
  police_add_weekly_availability officer_db 7 monday_form_no_break monday_8
                                 (fun _ => monday_8) true.

(** The candidates of the walk of a day 09:00-12:00 without breaks. *)
Definition morning_candidates : list (time * time) :=
  [(hm 9 0, hm 9 30); (hm 9 45, hm 10 15);
   (hm 10 30, hm 11 0); (hm 11 15, hm 11 45)].
(** ** Facts about naive datetimes *)

Lemma us_per_day_pos : 0 < us_per_day.
Proof. reflexivity. Qed.

Lemma interview_duration_pos : 0 < interview_duration.
Proof. reflexivity. Qed.

Lemma gap_duration_pos : 0 < gap_duration.
Proof. reflexivity. Qed.

Lemma time_of_combine (d : date) (t : time) :
  0 <= t < us_per_day -> time_of (combine d t) = t.
Proof.
  intros Ht. unfold time_of, combine.
  rewrite Z.add_comm, Z.mod_add by (pose proof us_per_day_pos; lia).
  now apply Z.mod_small.
Qed.

Lemma date_of_combine (d : date) (t : time) :
  0 <= t < us_per_day -> date_of (combine d t) = d.
Proof.
  intros Ht. unfold date_of, combine.
  rewrite Z.add_comm, Z.div_add by (pose proof us_per_day_pos; lia).
  rewrite Z.div_small by assumption. lia.
Qed.

Lemma combine_date_time (dt : datetime) :
  combine (date_of dt) (time_of dt) = dt.
Proof.
  unfold combine, date_of, time_of.
  pose proof (Z.div_mod dt us_per_day) as H.
  pose proof us_per_day_pos. lia.
Qed.

(** ** The day loop *)

Section DayLoop.

Variables (police_info : PoliceInfo) (uid sid : Z).
Variable break_times : list (time * time).
Variable day_end : datetime.

Let walk fuel := walk_day fuel police_info uid sid break_times day_end.
Let loop := while_day police_info uid sid break_times day_end.

Lemma fuel_step (cur cur' : datetime) (fuel : nat) :
  (day_end - cur) / interview_duration < Z.of_nat (S fuel) ->
  cur + interview_duration <= cur' ->
  (day_end - cur') / interview_duration < Z.of_nat fuel.
Proof.
  intros Hf Hc. pose proof interview_duration_pos as Hd.
  assert (H1 : (day_end - cur') / interview_duration
               <= (day_end - cur - 1 * interview_duration) / interview_duration)
    by (apply Z.div_le_mono; lia).
  unfold Z.sub at 2 in H1. rewrite <- Z.mul_opp_l, Z.div_add in H1 by lia.
  lia.
Qed.

(** Enough fuel: the function computes the loop. *)
Lemma walk_day_fuel (fuel : nat) : forall cur s,
  (day_end - cur) / interview_duration < Z.of_nat fuel ->
  loop cur s (walk fuel cur s).
Proof.
  unfold walk, loop. induction fuel as [|fuel IH]; intros cur s Hf.
  - simpl. apply while_done. pose proof interview_duration_pos as Hd.
    destruct (Z.le_gt_cases (cur + interview_duration) day_end) as [Hle|Hgt];
      [|lia].
    assert (0 <= (day_end - cur) / interview_duration)
      by (apply Z.div_pos; lia).
    simpl in Hf. lia.
  - cbn [walk_day].
    destruct (cur + interview_duration <=? day_end) eqn:Hle.
    + apply Z.leb_le in Hle. pose proof gap_duration_pos as Hg.
      destruct (is_break_time break_times cur (cur + interview_duration))
        eqn:Hb.
      * apply while_skip_break; auto. apply IH.
        eapply fuel_step; [exact Hf|lia].
      * destruct (overlapping_slots uid cur (cur + interview_duration)
                    (slots s)) eqn:Ho.
        -- apply while_add; auto. apply IH.
           eapply fuel_step; [exact Hf|lia].
        -- apply while_overlap; auto; [congruence|]. apply IH.
           eapply fuel_step; [exact Hf|lia].
    + apply Z.leb_gt in Hle. now apply while_done.
Qed.

(** The loop has one outcome. *)
Lemma while_day_deterministic (cur : datetime) (s s1 s2 : DB) :
  loop cur s s1 -> loop cur s s2 -> s1 = s2.
Proof.
  unfold loop. intros H1. revert s2.
  induction H1 as [cur s Hend
                  |cur s s1 Hle Hb _ IH
                  |cur s s1 Hle Hb Ho _ IH
                  |cur s s1 Hle Hb Ho _ IH];
    intros s2 H2; inversion H2; subst;
    try reflexivity; try lia; try congruence; now apply IH.
Qed.

(** The fuel the route passes is enough on every day. *)
Lemma walk_day_total (day_start : datetime) (s : DB) :
  loop day_start s (walk (day_fuel day_start day_end) day_start s).
Proof.
  apply walk_day_fuel. unfold day_fuel. pose proof interview_duration_pos.
  destruct (Z.le_gt_cases 0 ((day_end - day_start) / interview_duration)).
  - rewrite Nat2Z.inj_succ, Z2Nat.id by assumption. lia.
  - rewrite Nat2Z.inj_succ. lia.
Qed.

End DayLoop.

(** ** Proof automation *)

Ltac bool_hyps :=
  repeat match goal with
  | H : _ && _ = true |- _ => apply andb_true_iff in H; destruct H
  | H : negb _ = true |- _ => apply negb_true_iff in H
  | H : negb _ = false |- _ => apply negb_false_iff in H
  | H : (_ =? _) = true |- _ => apply Z.eqb_eq in H
  | H : (_ =? _) = false |- _ => apply Z.eqb_neq in H
  | H : (_ <? _) = true |- _ => apply Z.ltb_lt in H
  | H : (_ <? _) = false |- _ => apply Z.ltb_ge in H
  | H : (_ <=? _) = true |- _ => apply Z.leb_le in H
  | H : (_ <=? _) = false |- _ => apply Z.leb_gt in H
  | H : (_ >? _) = true |- _ => rewrite Z.gtb_ltb in H; apply Z.ltb_lt in H
  | H : (_ >? _) = false |- _ => rewrite Z.gtb_ltb in H; apply Z.ltb_ge in H
  | H : (_ >=? _) = true |- _ => rewrite Z.geb_leb in H; apply Z.leb_le in H
  | H : (_ >=? _) = false |- _ => rewrite Z.geb_leb in H; apply Z.leb_gt in H
  | H : (_ =? _)%string = true |- _ => apply String.eqb_eq in H
  | H : (_ =? _)%string = false |- _ => apply String.eqb_neq in H
  end.

(** ** Tables *)

Lemma with_slots_same (s : DB) : with_slots (slots s) s = s.
Proof. now destruct s. Qed.

Lemma update_first_none {A : Type} (p : A -> bool) (f : A -> A)
    (rows : list A) :
  find p rows = None -> update_first p f rows = rows.
Proof.
  induction rows as [|r rows IH]; simpl; [reflexivity|].
  destruct (p r); [discriminate|]. intros H. now rewrite IH.
Qed.

(** The row [first] returns is the row [update_first] rewrites. *)
Lemma update_first_some {A : Type} (p : A -> bool) (f : A -> A)
    (rows : list A) (r : A) :
  find p rows = Some r ->
  exists before after,
    rows = before ++ r :: after
    /\ update_first p f rows = before ++ f r :: after
    /\ Forall (fun x => p x = false) before
    /\ p r = true.
Proof.
  induction rows as [|x rows IH]; simpl; [discriminate|].
  destruct (p x) eqn:Hp.
  - intros [= ->]. exists [], rows. repeat split; auto.
  - intros H. destruct (IH H) as (before & after & -> & -> & Hb & Hr).
    exists (x :: before), after. repeat split; auto.
Qed.

Lemma next_id_fresh (ids : list Z) : Forall (fun i => i < next_id ids) ids.
Proof.
  unfold next_id. induction ids as [|i ids IH]; constructor;
    cbn [fold_right].
  - lia.
  - eapply Forall_impl; [|exact IH]. cbv beta. intros. lia.
Qed.

Lemma next_id_not_in (ids : list Z) : ~ In (next_id ids) ids.
Proof.
  intros H. pose proof (next_id_fresh ids) as F.
  rewrite Forall_forall in F. specialize (F _ H). lia.
Qed.

(** ** The overlap invariant *)

Lemma overlapb_spec (a b : AvailableTimeSlot) :
  overlapb a b = true <-> overlap a b.
Proof.
  unfold overlapb, overlap. rewrite !andb_true_iff, Z.eqb_eq, !Z.ltb_lt.
  tauto.
Qed.

Lemma slots_disjointb_spec (rows : list AvailableTimeSlot) :
  slots_disjointb rows = true <-> slots_disjoint rows.
Proof.
  unfold slots_disjoint. induction rows as [|a rows IH]; simpl.
  - split; [constructor|reflexivity].
  - rewrite andb_true_iff, forallb_forall, IH. split.
    + intros [Ha Hr]. constructor; [|assumption].
      apply Forall_forall. intros b Hb Ho. specialize (Ha b Hb).
      apply overlapb_spec in Ho. now rewrite Ho in Ha.
    + intros H. inversion H as [|? ? Ha Hr]; subst. split; [|assumption].
      intros b Hb. rewrite Forall_forall in Ha. specialize (Ha b Hb).
      destruct (overlapb a b) eqn:E; [|reflexivity].
      apply overlapb_spec in E. contradiction.
Qed.

Lemma slots_disjoint_snoc (rows : list AvailableTimeSlot)
    (r : AvailableTimeSlot) :
  slots_disjoint rows ->
  Forall (fun a => ~ overlap a r) rows ->
  slots_disjoint (rows ++ [r]).
Proof.
  unfold slots_disjoint. induction 1 as [|a rows Ha Hr IH]; intros Hn; simpl.
  - repeat constructor.
  - inversion Hn; subst. constructor; [|auto].
    apply Forall_app. split; [assumption|]. now constructor.
Qed.

(** What the overlap query finds nothing of does not overlap. *)
Lemma overlapping_slots_nil (rows : list AvailableTimeSlot)
    (r : AvailableTimeSlot) :
  overlapping_slots (officer_id r) (start_time r) (end_time r) rows = [] ->
  Forall (fun a => ~ overlap a r) rows.
Proof.
  unfold overlapping_slots. intros H. apply Forall_forall. intros a Ha Ho.
  assert (Hin : In a (filter (fun r0 => (officer_id r0 =? officer_id r)
                                        && (start_time r0 <? end_time r)
                                        && (end_time r0 >? start_time r)) rows)).
  { apply filter_In. split; [assumption|]. destruct Ho as (Ho & Hs & He).
    rewrite Z.gtb_ltb.
    apply andb_true_iff; split; [apply andb_true_iff; split|].
    - now apply Z.eqb_eq.
    - now apply Z.ltb_lt.
    - now apply Z.ltb_lt. }
  rewrite H in Hin. contradiction.
Qed.

Lemma slots_disjoint_add (rows : list AvailableTimeSlot)
    (r : AvailableTimeSlot) :
  slots_disjoint rows ->
  overlapping_slots (officer_id r) (start_time r) (end_time r) rows = [] ->
  slots_disjoint (rows ++ [r]).
Proof.
  intros Hd Ho. apply slots_disjoint_snoc; [assumption|].
  now apply overlapping_slots_nil.
Qed.

(** ** What the day loop adds *)

Section DayWalk.

Variables (police_info : PoliceInfo) (uid sid : Z).
Variable break_times : list (time * time).
Variable day_end : datetime.

Let walk fuel := walk_day fuel police_info uid sid break_times day_end.

(** The loop only appends slots: of this officer and schedule, unbooked,
    thirty minutes long, inside [cur, day_end]. *)
Lemma walk_day_adds (fuel : nat) : forall cur s,
  exists new,
    walk fuel cur s = with_slots (slots s ++ new) s
    /\ Forall (fun r => officer_id r = uid
                        /\ weekly_schedule_id r = Some sid
                        /\ is_booked r = false
                        /\ cur <= start_time r
                        /\ end_time r = start_time r + interview_duration
                        /\ end_time r <= day_end) new.
Proof.
  unfold walk. pose proof interview_duration_pos as Hd.
  pose proof gap_duration_pos as Hg.
  induction fuel as [|fuel IH]; intros cur s; cbn [walk_day].
  - exists []. rewrite app_nil_r, with_slots_same. auto.
  - destruct (cur + interview_duration <=? day_end) eqn:Hle.
    2:{ exists []. rewrite app_nil_r, with_slots_same. auto. }
    apply Z.leb_le in Hle.
    destruct (is_break_time break_times cur (cur + interview_duration)).
    + destruct (IH (cur + interview_duration) s) as (new & -> & Hn).
      exists new. split; [reflexivity|].
      eapply Forall_impl; [|exact Hn]. cbv beta. intuition lia.
    + destruct (overlapping_slots uid cur (cur + interview_duration) (slots s)).
      * match goal with |- context [walk_day _ _ _ _ _ _ ?c ?s'] =>
          destruct (IH c s') as (new & -> & Hn) end.
        eexists (_ :: new). split.
        -- unfold add_slot. cbn [slots with_slots].
           rewrite <- app_assoc. reflexivity.
        -- constructor;
             [unfold new_generated_slot;
              cbn [officer_id weekly_schedule_id is_booked start_time end_time];
              repeat split; lia|].
           eapply Forall_impl; [|exact Hn]. cbv beta. intuition lia.
      * destruct (IH (cur + interview_duration + gap_duration) s)
          as (new & -> & Hn).
        exists new. split; [reflexivity|].
        eapply Forall_impl; [|exact Hn]. cbv beta. intuition lia.
Qed.

(** The loop keeps the slot table free of overlaps. *)
Lemma walk_day_disjoint (fuel : nat) : forall cur s,
  slots_disjoint (slots s) -> slots_disjoint (slots (walk fuel cur s)).
Proof.
  unfold walk. induction fuel as [|fuel IH]; intros cur s Hs; cbn [walk_day];
    [assumption|].
  destruct (cur + interview_duration <=? day_end); [|assumption].
  destruct (is_break_time break_times cur (cur + interview_duration));
    [now apply IH|].
  destruct (overlapping_slots uid cur (cur + interview_duration) (slots s))
    eqn:Ho; apply IH; [|assumption].
  unfold add_slot. cbn [slots with_slots].
  apply slots_disjoint_add; assumption.
Qed.

End DayWalk.

(** ** The walk of a day, by time of day *)

Lemma combine_add (d : date) (t x : Z) : combine d t + x = combine d (t + x).
Proof. unfold combine. lia. Qed.

Lemma combine_leb (d : date) (a b : time) :
  (combine d a <=? combine d b) = (a <=? b).
Proof.
  unfold combine.
  destruct (a <=? b) eqn:E; [apply Z.leb_le in E; apply Z.leb_le
                            |apply Z.leb_gt in E; apply Z.leb_gt]; lia.
Qed.

Lemma combine_mono (d : date) (a b : time) :
  a <= b -> combine d a <= combine d b.
Proof. unfold combine. lia. Qed.

Lemma existsb_eq {A : Type} (f g : A -> bool) (l : list A) :
  (forall x, f x = g x) -> existsb f l = existsb g l.
Proof. intros H. induction l; simpl; congruence. Qed.

Lemma is_break_time_on_date (break_times : list (time * time)) (d : date)
    (t t' : time) :
  0 <= t < us_per_day -> 0 <= t' < us_per_day ->
  is_break_time break_times (combine d t) (combine d t')
  = existsb (fun b => (t <? snd b) && (t' >? fst b)) break_times.
Proof.
  intros Ht Ht'. unfold is_break_time.
  rewrite !time_of_combine by assumption.
  apply existsb_eq. now intros [bs be].
Qed.

(** Slots that ended by [s] are not in the way of [s, e). *)
Lemma overlapping_slots_past (uid : Z) (s e : datetime)
    (rows : list AvailableTimeSlot) :
  (forall r, In r rows -> officer_id r = uid -> end_time r <= s) ->
  overlapping_slots uid s e rows = [].
Proof.
  intros H. unfold overlapping_slots.
  induction rows as [|r rows IH]; simpl; [reflexivity|].
  destruct (officer_id r =? uid) eqn:Ho; simpl.
  - apply Z.eqb_eq in Ho.
    assert (He : end_time r <= s) by (apply H; simpl; auto).
    replace (end_time r >? s) with false
      by (symmetry; rewrite Z.gtb_ltb; apply Z.ltb_ge; lia).
    rewrite andb_false_r. apply IH. intros; apply H; simpl; auto.
  - apply IH. intros; apply H; simpl; auto.
Qed.

Section DayCandidates.

Variables (police_info : PoliceInfo) (uid sid : Z).
Variable break_times : list (time * time).
Variable d : date.
Variable end_t : time.
Hypothesis end_in_day : end_t < us_per_day.

(** On a day where none of the officer's slots reaches past the start of the
    walk, the loop adds exactly the candidates that are clear of the breaks,
    in order. *)
Lemma walk_day_candidates (fuel : nat) : forall t s,
  0 <= t ->
  (forall r, In r (slots s) -> officer_id r = uid ->
             end_time r <= combine d t) ->
  exists new,
    walk_day fuel police_info uid sid break_times (combine d end_t)
             (combine d t) s
    = with_slots (slots s ++ new) s
    /\ map interval new
       = map (on_date d) (day_candidates fuel break_times end_t t).
Proof.
  pose proof interview_duration_pos as Hd. pose proof gap_duration_pos as Hg.
  induction fuel as [|fuel IH]; intros t s Ht Hpast;
    cbn [walk_day day_candidates].
  - exists []. now rewrite app_nil_r, with_slots_same.
  - rewrite combine_add, combine_leb.
    destruct (t + interview_duration <=? end_t) eqn:Hle.
    2:{ exists []. now rewrite app_nil_r, with_slots_same. }
    apply Z.leb_le in Hle.
    rewrite is_break_time_on_date by lia.
    match goal with |- context [existsb ?f break_times] =>
      destruct (existsb f break_times) end.
    + apply IH; [lia|]. intros r Hr Ho.
      etransitivity; [now apply Hpast|]. apply combine_mono. lia.
    + rewrite overlapping_slots_past by assumption.
      rewrite combine_add.
      match goal with |- context [walk_day _ _ _ _ _ _ _ ?s'] =>
        destruct (IH (t + interview_duration + gap_duration) s')
          as (new & -> & Hn) end.
      * lia.
      * unfold add_slot. cbn [slots with_slots]. intros r Hr Ho.
        apply in_app_or in Hr. destruct Hr as [Hr|[<-|[]]].
        -- etransitivity; [now apply Hpast|]. apply combine_mono. lia.
        -- cbn [end_time new_generated_slot]. apply combine_mono. lia.
      * eexists (_ :: new). split.
        -- unfold add_slot. cbn [slots with_slots].
           now rewrite <- app_assoc.
        -- cbn [map]. rewrite Hn. reflexivity.
Qed.

End DayCandidates.

(** ** The breaks of the new schedule *)

Lemma add_breaks_adds (sid : Z) (break_starts break_ends : list (Field time)) :
  forall i s s',
  add_breaks sid break_starts break_ends i s = Some s' ->
  exists new,
    s' = with_scheduled_breaks (scheduled_breaks s ++ new) s
    /\ Forall (fun b => schedule_id b = sid) new.
Proof.
  assert (Hsame : forall s, with_scheduled_breaks (scheduled_breaks s ++ []) s = s)
    by (intros s; rewrite app_nil_r; now destruct s).
  induction break_starts as [|bs rest IH]; intros i s s' H; cbn [add_breaks] in H.
  - injection H as <-. exists []. now rewrite Hsame.
  - destruct bs as [| |bstart].
    + now apply IH in H.
    + destruct (nth_error break_ends i); [|discriminate]. now apply IH in H.
    + destruct (nth_error break_ends i) as [[| |bend]|]; try discriminate;
        try (now apply IH in H).
      apply IH in H. destruct H as (new & -> & Hn).
      eexists (_ :: new). split.
      * cbn [scheduled_breaks with_scheduled_breaks].
        now rewrite <- app_assoc.
      * constructor; [reflexivity|assumption].
Qed.

(** ** The weeks of the horizon *)

Lemma day_fuel_on_date (d : date) (start_t end_t : time) :
  day_fuel (combine d start_t) (combine d end_t)
  = S (Z.to_nat ((end_t - start_t) / interview_duration)).
Proof.
  unfold day_fuel, combine. do 3 f_equal. lia.
Qed.

Section Weeks.

Variables (police_info : PoliceInfo) (uid sid : Z).
Variables (start_t end_t : time) (next_date : date).
Variable clock : nat -> datetime.
Hypothesis start_in_day : 0 <= start_t.
Hypothesis end_in_day : end_t < us_per_day.

Let day (week : nat) : date := next_date + Z.of_nat week * 7.
Let week_of := generate_week police_info uid sid start_t end_t next_date clock.

Lemma generate_week_spec (s : DB) (week : nat) :
  (forall r, In r (slots s) -> officer_id r = uid ->
             end_time r <= combine (day week) start_t) ->
  exists new,
    week_of s week = with_slots (slots s ++ new) s
    /\ map interval new
       = week_intervals start_t end_t (break_times_of s sid) next_date clock week
    /\ Forall (fun r => officer_id r = uid
                        /\ clock week <= start_time r
                        /\ combine (day week) start_t <= start_time r
                        /\ end_time r <= combine (day week) end_t) new.
Proof.
  intros Hpast. unfold week_of, generate_week, week_intervals. fold (day week).
  destruct (combine (day week) start_t <? clock week) eqn:Hskip.
  - exists []. now rewrite app_nil_r, with_slots_same.
  - apply Z.ltb_ge in Hskip. rewrite day_fuel_on_date.
    destruct (walk_day_candidates police_info uid sid (break_times_of s sid)
                (day week) end_t end_in_day
                (S (Z.to_nat ((end_t - start_t) / interview_duration)))
                start_t s start_in_day Hpast) as (new & Hw & Hn).
    destruct (walk_day_adds police_info uid sid (break_times_of s sid)
                (combine (day week) end_t)
                (S (Z.to_nat ((end_t - start_t) / interview_duration)))
                (combine (day week) start_t) s) as (new' & Hw' & Hn').
    assert (new' = new) as ->.
    { rewrite Hw in Hw'. apply (f_equal slots) in Hw'.
      cbn [slots with_slots] in Hw'. now apply app_inv_head in Hw'. }
    exists new. repeat split; try assumption.
    eapply Forall_impl; [|exact Hn']. cbv beta. intuition lia.
Qed.

(** The weeks [k, k + n) of the horizon, walked in order from a session in
    which none of the officer's slots reaches past the start of week [k]'s
    day. *)
Lemma generate_weeks_spec (n : nat) : forall (k : nat) (s : DB),
  (forall r, In r (slots s) -> officer_id r = uid ->
             end_time r <= combine (day k) start_t) ->
  exists new,
    fold_left week_of (seq k n) s = with_slots (slots s ++ new) s
    /\ map interval new
       = flat_map (week_intervals start_t end_t (break_times_of s sid)
                                  next_date clock) (seq k n)
    /\ Forall (fun r => officer_id r = uid
                        /\ (exists week, (k <= week < k + n)%nat
                                         /\ clock week <= start_time r
                                         /\ combine (day week) start_t
                                            <= start_time r)
                        /\ end_time r <= combine (day (k + n)) start_t) new.
Proof.
  pose proof us_per_day_pos as HU.
  induction n as [|n IH]; intros k s Hpast; cbn [seq fold_left flat_map].
  - exists []. now rewrite app_nil_r, with_slots_same.
  - destruct (generate_week_spec s k Hpast) as (new1 & -> & Hi1 & Hn1).
    destruct (IH (S k) (with_slots (slots s ++ new1) s)) as (new2 & -> & Hi2 & Hn2).
    { cbn [slots with_slots]. intros r Hr Ho. apply in_app_or in Hr.
      destruct Hr as [Hr|Hr].
      - etransitivity; [now apply Hpast|]. unfold day, combine. lia.
      - rewrite Forall_forall in Hn1. destruct (Hn1 r Hr) as (_ & _ & _ & He).
        etransitivity; [exact He|]. unfold day, combine. nia. }
    exists (new1 ++ new2). repeat split.
    + cbn [slots with_slots]. now rewrite app_assoc.
    + rewrite map_app, Hi1, Hi2. reflexivity.
    + apply Forall_app. split.
      * eapply Forall_impl; [|exact Hn1]. cbv beta.
        intros r (Ho & Hc & Hs & He). repeat split; [assumption| |].
        -- exists k. repeat split; try assumption; lia.
        -- etransitivity; [exact He|]. unfold day, combine. nia.
      * eapply Forall_impl; [|exact Hn2]. cbv beta.
        intros r (Ho & (week & Hw & Hc & Hs) & He). repeat split; [assumption| |].
        -- exists week. repeat split; try assumption; lia.
        -- replace (k + S n)%nat with (S k + n)%nat by lia. exact He.
Qed.

End Weeks.

Section WeeksAdd.

Variables (police_info : PoliceInfo) (uid sid : Z).
Variables (start_t end_t : time) (next_date : date).
Variable clock : nat -> datetime.

Let day (week : nat) : date := next_date + Z.of_nat week * 7.
Let week_of := generate_week police_info uid sid start_t end_t next_date clock.

(** Whatever the store holds, a week only appends slots, and only when its
    guard let the day pass; none starts before the start of the day. *)
Lemma generate_week_adds (s : DB) (week : nat) :
  exists new,
    week_of s week = with_slots (slots s ++ new) s
    /\ Forall (fun r => clock week <= combine (day week) start_t
                        /\ combine (day week) start_t <= start_time r) new.
Proof.
  unfold week_of, generate_week. fold (day week).
  destruct (combine (day week) start_t <? clock week) eqn:Hskip.
  - exists []. now rewrite app_nil_r, with_slots_same.
  - apply Z.ltb_ge in Hskip.
    match goal with |- context [walk_day ?f _ _ _ ?bt ?e ?c s] =>
      destruct (walk_day_adds police_info uid sid bt e f c s)
        as (new & -> & Hn) end.
    exists new. split; [reflexivity|].
    eapply Forall_impl; [|exact Hn]. cbv beta. intuition lia.
Qed.

Lemma generate_weeks_adds (n : nat) : forall (k : nat) (s : DB),
  exists new,
    fold_left week_of (seq k n) s = with_slots (slots s ++ new) s
    /\ Forall (fun r => exists week, (k <= week < k + n)%nat
                                     /\ clock week <= combine (day week) start_t
                                     /\ combine (day week) start_t
                                        <= start_time r) new.
Proof.
  induction n as [|n IH]; intros k s; cbn [seq fold_left].
  - exists []. now rewrite app_nil_r, with_slots_same.
  - destruct (generate_week_adds s k) as (new1 & -> & Hn1).
    destruct (IH (S k) (with_slots (slots s ++ new1) s)) as (new2 & -> & Hn2).
    exists (new1 ++ new2). split.
    + cbn [slots with_slots]. now rewrite app_assoc.
    + apply Forall_app. split.
      * eapply Forall_impl; [|exact Hn1]. cbv beta. intros r (Hc & Hs).
        exists k. repeat split; try assumption; lia.
      * eapply Forall_impl; [|exact Hn2]. cbv beta.
        intros r (week & Hw & Hc & Hs).
        exists week. repeat split; try assumption; lia.
Qed.

(** The weeks keep the slot table free of overlaps. *)
Lemma generate_weeks_disjoint (weeks : list nat) : forall s,
  slots_disjoint (slots s) ->
  slots_disjoint (slots (fold_left week_of weeks s)).
Proof.
  induction weeks as [|w weeks IH]; intros s Hs; cbn [fold_left];
    [assumption|].
  apply IH. unfold week_of, generate_week.
  destruct (_ <? clock w); [assumption|]. now apply walk_day_disjoint.
Qed.

End WeeksAdd.

Lemma add_breaks_slots (sid : Z) (break_starts break_ends : list (Field time))
    (i : nat) (s s' : DB) :
  add_breaks sid break_starts break_ends i s = Some s' -> slots s' = slots s.
Proof.
  intros H. apply add_breaks_adds in H. destruct H as (new & -> & _).
  reflexivity.
Qed.

(** The first occurrence falls on the requested day of the week. *)
Lemma next_date_weekday (day_of_week : Z) (end_time_obj : time)
    (now : datetime) :
  weekday (date_of now + days_ahead_of day_of_week end_time_obj now)
  = day_of_week mod 7.
Proof.
  unfold days_ahead_of, weekday.
  generalize (date_of now). intros a.
  assert (G : (a + (day_of_week - a mod 7) mod 7) mod 7 = day_of_week mod 7).
  { rewrite Z.add_mod_idemp_r by lia.
    replace (a + (day_of_week - a mod 7))
      with (day_of_week + (a - a mod 7)) by lia.
    rewrite (Z.div_mod a 7) at 1 by lia.
    replace (day_of_week + (7 * (a / 7) + a mod 7 - a mod 7))
      with (day_of_week + (a / 7) * 7) by lia.
    apply Z.mod_add. lia. }
  destruct (_ =? 0) eqn:E; [destruct (_ >=? _)|]; try exact G.
  clear G. apply Z.eqb_eq in E. Z.div_mod_to_equations. lia.
Qed.

Lemma weekday_weeks (d : date) (week : nat) :
  weekday (d + Z.of_nat week * 7) = weekday d.
Proof. unfold weekday. apply Z.mod_add. lia. Qed.

(** ** The weekly route as a whole *)

(** Whatever is submitted, the route leaves the stored slots in place and
    appends new ones only behind a guard that passed. *)
Lemma weekly_availability_adds (db : DB) (uid : Z) (form : WeeklyForm)
    (now : datetime) (clock : nat -> datetime) (accepts : bool) :
  fst (police_add_weekly_availability db uid form now clock accepts) = db
  \/ exists day_of_week start_t end_t new,
       form_day_of_week form = Parsed day_of_week
       /\ form_start_time form = Parsed start_t
       /\ form_end_time form = Parsed end_t
       /\ slots (fst (police_add_weekly_availability db uid form now clock
                                                     accepts))
          = slots db ++ new
       /\ Forall (fun r =>
                   exists week : nat,
                     let d := date_of now
                              + days_ahead_of day_of_week end_t now
                              + Z.of_nat week * 7 in
                     clock week <= combine d start_t
                     /\ combine d start_t <= start_time r) new.
Proof.
  unfold police_add_weekly_availability.
  destruct (current_user db uid) as [cu|]; [|now left].
  destruct (negb _); [now left|].
  destruct (police_info_of db uid) as [police_info|]; [|now left].
  destruct (negb _); [now left|].
  destruct (form_day_of_week form) as [| |day_of_week] eqn:Hd;
    destruct (form_start_time form) as [| |start_t] eqn:Hs;
    destruct (form_end_time form) as [| |end_t] eqn:He; try (now left).
  destruct (start_t >=? end_t); [now left|].
  destruct (negb (fits_int64 _)); [now left|].
  destruct (first _ (weekly_schedules db)); [now left|].
  destruct (add_breaks _ _ _ _ _) as [sb|] eqn:Hb; [|now left].
  destruct accepts; [|now left]. cbn [commit].
  match goal with |- context [fold_left (generate_week ?p ?u ?i ?st ?en ?nd ?c)
                                        (seq 0 4) sb] =>
    destruct (generate_weeks_adds p u i st en nd c 4 0%nat sb)
      as (new & Hfold & Hn) end.
  right. exists day_of_week, start_t, end_t, new.
  repeat split; try reflexivity.
  - apply add_breaks_slots in Hb. cbn [slots with_weekly_schedules] in Hb.
    destruct (_ && _); cbn [fst]; rewrite Hfold; cbn [slots with_slots];
      now rewrite Hb.
  - eapply Forall_impl; [|exact Hn]. cbv beta zeta.
    intros r (week & _ & Hc & Hr). now exists week.
Qed.

(** The weekly route keeps the slot table free of overlaps. *)
Lemma weekly_availability_disjoint (db : DB) (uid : Z) (form : WeeklyForm)
    (now : datetime) (clock : nat -> datetime) (accepts : bool) :
  slots_disjoint (slots db) ->
  slots_disjoint
    (slots (fst (police_add_weekly_availability db uid form now clock accepts))).
Proof.
  intros Hdb. unfold police_add_weekly_availability.
  destruct (current_user db uid) as [cu|]; [|assumption].
  destruct (negb _); [assumption|].
  destruct (police_info_of db uid) as [police_info|]; [|assumption].
  destruct (negb _); [assumption|].
  destruct (form_day_of_week form) as [| |day_of_week];
    destruct (form_start_time form) as [| |start_t];
    destruct (form_end_time form) as [| |end_t]; try assumption.
  destruct (start_t >=? end_t); [assumption|].
  destruct (negb (fits_int64 _)); [assumption|].
  destruct (first _ (weekly_schedules db)); [assumption|].
  destruct (add_breaks _ _ _ _ _) as [sb|] eqn:Hb; [|assumption].
  destruct accepts; [|assumption]. cbn [commit].
  assert (Hsb : slots_disjoint (slots sb)).
  { apply add_breaks_slots in Hb. now rewrite Hb. }
  destruct (_ && _); cbn [fst]; now apply generate_weeks_disjoint.
Qed.

(** The ad-hoc route keeps the slot table free of overlaps. *)
Lemma add_availability_disjoint (db : DB) (uid : Z) (form : SlotForm)
    (now : datetime) (accepts : bool) :
  slots_disjoint (slots db) ->
  slots_disjoint (slots (fst (police_add_availability db uid form now accepts))).
Proof.
  intros Hdb. unfold police_add_availability.
  destruct (current_user db uid) as [cu|]; [|assumption].
  destruct (negb _); [assumption|].
  destruct (police_info_of db uid) as [police_info|]; [|assumption].
  destruct (negb _); [assumption|].
  destruct (form_slot_date form) as [| |slot_date];
    destruct (form_slot_start form) as [| |start_t];
    destruct (form_slot_end form) as [| |end_t]; try assumption.
  cbv zeta.
  destruct (_ >=? _); [assumption|].
  destruct (_ <? now); [assumption|].
  destruct (overlapping_slots _ _ _ _) eqn:Ho; [|assumption].
  destruct accepts; [|assumption]. cbn [commit fst add_slot slots with_slots].
  now apply slots_disjoint_add.
Qed.

(** ** Lookups after updates *)

Lemma find_map_preserved {A : Type} (p : A -> bool) (h : A -> A)
    (rows : list A) :
  (forall x, p (h x) = p x) ->
  find p (map h rows) = option_map h (find p rows).
Proof.
  intros Hp. induction rows as [|r rows IH]; simpl; [reflexivity|].
  rewrite Hp. destruct (p r); [reflexivity|assumption].
Qed.

Lemma find_update_first {A : Type} (p : A -> bool) (f : A -> A)
    (rows : list A) (r : A) :
  find p rows = Some r -> p (f r) = true ->
  find p (update_first p f rows) = Some (f r).
Proof.
  intros Hf Hp. induction rows as [|x rows IH]; simpl in *; [discriminate|].
  destruct (p x) eqn:E.
  - injection Hf as ->. simpl. now rewrite Hp.
  - simpl. rewrite E. auto.
Qed.

Lemma find_snoc_fresh {A : Type} (p : A -> bool) (rows : list A) (x : A) :
  (forall r, In r rows -> p r = false) -> p x = true ->
  find p (rows ++ [x]) = Some x.
Proof.
  intros Hr Hx. induction rows as [|r rows IH]; simpl.
  - now rewrite Hx.
  - rewrite (Hr r) by (simpl; auto). apply IH. intros; apply Hr; simpl; auto.
Qed.

(** ** The booking route *)

Ltac refused :=
  left; cbn [fst snd]; split;
  [reflexivity|first [left; reflexivity|right; eexists; reflexivity]].

(** The two ways the route can end: refused with the store untouched, or
    every check passed and the whole session committed. *)
Lemma book_interview_slot_cases (db : DB) (uid : Z) (form : BookForm)
    (now : datetime) (uuid_int : Z) (accepts : bool) :
  (fst (book_interview_slot db uid form now uuid_int accepts) = db
   /\ (snd (book_interview_slot db uid form now uuid_int accepts) = LoginRequired
       \/ exists m, snd (book_interview_slot db uid form now uuid_int accepts)
                    = Flash "danger" m))
  \/ exists cu application time_slot,
       current_user db uid = Some cu
       /\ userType cu = "resident"%string
       /\ book_slot_id form = Some (slot_id time_slot)
       /\ book_application_id form = Some (app_id application)
       /\ first (fun a => app_id a =? app_id application) (applications db)
          = Some application
       /\ applicant_id application = user_id cu
       /\ app_status application = "leader_approved"%string
       /\ first (fun s => slot_id s =? slot_id time_slot) (slots db)
          = Some time_slot
       /\ is_booked time_slot = false
       /\ accepts = true
       /\ certificate_number_free db
            (new_certificate db application uuid_int now) = true
       /\ book_interview_slot db uid form now uuid_int accepts
          = (booking_session db cu application time_slot now uuid_int,
             booked_flash).
Proof.
  unfold book_interview_slot.
  destruct (current_user db uid) as [cu|]; [|refused].
  destruct (userType cu =? "resident")%string eqn:Htype; cbn [negb];
    [|refused].
  destruct (book_slot_id form) as [sid|]; [|refused].
  destruct (book_application_id form) as [aid|]; [|refused].
  destruct (first _ (applications db)) as [application|] eqn:Happ;
    [|refused].
  destruct (applicant_id application =? user_id cu) eqn:Hown; cbn [negb];
    [|refused].
  destruct (app_status application =? "leader_approved")%string eqn:Hst;
    cbn [negb]; [|refused].
  destruct (first _ (slots db)) as [time_slot|] eqn:Hslot; [|refused].
  destruct (is_booked time_slot) eqn:Hb; [refused|].
  destruct accepts; cbn [andb commit]; [|refused].
  destruct (certificate_number_free _ _) eqn:Hfree; [|refused].
  right. exists cu, application, time_slot.
  unfold first in *.
  pose proof (find_some _ _ Happ) as [_ Haid].
  pose proof (find_some _ _ Hslot) as [_ Hsid]. bool_hyps. subst aid sid.
  repeat split; auto.
Qed.

(** What a committed booking session holds. *)
Lemma booking_session_slot (db : DB) (cu : User)
    (application : AddressApplication) (time_slot : AvailableTimeSlot)
    (now : datetime) (uuid_int : Z) :
  first (fun s => slot_id s =? slot_id time_slot) (slots db) = Some time_slot ->
  first (fun s => slot_id s =? slot_id time_slot)
        (slots (booking_session db cu application time_slot now uuid_int))
  = Some (set_booked true time_slot).
Proof.
  intros Hslot. unfold booking_session, first in *.
  cbn [slots with_slots with_applications with_appointments with_certificates].
  unfold update_where. rewrite find_map_preserved.
  - rewrite find_update_first with (r := time_slot)
      by (assumption || (cbn; apply Z.eqb_refl)).
    cbn [option_map]. now destruct (in_buffer _ _).
  - intros x. now destruct (in_buffer time_slot x).
Qed.

Lemma booking_session_application (db : DB) (cu : User)
    (application : AddressApplication) (time_slot : AvailableTimeSlot)
    (now : datetime) (uuid_int : Z) :
  first (fun a => app_id a =? app_id application) (applications db)
  = Some application ->
  first (fun a => app_id a =? app_id application)
        (applications (booking_session db cu application time_slot now uuid_int))
  = Some (auto_approve (officer_id time_slot) application).
Proof.
  intros Happ. unfold booking_session, first in *.
  cbn [applications with_slots with_applications with_appointments
       with_certificates].
  apply find_update_first; [assumption|]. cbn. apply Z.eqb_refl.
Qed.

(** ** Certificate numbers *)

Lemma hex_digit_upper (d : Z) :
  0 <= d < 16 -> is_upper_hex (upper_char (hex_digit d)).
Proof.
  intros Hd.
  assert (H : d = 0 \/ d = 1 \/ d = 2 \/ d = 3 \/ d = 4 \/ d = 5 \/ d = 6
              \/ d = 7 \/ d = 8 \/ d = 9 \/ d = 10 \/ d = 11 \/ d = 12
              \/ d = 13 \/ d = 14 \/ d = 15) by lia.
  unfold is_upper_hex.
  repeat (destruct H as [->|H]; [vm_compute; tauto|]).
  subst d. vm_compute. tauto.
Qed.

Lemma hex_digits_upper (n : nat) : forall v acc,
  Forall (fun c => is_upper_hex (upper_char c)) acc ->
  Forall (fun c => is_upper_hex (upper_char c)) (hex_digits n v acc).
Proof.
  induction n as [|n IH]; intros v acc Hacc; cbn [hex_digits]; [assumption|].
  apply IH. constructor; [|assumption].
  apply hex_digit_upper. apply Z.mod_pos_bound. lia.
Qed.

Lemma hex_digits_length (n : nat) : forall v acc,
  length (hex_digits n v acc) = (n + length acc)%nat.
Proof.
  induction n as [|n IH]; intros v acc; cbn [hex_digits]; [reflexivity|].
  rewrite IH. simpl. lia.
Qed.

Lemma Forall_firstn_keeps {A : Type} (P : A -> Prop) (n : nat) :
  forall l, Forall P l -> Forall P (firstn n l).
Proof.
  induction n as [|n IH]; intros l Hl; [constructor|].
  destruct Hl; [constructor|]. simpl. constructor; auto.
Qed.

(** The number of a certificate: "AM-" and eight uppercase hexadecimal
    characters, for every UUID. *)
Lemma certificate_number_format (uuid_int : Z) :
  exists digits,
    make_certificate_number uuid_int
    = ("AM-" ++ string_of_list_ascii digits)%string
    /\ length digits = 8%nat
    /\ Forall is_upper_hex digits.
Proof.
  exists (upper (firstn 8 (uuid_hex uuid_int))). split; [reflexivity|].
  unfold upper, uuid_hex. split.
  - rewrite length_map, firstn_length_le; [reflexivity|].
    rewrite hex_digits_length. simpl. lia.
  - apply Forall_map. apply Forall_firstn_keeps, hex_digits_upper. constructor.
Qed.

(** ** The cancellation route *)

Lemma cancel_interview_cases (db : DB) (uid : Z) (form_appointment_id : option Z)
    (accepts : bool) :
  (fst (cancel_interview db uid form_appointment_id accepts) = db
   /\ (snd (cancel_interview db uid form_appointment_id accepts) = LoginRequired
       \/ exists m, snd (cancel_interview db uid form_appointment_id accepts)
                    = Flash "danger" m))
  \/ exists cu appointment,
       current_user db uid = Some cu
       /\ userType cu = "resident"%string
       /\ form_appointment_id = Some (appt_id appointment)
       /\ first (fun p => appt_id p =? appt_id appointment) (appointments db)
          = Some appointment
       /\ resident_id appointment = user_id cu
       /\ appt_status appointment = "scheduled"%string
       /\ accepts = true
       /\ cancel_interview db uid form_appointment_id accepts
          = (cancellation_session db appointment,
             Flash "success" "Interview cancelled successfully.").
Proof.
  unfold cancel_interview.
  destruct (current_user db uid) as [cu|]; [|refused].
  destruct (userType cu =? "resident")%string eqn:Htype; cbn [negb];
    [|refused].
  destruct form_appointment_id as [aid|]; [|refused].
  destruct (first _ (appointments db)) as [appointment|] eqn:Happt; [|refused].
  destruct (resident_id appointment =? user_id cu) eqn:Hown; cbn [negb];
    [|refused].
  destruct (appt_status appointment =? "scheduled")%string eqn:Hst;
    cbn [negb]; [|refused].
  destruct accepts; cbn [commit]; [|refused].
  right. exists cu, appointment. unfold first in *.
  pose proof (find_some _ _ Happt) as [_ Haid]. bool_hyps. subst aid.
  repeat split; auto.
Qed.

(** An appointment that is not "scheduled" cannot be cancelled, by anyone. *)
Lemma cancel_interview_refused (db : DB) (uid : Z) (appointment : Appointment)
    (accepts : bool) :
  first (fun p => appt_id p =? appt_id appointment) (appointments db)
  = Some appointment ->
  appt_status appointment <> "scheduled"%string ->
  fst (cancel_interview db uid (Some (appt_id appointment)) accepts) = db
  /\ (snd (cancel_interview db uid (Some (appt_id appointment)) accepts)
      = LoginRequired
      \/ exists m, snd (cancel_interview db uid (Some (appt_id appointment))
                                         accepts) = Flash "danger" m).
Proof.
  intros Hfind Hst.
  destruct (cancel_interview_cases db uid (Some (appt_id appointment)) accepts)
    as [H|(cu & appointment' & _ & _ & Hid & Hfind' & _ & Hst' & _)];
    [assumption|].
  injection Hid as Hid. rewrite <- Hid in Hfind'. rewrite Hfind in Hfind'.
  injection Hfind' as <-. contradiction.
Qed.

(** ** Primary keys *)

Lemma update_first_unique {A : Type} (key : A -> Z) (k : Z) (f : A -> A)
    (rows : list A) :
  NoDup (map key rows) ->
  (forall r, key (f r) = key r) ->
  update_first (fun r => key r =? k) f rows
  = map (fun r => if key r =? k then f r else r) rows.
Proof.
  intros Hnd Hkey. induction rows as [|r rows IH]; simpl; [reflexivity|].
  inversion Hnd as [|? ? Hnotin Hnd']; subst.
  destruct (key r =? k) eqn:E.
  - f_equal. apply Z.eqb_eq in E. symmetry.
    rewrite <- (map_id rows) at 2. apply map_ext_in. intros x Hx.
    destruct (key x =? k) eqn:E'; [|reflexivity].
    apply Z.eqb_eq in E'. exfalso. apply Hnotin. rewrite E, <- E'.
    now apply in_map.
  - f_equal. now apply IH.
Qed.

(** * The claims *)

(** ** C1: the Monday scenario *)

Lemma monday_candidates :
  day_candidates (S (Z.to_nat ((hm 12 0 - hm 9 0) / interview_duration)))
                 [(hm 10 0, hm 10 15)] (hm 12 0) (hm 9 0)
  = monday_slots.
Proof. vm_compute. reflexivity. Qed.

Lemma find_none {A : Type} (p : A -> bool) (rows : list A) :
  (forall r, In r rows -> p r = false) -> find p rows = None.
Proof.
  induction rows as [|r rows IH]; simpl; intros H; [reflexivity|].
  rewrite (H r) by auto. apply IH. auto.
Qed.

Lemma filter_none {A : Type} (p : A -> bool) (rows : list A) :
  (forall r, In r rows -> p r = false) -> filter p rows = [].
Proof.
  induction rows as [|r rows IH]; simpl; intros H; [reflexivity|].
  rewrite (H r) by auto. apply IH. auto.
Qed.

(** C1 (as amended).  For the weekly schedule Monday 09:00-12:00 with the
    break 10:00-10:15, submitted by an approved officer who has no active
    Monday schedule and no slot yet, generation appends, for each of the
    four Mondays whose 09:00 is not before the clock reading of its guard,
    exactly the slots 09:00-09:30, 10:15-10:45 and 11:00-11:30, in this
    order, and nothing else: the candidate 09:45-10:15 meets the break and
    is dropped, the walk resumes at 10:15, and 11:45-12:15 would end past
    12:00. *)
Theorem monday_schedule_slots (db : DB) (uid : Z) (cu : User)
    (police_info : PoliceInfo) (now : datetime) (clock : nat -> datetime) :
  current_user db uid = Some cu ->
  userType cu = "police"%string ->
  police_info_of db uid = Some police_info ->
  isApproved police_info = true ->
  (forall w, In w (weekly_schedules db) -> ws_officer_id w = uid ->
             day_of_week w = 0 -> is_active w = false) ->
  (forall r, In r (slots db) -> officer_id r <> uid) ->
  (forall b, In b (scheduled_breaks db) ->
             In (schedule_id b) (map ws_id (weekly_schedules db))) ->
  let result :=
    police_add_weekly_availability db uid monday_form now clock true in
  let monday (week : nat) : date :=
    date_of now + days_ahead_of 0 (hm 12 0) now + Z.of_nat week * 7 in
  exists new,
    slots (fst result) = slots db ++ new
    /\ map interval new
       = flat_map (fun week =>
                     if combine (monday week) (hm 9 0) <? clock week then []
                     else map (on_date (monday week)) monday_slots)
                  (seq 0 4)
    /\ (forall week, weekday (monday week) = 0).
Proof.
  intros Hcu Htype Hpi Happr Hsched Hfresh Hfk result monday.
  set (sid := next_id (map ws_id (weekly_schedules db))).
  set (sb := with_scheduled_breaks
               (scheduled_breaks db ++
                [mkScheduledBreak (next_id (map sb_id (scheduled_breaks db)))
                                  sid (hm 10 0) (hm 10 15)])
               (with_weekly_schedules
                  (weekly_schedules db ++
                   [mkWeeklySchedule sid uid 0 (hm 9 0) (hm 12 0) true]) db)).
  assert (Hbt : break_times_of sb sid = [(hm 10 0, hm 10 15)]).
  { unfold break_times_of, sb. cbn [scheduled_breaks with_scheduled_breaks].
    rewrite filter_app, filter_none.
    - cbn [filter schedule_id app]. now rewrite Z.eqb_refl.
    - intros b Hb. apply Z.eqb_neq. intros E. apply Hfk in Hb.
      rewrite E in Hb. now apply next_id_not_in in Hb. }
  destruct (generate_weeks_spec police_info uid sid (hm 9 0) (hm 12 0)
              (date_of now + days_ahead_of 0 (hm 12 0) now) clock
              ltac:(discriminate) ltac:(reflexivity) 4 0%nat sb)
    as (new & Hfold & Hint & _).
  { intros r Hr Ho. now apply Hfresh in Hr. }
  exists new. split; [|split].
  - unfold result, police_add_weekly_availability.
    rewrite Hcu, Htype, Hpi, Happr. cbn [String.eqb Ascii.eqb Bool.eqb negb].
    unfold monday_form.
    cbn [form_day_of_week form_start_time form_end_time form_break_starts
         form_break_ends].
    replace (hm 9 0 >=? hm 12 0) with false by reflexivity.
    change (fits_int64 0) with true. cbn [negb].
    rewrite find_none.
    2:{ intros w Hw. destruct (ws_officer_id w =? uid) eqn:E1; [|reflexivity].
        destruct (day_of_week w =? 0) eqn:E2; [|reflexivity].
        bool_hyps. cbn [andb]. now apply Hsched. }
    cbn [add_breaks nth_error]. fold sid.
    match goal with |- context [fold_left ?f ?l ?s] =>
      change s with sb end.
    rewrite Hfold. reflexivity.
  - rewrite Hint, Hbt. apply flat_map_ext. intros week.
    unfold week_intervals. now rewrite monday_candidates.
  - intros week. unfold monday. rewrite weekday_weeks, next_date_weekday.
    reflexivity.
Qed.

Lemma monday_schedule_slots_witness :
  exists new,
    slots (fst tuesday_run) = slots officer_db ++ new
    /\ map interval new
       = flat_map (fun week =>
                     if combine (date_of tuesday_10
                                 + days_ahead_of 0 (hm 12 0) tuesday_10
                                 + Z.of_nat week * 7) (hm 9 0)
                        <? tuesday_10 then []
                     else map (on_date (date_of tuesday_10
                                        + days_ahead_of 0 (hm 12 0) tuesday_10
                                        + Z.of_nat week * 7)) monday_slots)
                  (seq 0 4)
    /\ (forall week,
          weekday (date_of tuesday_10 + days_ahead_of 0 (hm 12 0) tuesday_10
                   + Z.of_nat week * 7) = 0).
Proof.
  apply (monday_schedule_slots officer_db 7
           (mkUser 7 "Officer Seven" "seven@station.example" "police" true)
           (mkPoliceInfo 1 7 "Central" "Tshwane" "0001" true)
           tuesday_10 (fun _ => tuesday_10));
    try reflexivity; intros ? [].
Defined.

(** C1, the claim as stated, fails: on the first generated Monday the route
    persists three slots, and no 09:45-10:00 slot. *)
Lemma monday_schedule_claim_refuted :
  map interval (slots_on 739928 (fst tuesday_run))
  = map (on_date 739928) monday_slots
  /\ map interval (slots_on 739928 (fst tuesday_run))
     <> map (on_date 739928) claimed_monday_slots
  /\ existsb (fun r => (time_of (start_time r) =? hm 9 45))
             (slots (fst tuesday_run)) = false.
Proof.
  vm_compute. repeat split; discriminate.
Qed.

(** ** C5: today's occurrence *)

Lemma day_candidates_from (fuel : nat) (break_times : list (time * time))
    (end_t : time) : forall t,
  Forall (fun c => t <= fst c) (day_candidates fuel break_times end_t t).
Proof.
  pose proof interview_duration_pos as Hd. pose proof gap_duration_pos as Hg.
  induction fuel as [|fuel IH]; intros t; cbn [day_candidates];
    [constructor|].
  destruct (_ <=? _); [|constructor].
  destruct (existsb _ _).
  - eapply Forall_impl; [|apply IH]. cbv beta. intros; lia.
  - constructor; [cbn [fst]; lia|].
    eapply Forall_impl; [|apply IH]. cbv beta. intros; lia.
Qed.

(** C5, what the code does.  When the schedule's day of the week is today's
    and the current time of day is before the schedule's end, today is the
    first occurrence (the roll to next week is not taken).  The past check
    is then made once, on the start of the occurrence: when today's start
    is not before the clock reading of the guard, every candidate of
    today's walk is stored; when it is, none of them is, also not those
    that start later today.  Everything else that is stored lies a week
    or more ahead.  (Stated for an approved officer without slots, so that
    no candidate is dropped for an overlap.) *)
Theorem today_occurrence_guard (db : DB) (uid : Z) (cu : User)
    (police_info : PoliceInfo) (form : WeeklyForm) (now : datetime)
    (clock : nat -> datetime) (dow : Z) (start_t end_t : time) (sb : DB) :
  current_user db uid = Some cu ->
  userType cu = "police"%string ->
  police_info_of db uid = Some police_info ->
  isApproved police_info = true ->
  form_day_of_week form = Parsed dow ->
  form_start_time form = Parsed start_t ->
  form_end_time form = Parsed end_t ->
  0 <= start_t -> start_t < end_t -> end_t < us_per_day ->
  (forall w, In w (weekly_schedules db) -> ws_officer_id w = uid ->
             day_of_week w = dow -> is_active w = false) ->
  (forall r, In r (slots db) -> officer_id r <> uid) ->
  add_breaks (next_id (map ws_id (weekly_schedules db)))
             (form_break_starts form) (form_break_ends form) 0%nat
             (with_weekly_schedules
                (weekly_schedules db ++
                 [mkWeeklySchedule (next_id (map ws_id (weekly_schedules db)))
                                   uid dow start_t end_t true]) db)
  = Some sb ->
  weekday (date_of now) = dow ->
  time_of now < end_t ->
  days_ahead_of dow end_t now = 0
  /\ exists new later,
       slots (fst (police_add_weekly_availability db uid form now clock true))
       = slots db ++ new
       /\ map interval new
          = (if combine (date_of now) start_t <? clock 0%nat then []
             else map (on_date (date_of now))
                      (day_candidates
                         (S (Z.to_nat ((end_t - start_t) / interview_duration)))
                         (break_times_of
                            sb (next_id (map ws_id (weekly_schedules db))))
                         end_t start_t))
            ++ later
       /\ Forall (fun iv => date_of now + 7 <= date_of (fst iv)) later.
Proof.
  intros Hcu Htype Hpi Happr Hd Hs He Hst Hlt Hen Hsched Hfresh Hbreaks
         Htoday Hend.
  pose proof us_per_day_pos as HU.
  assert (Hahead : days_ahead_of dow end_t now = 0).
  { unfold days_ahead_of. rewrite Htoday, Z.sub_diag.
    change (0 mod 7) with 0. cbn [Z.eqb].
    replace (time_of now >=? end_t) with false; [reflexivity|].
    symmetry. rewrite Z.geb_leb. apply Z.leb_gt. assumption. }
  assert (Hfits : fits_int64 dow = true).
  { rewrite <- Htoday. unfold weekday, fits_int64.
    pose proof (Z.mod_pos_bound (date_of now) 7 ltac:(lia)).
    apply andb_true_intro. split; apply Z.leb_le; cbn; lia. }
  split; [exact Hahead|].
  set (sid := next_id (map ws_id (weekly_schedules db))) in *.
  assert (Hslots : slots sb = slots db)
    by (apply add_breaks_slots in Hbreaks; exact Hbreaks).
  destruct (generate_weeks_spec police_info uid sid start_t end_t
              (date_of now + days_ahead_of dow end_t now) clock
              Hst Hen 4 0%nat sb)
    as (new & Hfold & Hint & _).
  { intros r Hr Ho. rewrite Hslots in Hr. now apply Hfresh in Hr. }
  exists new.
  exists (flat_map (week_intervals start_t end_t (break_times_of sb sid)
                                   (date_of now) clock) (seq 1 3)).
  split; [|split].
  - unfold police_add_weekly_availability.
    rewrite Hcu, Htype, Hpi, Happr, Hd, Hs, He.
    cbn [String.eqb Ascii.eqb Bool.eqb negb].
    replace (start_t >=? end_t) with false
      by (symmetry; rewrite Z.geb_leb; apply Z.leb_gt; assumption).
    rewrite Hfits. cbn [negb]. rewrite find_none.
    2:{ intros w Hw. destruct (ws_officer_id w =? uid) eqn:E1; [|reflexivity].
        destruct (day_of_week w =? dow) eqn:E2; [|reflexivity].
        bool_hyps. cbn [andb]. now apply Hsched. }
    fold sid. rewrite Hbreaks, Hfold. cbn [commit].
    destruct (_ && _); cbn [fst slots with_slots]; now rewrite Hslots.
  - rewrite Hint, Hahead, Z.add_0_r. cbn [seq flat_map].
    f_equal. unfold week_intervals. cbv zeta. cbn [Z.of_nat].
    now rewrite Z.add_0_r.
  - apply Forall_forall. intros iv Hiv. apply in_flat_map in Hiv.
    destruct Hiv as (week & Hweek & Hiv). apply in_seq in Hweek.
    unfold week_intervals in Hiv. cbv zeta in Hiv.
    destruct (_ <? _); [contradiction|].
    apply in_map_iff in Hiv. destruct Hiv as (c & <- & Hc).
    pose proof (day_candidates_from
                  (S (Z.to_nat ((end_t - start_t) / interview_duration)))
                  (break_times_of sb sid) end_t start_t) as Hfrom.
    rewrite Forall_forall in Hfrom. specialize (Hfrom c Hc).
    unfold on_date. cbn [fst]. set (d := date_of now).
    unfold date_of, combine. apply Z.div_le_lower_bound; [lia|].
    assert (H7 : (d + 7) * us_per_day
                 <= (d + Z.of_nat week * 7) * us_per_day)
      by (apply Z.mul_le_mono_nonneg_r; lia).
    rewrite (Z.mul_comm us_per_day). etransitivity; [exact H7|].
    assert (Hc0 : 0 <= fst c) by exact (Z.le_trans _ _ _ Hst Hfrom).
    clear - Hc0. lia.
Qed.

(** On Monday at 08:00 the schedule Monday 09:00-12:00 has not started:
    the four candidates of today are stored. *)
Lemma today_occurrence_guard_witness :
  days_ahead_of 0 (hm 12 0) monday_8 = 0
  /\ exists new later,
       slots (fst early_monday_run) = slots officer_db ++ new
       /\ map interval new
          = map (on_date (date_of monday_8)) morning_candidates ++ later
       /\ Forall (fun iv => date_of monday_8 + 7 <= date_of (fst iv)) later.
Proof.
  exact (today_occurrence_guard officer_db 7
           (mkUser 7 "Officer Seven" "seven@station.example" "police" true)
           (mkPoliceInfo 1 7 "Central" "Tshwane" "0001" true)
           monday_form_no_break monday_8 (fun _ => monday_8)
           0 (hm 9 0) (hm 12 0)
           (with_weekly_schedules
              [mkWeeklySchedule 1 7 0 (hm 9 0) (hm 12 0) true] officer_db)
           eq_refl eq_refl eq_refl eq_refl eq_refl eq_refl eq_refl
           ltac:(discriminate) ltac:(reflexivity) ltac:(reflexivity)
           ltac:(intros ? []) ltac:(intros ? []) eq_refl eq_refl eq_refl).
Defined.

(** C5 at its failing input.  On Monday at 10:00, for the schedule Monday
    09:00-12:00, today is the first occurrence (the roll to next week is
    not taken, the end 12:00 being ahead), and the candidates 10:30-11:00
    and 11:15-11:45 of today's walk do not start in the past; yet no slot
    is created for today: the twelve new slots belong to the three Mondays
    that follow.  Two hours earlier the same submission stores today's four
    candidates, sixteen slots in all. *)
Lemma today_candidates_refuted :
  weekday (date_of monday_10) = 0
  /\ time_of monday_10 < hm 12 0
  /\ days_ahead_of 0 (hm 12 0) monday_10 = 0
  /\ day_candidates 7 [] (hm 12 0) (hm 9 0) = morning_candidates
  /\ filter (fun c => monday_10 <=? combine (date_of monday_10) (fst c))
            morning_candidates
     = [(hm 10 30, hm 11 0); (hm 11 15, hm 11 45)]
  /\ snd monday_run
     = Flash "success" "Added weekly schedule for {day} and generated {slots_added} interview slots."
  /\ slots_on (date_of monday_10) (fst monday_run) = []
  /\ map (fun r => date_of (start_time r)) (slots (fst monday_run))
     = [739928; 739928; 739928; 739928; 739935; 739935; 739935; 739935;
        739942; 739942; 739942; 739942]
  /\ map interval (slots_on (date_of monday_8) (fst early_monday_run))
     = map (on_date (date_of monday_8)) morning_candidates
  /\ length (slots (fst early_monday_run)) = 16%nat.
Proof.
  vm_compute. repeat split; discriminate.
Qed.

(** ** C4: the booking is all or nothing *)

(** What [update_first] does to each row, with the test the rewritten row
    passed. *)
Lemma update_first_changes {A : Type} (p : A -> bool) (f : A -> A)
    (rows : list A) :
  Forall2 (fun a a' => a' = a \/ (p a = true /\ a' = f a))
          rows (update_first p f rows).
Proof.
  induction rows as [|r rows IH]; simpl; [constructor|].
  destruct (p r) eqn:E.
  - constructor; [now right|]. clear IH.
    induction rows; constructor; auto.
  - constructor; [now left|assumption].
Qed.

(** The rows of the slot table after the two assignments of a booking: the
    chosen slot first, the result of the buffer query next. *)
Lemma booking_marks_rows (time_slot : AvailableTimeSlot)
    (rows : list AvailableTimeSlot) :
  Forall2 (fun s s' =>
             exists s1,
               (s1 = s \/ (slot_id s = slot_id time_slot
                           /\ s1 = set_booked true s))
               /\ s' = if in_buffer time_slot s1 then set_booked true s1
                       else s1)
          rows
          (update_where (in_buffer time_slot) (set_booked true)
             (update_first (fun s => slot_id s =? slot_id time_slot)
                           (set_booked true) rows)).
Proof.
  unfold update_where.
  generalize (update_first_changes (fun s => slot_id s =? slot_id time_slot)
                (set_booked true) rows).
  generalize (update_first (fun s => slot_id s =? slot_id time_slot)
                (set_booked true) rows).
  intros rows1 H.
  induction H as [|s s1 l l1 Hs _ IH]; simpl; constructor; [|exact IH].
  exists s1. split; [|reflexivity].
  destruct Hs as [->|[Hp ->]]; [now left|right].
  split; [now apply Z.eqb_eq|reflexivity].
Qed.

(** C4.  [book_interview_slot] either answers with the success message or
    leaves the store exactly as it was; a commit the store refuses is of the
    second kind.  With the success message every effect is in the one
    committed store: the chosen slot, which was free, is booked; in the slot
    table only booked flags change and none is cleared, every other free
    slot of the slot's officer that starts before the slot's end plus
    fifteen minutes and ends after the slot's start is booked as well, and
    no other slot becomes booked; the application is "approved", for the
    slot's officer, with the auto-approval note; and one appointment,
    "completed", and one certificate for the application have been added. *)
Theorem book_interview_slot_atomic (db : DB) (uid : Z) (form : BookForm)
    (now : datetime) (uuid_int : Z) (accepts : bool) :
  let r := book_interview_slot db uid form now uuid_int accepts in
  (snd r = booked_flash \/ fst r = db)
  /\ (accepts = false -> fst r = db /\ snd r <> booked_flash)
  /\ (snd r = booked_flash ->
      exists cu application time_slot,
        current_user db uid = Some cu
        /\ book_slot_id form = Some (slot_id time_slot)
        /\ book_application_id form = Some (app_id application)
        /\ first (fun a => app_id a =? app_id application) (applications db)
           = Some application
        /\ app_status application = "leader_approved"%string
        /\ first (fun s => slot_id s =? slot_id time_slot) (slots db)
           = Some time_slot
        /\ is_booked time_slot = false
        /\ first (fun s => slot_id s =? slot_id time_slot) (slots (fst r))
           = Some (mkSlot (slot_id time_slot) (officer_id time_slot)
                          (weekly_schedule_id time_slot)
                          (start_time time_slot) (end_time time_slot) true
                          (municipality time_slot) (station_name time_slot)
                          (postal_code time_slot))
        /\ Forall2
             (fun s s' =>
                s' = mkSlot (slot_id s) (officer_id s) (weekly_schedule_id s)
                            (start_time s) (end_time s) (is_booked s')
                            (municipality s) (station_name s) (postal_code s)
                /\ (is_booked s = true -> is_booked s' = true)
                /\ (officer_id s = officer_id time_slot ->
                    slot_id s <> slot_id time_slot ->
                    is_booked s = false ->
                    start_time s < end_time time_slot + minutes 15 ->
                    start_time time_slot < end_time s ->
                    is_booked s' = true)
                /\ (is_booked s' = true ->
                    is_booked s = true
                    \/ slot_id s = slot_id time_slot
                    \/ (officer_id s = officer_id time_slot
                        /\ start_time s < end_time time_slot + minutes 15
                        /\ start_time time_slot < end_time s)))
             (slots db) (slots (fst r))
        /\ first (fun a => app_id a =? app_id application)
                 (applications (fst r))
           = Some (mkApplication (app_id application)
                                 (applicant_id application)
                                 (Some (officer_id time_slot)) "approved"
                                 (leader_notes application)
                                 (Some "Auto-approved for testing purposes"%string)
                                 (app_created_at application))
        /\ appointments (fst r)
           = appointments db
             ++ [mkAppointment (next_id (map appt_id (appointments db)))
                               (user_id cu) (officer_id time_slot)
                               (app_id application) (start_time time_slot) 30
                               "completed"]
        /\ certificates (fst r)
           = certificates db
             ++ [mkCertificate (next_id (map cert_id (certificates db)))
                               (app_id application)
                               (make_certificate_number uuid_int) now
                               (now + days 365)
                               "/static/certificates/demo_certificate.pdf"]).
Proof.
  cbv zeta.
  destruct (book_interview_slot_cases db uid form now uuid_int accepts)
    as [(Hdb & Hresp)
       |(cu & application & time_slot & Hcu & _ & Hsid & Haid & Happ & _ & Hst
         & Hslot & Hfree & Hacc & _ & Hrun)].
  - assert (Hno : snd (book_interview_slot db uid form now uuid_int accepts)
                  <> booked_flash).
    { destruct Hresp as [->|[m ->]]; discriminate. }
    split; [now right|]. split; [intros _; now split|].
    intros H. contradiction.
  - rewrite Hrun. cbn [fst snd].
    split; [left; reflexivity|]. split; [intros H; congruence|].
    intros _. exists cu, application, time_slot.
    do 7 (split; [assumption|]).
    split; [exact (booking_session_slot db cu application time_slot now
                     uuid_int Hslot)|].
    split; [|split;
             [exact (booking_session_application db cu application time_slot
                       now uuid_int Happ)
             |split; reflexivity]].
    unfold booking_session.
    cbn [slots with_slots with_applications with_appointments
         with_certificates].
    eapply Forall2_impl; [|apply booking_marks_rows].
    intros s s' (s1 & Hs1 & ->).
    destruct Hs1 as [->|[Hid ->]].
    + destruct (in_buffer time_slot s) eqn:Hb.
      * pose proof Hb as Hin. unfold in_buffer in Hin. cbv zeta in Hin.
        bool_hyps.
        split; [reflexivity|]. split; [intros _; reflexivity|].
        split; [intros; reflexivity|]. intros _. right. right. auto.
      * split; [now destruct s|]. split; [intros H; exact H|].
        split; [|intros H; now left].
        intros Ho Hne Hfree' Hlt1 Hlt2. exfalso.
        assert (Hin : in_buffer time_slot s = true); [|congruence].
        unfold in_buffer. cbv zeta.
        rewrite (proj2 (Z.eqb_eq _ _) Ho), (proj2 (Z.eqb_neq _ _) Hne),
          Hfree', (proj2 (Z.ltb_lt _ _) Hlt1), Z.gtb_ltb,
          (proj2 (Z.ltb_lt _ _) Hlt2).
        reflexivity.
    + destruct (in_buffer time_slot (set_booked true s));
        (split; [reflexivity|]; split; [intros _; reflexivity|];
         split; [intros; reflexivity|]; intros _; right; left; exact Hid).
Qed.

(** Resident 1 books the first of the two slots of officer 7, 09:00-09:30:
    the neighbour 09:30-10:00 starts within the fifteen minutes after it and
    is booked with it. *)
Lemma book_interview_slot_atomic_witness :
  snd booked_run = booked_flash
  /\ map is_booked (slots two_slot_db) = [false; false]
  /\ first (fun s => slot_id s =? 1) (slots (fst booked_run))
     = Some (mkSlot 1 7 None (combine 739923 (hm 9 0))
                    (combine 739923 (hm 9 30)) true (Some "Tshwane"%string)
                    (Some "Central"%string) (Some "0001"%string))
  /\ map is_booked (slots (fst booked_run)) = [true; true]
  /\ first (fun a => app_id a =? 1) (applications (fst booked_run))
     = Some (mkApplication 1 1 (Some 7) "approved" None
                           (Some "Auto-approved for testing purposes"%string)
                           100)
  /\ appointments (fst booked_run)
     = [mkAppointment 1 1 7 1 (combine 739923 (hm 9 0)) 30 "completed"]
  /\ certificates (fst booked_run)
     = [mkCertificate 1 1 "AM-1A2B3C4D" tuesday_10 (tuesday_10 + days 365)
                      "/static/certificates/demo_certificate.pdf"].
Proof.
  destruct (proj2 (proj2 (book_interview_slot_atomic two_slot_db 1
                            (mkBookForm (Some 1) (Some 1)) tuesday_10 uuid_a
                            true)) eq_refl)
    as (cu & application & time_slot & Hcu & Hsid & Haid & Happ & _ & Hslot
        & _ & Hbooked & _ & Happ' & Happt & Hcert).
  injection Hsid as Hsid. injection Haid as Haid.
  rewrite <- Hsid in Hslot, Hbooked. rewrite <- Haid in Happ, Happ'.
  vm_compute in Hcu. injection Hcu as <-.
  vm_compute in Hslot. injection Hslot as <-.
  vm_compute in Happ. injection Happ as <-.
  split; [reflexivity|]. split; [reflexivity|].
  split; [vm_compute in Hbooked |- *; exact Hbooked|].
  split; [reflexivity|].
  split; [vm_compute in Happ' |- *; exact Happ'|].
  split; [vm_compute in Happt |- *; exact Happt
         |vm_compute in Hcert |- *; exact Hcert].
Defined.

(** ** C6: a booked slot cannot be booked again *)

(** C6.  When a resident asks [book_interview_slot] for a slot that is
    already booked, the route answers with an error message and the store
    is unchanged: the application keeps its status, no appointment and no
    certificate is added, and the slot is as it was. *)
Theorem booked_slot_is_refused (db : DB) (uid : Z) (cu : User)
    (form : BookForm) (now : datetime) (uuid_int : Z) (accepts : bool)
    (wanted : Z) (time_slot : AvailableTimeSlot) :
  current_user db uid = Some cu ->
  userType cu = "resident"%string ->
  book_slot_id form = Some wanted ->
  first (fun s => slot_id s =? wanted) (slots db) = Some time_slot ->
  is_booked time_slot = true ->
  fst (book_interview_slot db uid form now uuid_int accepts) = db
  /\ exists m, snd (book_interview_slot db uid form now uuid_int accepts)
               = Flash "danger" m.
Proof.
  intros Hcu Htype Hwanted Hslot Hbooked. unfold book_interview_slot.
  rewrite Hcu, Htype, Hwanted. cbn [String.eqb Ascii.eqb Bool.eqb negb].
  destruct (book_application_id form) as [aid|]; [|split; [reflexivity|eexists; reflexivity]].
  destruct (first _ (applications db)) as [application|]; [|split; [reflexivity|eexists; reflexivity]].
  destruct (negb (applicant_id application =? user_id cu)); [split; [reflexivity|eexists; reflexivity]|].
  destruct (negb (app_status application =? "leader_approved")%string);
    [split; [reflexivity|eexists; reflexivity]|].
  rewrite Hslot, Hbooked. split; [reflexivity|eexists; reflexivity].
Qed.

Lemma booked_slot_is_refused_witness :
  fst (book_interview_slot (fst booked_run) 2 (mkBookForm (Some 1) (Some 2))
                           tuesday_10 uuid_b true) = fst booked_run
  /\ exists m,
       snd (book_interview_slot (fst booked_run) 2
                                (mkBookForm (Some 1) (Some 2))
                                tuesday_10 uuid_b true) = Flash "danger" m.
Proof.
  apply (booked_slot_is_refused (fst booked_run) 2
           (mkUser 2 "Resident Two" "two@home.example" "resident" true)
           (mkBookForm (Some 1) (Some 2)) tuesday_10 uuid_b true 1
           (mkSlot 1 7 None (combine 739923 (hm 9 0)) (combine 739923 (hm 9 30))
                   true (Some "Tshwane"%string) (Some "Central"%string)
                   (Some "0001"%string)));
    reflexivity.
Defined.

(** ** C9: the certificate of a booking *)

(** The UUID 1a2b3c4d-5e6f-7081-92a3-b4c5d6e7f809 as Python prints it. *)
Example uuid_hex_example :
  string_of_list_ascii (uuid_hex uuid_a)
  = "1a2b3c4d5e6f708192a3b4c5d6e7f809"%string
  /\ make_certificate_number uuid_a = "AM-1A2B3C4D"%string.
Proof. split; reflexivity. Qed.

(** C9.  The certificate a successful [book_interview_slot] adds has a
    number made of "AM-" and exactly eight uppercase hexadecimal characters,
    is issued at the time of the booking and expires exactly 365 days
    later. *)
Theorem booking_certificate_format (db : DB) (uid : Z) (form : BookForm)
    (now : datetime) (uuid_int : Z) (accepts : bool) :
  snd (book_interview_slot db uid form now uuid_int accepts) = booked_flash ->
  exists certificate digits,
    certificates (fst (book_interview_slot db uid form now uuid_int accepts))
    = certificates db ++ [certificate]
    /\ certificate_number certificate
       = ("AM-" ++ string_of_list_ascii digits)%string
    /\ length digits = 8%nat
    /\ Forall is_upper_hex digits
    /\ issue_date certificate = now
    /\ expiry_date certificate = issue_date certificate + days 365.
Proof.
  intros Hok.
  destruct (book_interview_slot_cases db uid form now uuid_int accepts)
    as [(_ & Hresp)|(cu & application & time_slot & Hrun)].
  - rewrite Hok in Hresp. destruct Hresp as [H|[m H]]; discriminate.
  - decompose [and] Hrun. clear Hrun.
    match goal with H : book_interview_slot _ _ _ _ _ _ = _ |- _ =>
      rewrite H end.
    destruct (certificate_number_format uuid_int) as (digits & Hn & Hl & Hd).
    eexists. exists digits. cbn [fst]. unfold booking_session.
    cbn [certificates with_certificates with_appointments with_applications
         with_slots].
    split; [reflexivity|].
    unfold new_certificate. cbn [certificate_number issue_date expiry_date].
    auto.
Qed.

Lemma booking_certificate_format_witness :
  exists certificate digits,
    certificates (fst booked_run) = certificates two_slot_db ++ [certificate]
    /\ certificate_number certificate
       = ("AM-" ++ string_of_list_ascii digits)%string
    /\ length digits = 8%nat
    /\ Forall is_upper_hex digits
    /\ issue_date certificate = tuesday_10
    /\ expiry_date certificate = issue_date certificate + days 365.
Proof.
  apply (booking_certificate_format two_slot_db 1 (mkBookForm (Some 1) (Some 1))
           tuesday_10 uuid_a true).
  reflexivity.
Defined.

(** ** C10: a booked appointment is born completed *)

(** C10.  The appointment a successful [book_interview_slot] adds has status
    "completed"; [cancel_interview] on it, by whoever and whatever the store
    answers, is refused and returns the store unchanged, and the resident
    who booked is told that the appointment cannot be cancelled. *)
Theorem booked_appointment_cannot_be_cancelled (db : DB) (uid : Z)
    (form : BookForm) (now : datetime) (uuid_int : Z) (accepts : bool) :
  snd (book_interview_slot db uid form now uuid_int accepts) = booked_flash ->
  let db' := fst (book_interview_slot db uid form now uuid_int accepts) in
  exists appointment,
    appointments db' = appointments db ++ [appointment]
    /\ appt_status appointment = "completed"%string
    /\ (forall uid' accepts',
          fst (cancel_interview db' uid' (Some (appt_id appointment)) accepts')
          = db'
          /\ (snd (cancel_interview db' uid' (Some (appt_id appointment))
                                    accepts') = LoginRequired
              \/ exists m,
                   snd (cancel_interview db' uid' (Some (appt_id appointment))
                                         accepts') = Flash "danger" m))
    /\ (forall accepts',
          cancel_interview db' uid (Some (appt_id appointment)) accepts'
          = (db', Flash "danger" "This appointment cannot be cancelled.")).
Proof.
  intros Hok db'.
  destruct (book_interview_slot_cases db uid form now uuid_int accepts)
    as [(_ & Hresp)|(cu & application & time_slot & Hcu & Htype & _ & _ & _
                     & _ & _ & _ & _ & _ & _ & Hrun)].
  { rewrite Hok in Hresp. destruct Hresp as [H|[m H]]; discriminate. }
  unfold db'. rewrite Hrun. cbn [fst]. eexists.
  assert (Hfind : forall appointment,
             appointment
             = mkAppointment (next_id (map appt_id (appointments db)))
                             (user_id cu) (officer_id time_slot)
                             (app_id application) (start_time time_slot) 30
                             "completed" ->
             first (fun p => appt_id p =? appt_id appointment)
                   (appointments
                      (booking_session db cu application time_slot now uuid_int))
             = Some appointment).
  { intros appointment ->. unfold booking_session, first.
    cbn [appointments with_certificates with_appointments with_applications
         with_slots appt_id].
    apply find_snoc_fresh; [|apply Z.eqb_refl].
    intros p Hp. apply Z.eqb_neq. intros E.
    apply (next_id_not_in (map appt_id (appointments db))).
    rewrite <- E. now apply in_map. }
  split; [reflexivity|]. split; [reflexivity|]. split.
  - intros uid' accepts'. apply cancel_interview_refused.
    + now apply Hfind.
    + discriminate.
  - intros accepts'. unfold cancel_interview.
    replace (current_user (booking_session db cu application time_slot now
                                           uuid_int) uid)
      with (Some cu) by (symmetry; exact Hcu).
    rewrite Htype. cbn [String.eqb Ascii.eqb Bool.eqb negb].
    rewrite (Hfind _ eq_refl). cbn [resident_id appt_status].
    rewrite Z.eqb_refl. reflexivity.
Qed.

Lemma booked_appointment_cannot_be_cancelled_witness :
  exists appointment,
    appointments (fst booked_run) = appointments two_slot_db ++ [appointment]
    /\ appt_status appointment = "completed"%string
    /\ (forall uid' accepts',
          fst (cancel_interview (fst booked_run) uid'
                                (Some (appt_id appointment)) accepts')
          = fst booked_run
          /\ (snd (cancel_interview (fst booked_run) uid'
                                    (Some (appt_id appointment)) accepts')
              = LoginRequired
              \/ exists m,
                   snd (cancel_interview (fst booked_run) uid'
                                         (Some (appt_id appointment)) accepts')
                   = Flash "danger" m))
    /\ (forall accepts',
          cancel_interview (fst booked_run) 1 (Some (appt_id appointment))
                           accepts'
          = (fst booked_run,
             Flash "danger" "This appointment cannot be cancelled.")).
Proof.
  apply (booked_appointment_cannot_be_cancelled two_slot_db 1
           (mkBookForm (Some 1) (Some 1)) tuesday_10 uuid_a true).
  reflexivity.
Defined.

(** ** C7: cancelling a scheduled appointment *)

(** C7.  For a "scheduled" appointment of the requesting resident, a
    committed [cancel_interview] answers with the success message; the
    appointment is found with status "cancelled" and the linked application
    with status "leader_approved", every other column of both rows as it
    was; and the slot the query finds, the first row of the slot table that
    belongs to the appointment's officer, starts at the appointment date and
    is booked, has its booked flag cleared and nothing else changed.  Every
    other row of the slot table is left as it was, the neighbours a booking
    blocked included; when no slot matches, the slot table is unchanged. *)
Theorem cancel_interview_effects (db : DB) (uid : Z) (cu : User)
    (appointment : Appointment) :
  current_user db uid = Some cu ->
  userType cu = "resident"%string ->
  first (fun p => appt_id p =? appt_id appointment) (appointments db)
  = Some appointment ->
  resident_id appointment = user_id cu ->
  appt_status appointment = "scheduled"%string ->
  let r := cancel_interview db uid (Some (appt_id appointment)) true in
  snd r = Flash "success" "Interview cancelled successfully."
  /\ first (fun p => appt_id p =? appt_id appointment) (appointments (fst r))
     = Some (mkAppointment (appt_id appointment) (resident_id appointment)
                           (appt_officer_id appointment)
                           (application_id appointment)
                           (appointment_date appointment)
                           (duration_minutes appointment) "cancelled")
  /\ (forall application,
        first (fun a => app_id a =? application_id appointment)
              (applications db) = Some application ->
        first (fun a => app_id a =? application_id appointment)
              (applications (fst r))
        = Some (mkApplication (app_id application) (applicant_id application)
                              (app_officer_id application) "leader_approved"
                              (leader_notes application)
                              (officer_notes application)
                              (app_created_at application)))
  /\ (forall time_slot,
        first (consumed_by appointment) (slots db) = Some time_slot ->
        officer_id time_slot = appt_officer_id appointment
        /\ start_time time_slot = appointment_date appointment
        /\ is_booked time_slot = true
        /\ exists before after,
             slots db = before ++ time_slot :: after
             /\ Forall (fun s => officer_id s <> appt_officer_id appointment
                                 \/ start_time s <> appointment_date appointment
                                 \/ is_booked s = false) before
             /\ slots (fst r)
                = before
                  ++ mkSlot (slot_id time_slot) (officer_id time_slot)
                            (weekly_schedule_id time_slot)
                            (start_time time_slot) (end_time time_slot) false
                            (municipality time_slot) (station_name time_slot)
                            (postal_code time_slot)
                  :: after)
  /\ (first (consumed_by appointment) (slots db) = None ->
      slots (fst r) = slots db).
Proof.
  intros Hcu Htype Hfind Hown Hst r. unfold r, cancel_interview.
  rewrite Hcu, Htype, Hfind, Hown, Hst, Z.eqb_refl.
  cbn [String.eqb Ascii.eqb Bool.eqb negb commit fst snd].
  unfold cancellation_session, first in *.
  cbn [appointments applications slots with_appointments with_applications
       with_slots].
  split; [reflexivity|]. split; [|split; [|split]].
  - rewrite <- Hown.
    exact (find_update_first _ (set_appt_status "cancelled") _ _ Hfind
             (Z.eqb_refl _)).
  - intros application Happ.
    pose proof (find_some _ _ Happ) as [_ H].
    exact (find_update_first _ (set_app_status "leader_approved") _ _ Happ H).
  - intros time_slot Hslot.
    destruct (update_first_some (consumed_by appointment) (set_booked false)
                (slots db) time_slot Hslot)
      as (before & after & H1 & H2 & Hbefore & Hthis).
    unfold consumed_by in Hthis. bool_hyps.
    split; [assumption|]. split; [assumption|]. split; [assumption|].
    exists before, after. split; [assumption|]. split; [|exact H2].
    eapply Forall_impl; [|exact Hbefore]. cbv beta. intros s Hs.
    unfold consumed_by in Hs.
    destruct (officer_id s =? appt_officer_id appointment) eqn:E1;
      [|left; now apply Z.eqb_neq].
    destruct (start_time s =? appointment_date appointment) eqn:E2;
      [|right; left; now apply Z.eqb_neq].
    right. right. exact Hs.
  - intros Hnone. now apply update_first_none.
Qed.

(** Resident 1 cancels the appointment made through the per-application
    page: the appointment is "cancelled", the application is back at
    "leader_approved", and slot 1 is free again. *)
Lemma cancel_interview_effects_witness :
  snd cancelled_run = Flash "success" "Interview cancelled successfully."
  /\ appointments (fst scheduled_run)
     = [mkAppointment 1 1 7 1 (combine 739923 (hm 9 0)) 30 "scheduled"]
  /\ first (fun p => appt_id p =? 1) (appointments (fst cancelled_run))
     = Some (mkAppointment 1 1 7 1 (combine 739923 (hm 9 0)) 30 "cancelled")
  /\ first (fun a => app_id a =? 1) (applications (fst scheduled_run))
     = Some (mkApplication 1 1 (Some 7) "interview_scheduled" None None 100)
  /\ first (fun a => app_id a =? 1) (applications (fst cancelled_run))
     = Some (mkApplication 1 1 (Some 7) "leader_approved" None None 100)
  /\ map is_booked (slots (fst scheduled_run)) = [true; false]
  /\ (exists before after,
        slots (fst scheduled_run)
        = before
          ++ mkSlot 1 7 None (combine 739923 (hm 9 0))
                    (combine 739923 (hm 9 30)) true (Some "Tshwane"%string)
                    (Some "Central"%string) (Some "0001"%string)
          :: after
        /\ slots (fst cancelled_run)
           = before
             ++ mkSlot 1 7 None (combine 739923 (hm 9 0))
                       (combine 739923 (hm 9 30)) false
                       (Some "Tshwane"%string) (Some "Central"%string)
                       (Some "0001"%string)
             :: after)
  /\ map is_booked (slots (fst cancelled_run)) = [false; false].
Proof.
  pose proof (cancel_interview_effects (fst scheduled_run) 1
                (mkUser 1 "Resident One" "one@home.example" "resident" true)
                (mkAppointment 1 1 7 1 (combine 739923 (hm 9 0)) 30 "scheduled")
                eq_refl eq_refl eq_refl eq_refl eq_refl)
    as (H1 & H2 & H3 & H4 & _).
  specialize (H3 (mkApplication 1 1 (Some 7) "interview_scheduled" None None
                                100) eq_refl).
  destruct (H4 (mkSlot 1 7 None (combine 739923 (hm 9 0))
                       (combine 739923 (hm 9 30)) true (Some "Tshwane"%string)
                       (Some "Central"%string) (Some "0001"%string)) eq_refl)
    as (_ & _ & _ & before & after & Hdb & _ & Hnew).
  split; [exact H1|]. split; [reflexivity|]. split; [exact H2|].
  split; [reflexivity|]. split; [exact H3|]. split; [reflexivity|].
  split; [|reflexivity].
  exists before, after. split; [exact Hdb|exact Hnew].
Defined.

(** ** C8: a change of name resets the verification *)

Lemma update_where_pointwise {A : Type} (p : A -> bool) (f : A -> A)
    (rows : list A) :
  Forall2 (fun a a' => a' = if p a then f a else a) rows (update_where p f rows).
Proof. induction rows; simpl; constructor; auto. Qed.

(** C8.  When a resident submits the personal-information form with first
    name, last name, phone number and e-mail address filled in, and the
    store takes the commit, the resident's isVerified flag is false
    afterwards, the new names are stored, and every application of the
    resident that was "pending" is "cancelled"; applications of other
    residents and applications in another status are as they were, and no
    pending application of the resident is left. *)
Theorem name_change_cancels_pending (db : DB) (uid : Z) (cu : User)
    (info : ResidentInfo) (form : ProfileForm)
    (first_name last_name phone_number email : string) :
  current_user db uid = Some cu ->
  userType cu = "resident"%string ->
  first (fun r => ri_user_id r =? user_id cu) (resident_infos db) = Some info ->
  form_type form = "personal_info"%string ->
  form_firstName form = Some first_name -> first_name <> ""%string ->
  form_lastName form = Some last_name -> last_name <> ""%string ->
  form_phoneNumber form = Some phone_number -> phone_number <> ""%string ->
  form_email form = Some email -> email <> ""%string ->
  email_free db uid email = true ->
  let r := resident_profile_settings db uid POST form true in
  (exists m, snd r = Flash "warning" m)
  /\ (exists cu',
        current_user (fst r) uid = Some cu'
        /\ isVerified cu' = false
        /\ fullName cu' = (first_name ++ " " ++ last_name)%string)
  /\ (exists info',
        first (fun r => ri_user_id r =? user_id cu) (resident_infos (fst r))
        = Some info'
        /\ firstName info' = first_name /\ lastName info' = last_name)
  /\ Forall2 (fun a a' =>
                if (applicant_id a =? uid) && (app_status a =? "pending")%string
                then app_status a' = "cancelled"%string
                     /\ app_id a' = app_id a
                     /\ applicant_id a' = applicant_id a
                else a' = a)
             (applications db) (applications (fst r))
  /\ (forall a', In a' (applications (fst r)) -> applicant_id a' = uid ->
                 app_status a' <> "pending"%string).
Proof.
  intros Hcu Htype Hinfo Hform Hf Hf' Hl Hl' Hp Hp' He He' Hfree r.
  assert (Huid : user_id cu = uid).
  { unfold current_user, first in Hcu. apply find_some in Hcu.
    now apply Z.eqb_eq. }
  assert (Hrun : r = (with_applications
                        (cancel_pending uid
                           "Application cancelled due to profile information change."
                           (applications db))
                        (with_users
                           (update_first (fun u => user_id u =? uid)
                              (set_identity first_name last_name email)
                              (users db))
                           (with_resident_infos
                              (update_first (fun r => ri_user_id r =? uid)
                                 (set_names first_name last_name phone_number)
                                 (resident_infos db)) db)),
                      Flash "warning" "Personal information updated successfully! Your address verification has been reset and will need to be verified again.")).
  { unfold r, resident_profile_settings.
    rewrite Hcu, Htype, Hinfo, Hform, Hf, Hl, Hp, He. unfold truthy.
    apply String.eqb_neq in Hf', Hl', Hp', He'.
    rewrite Hf', Hl', Hp', He', Huid.
    cbn [String.eqb Ascii.eqb Bool.eqb negb andb text].
    rewrite Hfree. reflexivity. }
  rewrite Hrun. cbn [fst snd]. clear Hrun r.
  cbn [users resident_infos applications with_applications with_users
       with_resident_infos].
  split; [eexists; reflexivity|]. split; [|split; [|split]].
  - eexists. split; [|split].
    + unfold current_user, first in *.
      apply find_update_first; [exact Hcu|]. cbn. rewrite Huid.
      apply Z.eqb_refl.
    + reflexivity.
    + reflexivity.
  - eexists. split; [|split].
    + unfold first in *. rewrite Huid in *.
      apply find_update_first; [exact Hinfo|]. cbn.
      apply find_some in Hinfo. apply Hinfo.
    + reflexivity.
    + reflexivity.
  - unfold cancel_pending.
    eapply Forall2_impl; [|apply update_where_pointwise]. cbv beta.
    intros a a' ->. destruct (_ && _); auto.
  - intros a' Ha' Hmine Hpending. unfold cancel_pending, update_where in Ha'.
    apply in_map_iff in Ha'. destruct Ha' as (a & Ha & _).
    destruct ((applicant_id a =? uid) && (app_status a =? "pending")%string)
      eqn:E; subst a'.
    + discriminate Hpending.
    + rewrite Hpending in E. apply Z.eqb_eq in Hmine. rewrite Hmine in E.
      discriminate E.
Qed.

Lemma name_change_cancels_pending_witness :
  map app_status (applications pending_db)
  = ["approved"%string; "pending"%string; "pending"%string; "pending"%string]
  /\ map app_status
         (applications (fst (resident_profile_settings pending_db 1 POST
                                                       rename_form true)))
     = ["approved"%string; "cancelled"%string; "pending"%string;
        "cancelled"%string]
  /\ exists cu',
       current_user (fst (resident_profile_settings pending_db 1 POST
                                                    rename_form true)) 1
       = Some cu'
       /\ isVerified cu' = false
       /\ fullName cu' = "Nomsa Dlamini"%string.
Proof.
  split; [reflexivity|]. split; [reflexivity|].
  apply (name_change_cancels_pending pending_db 1
           (mkUser 1 "Resident One" "one@home.example" "resident" true)
           (mkResidentInfo 1 1 "Resident" "One" "0110000001")
           rename_form "Nomsa" "Dlamini" "0110000001" "one@home.example");
    try reflexivity; discriminate.
Defined.

(** ** C2: the buffer after a booking *)

(** The buffer of [book_interview_slot].  On a slot table with distinct
    keys, a successful booking of [time_slot] sets the booked flag of
    [time_slot] and of every other unbooked slot of its officer that starts
    before the end of [time_slot] plus 15 minutes and ends after its start;
    every other row stays as it was. *)
Theorem book_interview_slot_buffer (db : DB) (uid : Z) (form : BookForm)
    (now : datetime) (uuid_int : Z) (accepts : bool) :
  NoDup (map slot_id (slots db)) ->
  snd (book_interview_slot db uid form now uuid_int accepts) = booked_flash ->
  exists time_slot,
    book_slot_id form = Some (slot_id time_slot)
    /\ In time_slot (slots db)
    /\ is_booked time_slot = false
    /\ slots (fst (book_interview_slot db uid form now uuid_int accepts))
       = map (fun s => if (slot_id s =? slot_id time_slot)
                          || buffered time_slot s
                       then set_booked true s else s)
             (slots db).
Proof.
  intros Hnd Hok.
  destruct (book_interview_slot_cases db uid form now uuid_int accepts)
    as [(_ & Hresp)|(cu & application & time_slot & _ & _ & Hform & _ & _ & _
                     & _ & Hslot & Hfree & _ & _ & Hrun)].
  { rewrite Hok in Hresp. destruct Hresp as [H|[m H]]; discriminate. }
  exists time_slot. split; [assumption|]. split.
  { unfold first in Hslot. now apply find_some in Hslot. }
  split; [assumption|].
  rewrite Hrun. cbn [fst]. unfold booking_session.
  cbn [slots with_slots with_applications with_appointments with_certificates].
  rewrite (update_first_unique slot_id (slot_id time_slot) (set_booked true))
    by (assumption || reflexivity).
  unfold update_where. rewrite map_map. apply map_ext. intros s.
  unfold in_buffer, buffered.
  destruct (slot_id s =? slot_id time_slot) eqn:E.
  - cbn [slot_id set_booked orb]. rewrite E. cbn [negb andb].
    rewrite andb_false_r. reflexivity.
  - cbn [orb negb]. rewrite E. cbn [negb]. rewrite andb_true_r. reflexivity.
Qed.

Lemma book_interview_slot_buffer_witness :
  map is_booked (slots two_slot_db) = [false; false]
  /\ map is_booked (slots (fst booked_run)) = [true; true]
  /\ exists time_slot,
       book_slot_id (mkBookForm (Some 1) (Some 1)) = Some (slot_id time_slot)
       /\ In time_slot (slots two_slot_db)
       /\ is_booked time_slot = false
       /\ slots (fst booked_run)
          = map (fun s => if (slot_id s =? slot_id time_slot)
                             || buffered time_slot s
                          then set_booked true s else s)
                (slots two_slot_db).
Proof.
  split; [reflexivity|]. split; [reflexivity|].
  apply (book_interview_slot_buffer two_slot_db 1 (mkBookForm (Some 1) (Some 1))
           tuesday_10 uuid_a true); [|reflexivity].
  repeat constructor; simpl; intuition discriminate.
Defined.

(** C2 at its failing input.  With the officer's slots 09:00-09:30 and
    09:30-10:00 both free, the second lies inside the buffer of the first.
    Booked through [book_interview_slot], slot 1 takes slot 2 with it;
    booked through the schedule page ([resident_schedule_interview]), the
    same booking succeeds and leaves slot 2 free. *)
Theorem schedule_page_booking_skips_buffer :
  map (fun s => (slot_id s, is_booked s)) (slots two_slot_db)
  = [(1, false); (2, false)]
  /\ match slots two_slot_db with
     | [s1; s2] => buffered s1 s2 = true
                   /\ start_time s2 < start_time s1 + minutes 45
                   /\ start_time s1 < end_time s2
     | _ => False
     end
  /\ snd booked_run = booked_flash
  /\ map (fun s => (slot_id s, is_booked s)) (slots (fst booked_run))
     = [(1, true); (2, true)]
  /\ snd schedule_page_run = booked_flash
  /\ map (fun s => (slot_id s, is_booked s)) (slots (fst schedule_page_run))
     = [(1, true); (2, false)]
  /\ map app_status (applications (fst schedule_page_run))
     = ["approved"%string; "leader_approved"%string].
Proof.
  vm_compute. repeat split.
Qed.

(** ** C3: the overlap invariant *)

(** C3 at its failing input.  From the town without slots, the officer adds
    two ad-hoc slots and resident 1 books the first: the slot table is free
    of overlaps.  Resident 2 then opens the schedule page of an approved
    application; no slot is free, so [schedule_interview] stores the demo
    slots for the first officer without looking at the slots the officer
    has, and the demo slot of Wednesday 09:00-09:30 lies on the booked slot
    of the same officer. *)
Theorem demo_slots_break_the_invariant :
  slots_disjoint (slots town_db)
  /\ slots_disjoint (slots two_slot_db)
  /\ slots_disjoint (slots (fst booked_run))
  /\ snd demo_run = Rendered
  /\ ~ slots_disjoint (slots (fst demo_run))
  /\ map (fun s => (officer_id s, interval s, is_booked s))
         (firstn 3 (slots (fst demo_run)))
     = [(7, on_date 739923 (hm 9 0, hm 9 30), true);
        (7, on_date 739923 (hm 9 30, hm 10 0), true);
        (7, on_date 739923 (hm 9 0, hm 9 30), false)].
Proof.
  repeat split; try (apply slots_disjointb_spec; vm_compute; reflexivity).
  intros H. apply slots_disjointb_spec in H. vm_compute in H. discriminate.
Qed.

(** The routes that check: the weekly generation and the ad-hoc insertion
    keep a slot table that is free of overlaps free of overlaps, whatever
    is submitted and whether or not the commit is taken. *)
Theorem checked_routes_keep_slots_disjoint (db : DB) (uid : Z)
    (weekly : WeeklyForm) (adhoc : SlotForm) (now : datetime)
    (clock : nat -> datetime) (accepts : bool) :
  slots_disjoint (slots db) ->
  slots_disjoint
    (slots (fst (police_add_weekly_availability db uid weekly now clock
                                                accepts)))
  /\ slots_disjoint
       (slots (fst (police_add_availability db uid adhoc now accepts))).
Proof.
  intros Hdb. split.
  - now apply weekly_availability_disjoint.
  - now apply add_availability_disjoint.
Qed.

Lemma checked_routes_keep_slots_disjoint_witness :
  slots_disjoint (slots (fst tuesday_run))
  /\ slots_disjoint
       (slots (fst (police_add_availability officer_db 7
                      (mkSlotForm (Parsed 739923) (Parsed (hm 9 0))
                                  (Parsed (hm 9 30)))
                      tuesday_10 true))).
Proof.
  apply (checked_routes_keep_slots_disjoint officer_db 7 monday_form
           (mkSlotForm (Parsed 739923) (Parsed (hm 9 0)) (Parsed (hm 9 30)))
           tuesday_10 (fun _ => tuesday_10) true).
  constructor.
Defined.

(** ** The generator in general *)



(** * More of the routes *)

(** ** Rows removed and rows rewritten *)

Lemma delete_first_some {A : Type} (p : A -> bool) (rows : list A) (r : A) :
  find p rows = Some r ->
  exists before after,
    rows = before ++ r :: after
    /\ delete_first p rows = before ++ after
    /\ Forall (fun x => p x = false) before
    /\ p r = true.
Proof.
  induction rows as [|x rows IH]; simpl; [discriminate|].
  destruct (p x) eqn:Hp.
  - intros [= ->]. exists [], rows. repeat split; auto.
  - intros H. destruct (IH H) as (before & after & -> & -> & Hb & Hr).
    exists (x :: before), after. repeat split; auto.
Qed.

Lemma update_first_pointwise {A : Type} (p : A -> bool) (f : A -> A)
    (rows : list A) :
  Forall2 (fun a a' => a' = a \/ a' = f a) rows (update_first p f rows).
Proof.
  induction rows as [|r rows IH]; simpl; [constructor|].
  destruct (p r).
  - constructor; [now right|]. clear IH.
    induction rows; constructor; auto.
  - constructor; [now left|assumption].
Qed.

Lemma ForallOrdPairs_snoc {A : Type} (R : A -> A -> Prop) (rows : list A)
    (x : A) :
  ForallOrdPairs R rows -> Forall (fun a => R a x) rows ->
  ForallOrdPairs R (rows ++ [x]).
Proof.
  induction 1 as [|a rows Ha Hr IH]; intros Hn; simpl.
  - repeat constructor.
  - inversion Hn; subst. constructor; [|auto].
    apply Forall_app. split; [assumption|]. now constructor.
Qed.

Lemma ForallOrdPairs_filter {A : Type} (R : A -> A -> Prop) (p : A -> bool)
    (rows : list A) :
  ForallOrdPairs R rows -> ForallOrdPairs R (filter p rows).
Proof.
  induction 1 as [|a rows Ha Hr IH]; simpl; [constructor|].
  destruct (p a); [|assumption]. constructor; [|assumption].
  apply Forall_forall. intros b Hb. apply filter_In in Hb.
  rewrite Forall_forall in Ha. now apply Ha.
Qed.

Lemma ForallOrdPairs_remove {A : Type} (R : A -> A -> Prop)
    (before after : list A) (x : A) :
  ForallOrdPairs R (before ++ x :: after) -> ForallOrdPairs R (before ++ after).
Proof.
  induction before as [|b before IH]; simpl; intros H;
    inversion H as [|? ? Hb Hr]; subst; [assumption|].
  constructor; [|now apply IH].
  apply Forall_app in Hb. destruct Hb as [Hb1 Hb2]. inversion Hb2; subst.
  apply Forall_app. now split.
Qed.

(** A relation on pairs of rows survives a rewriting of the rows that it
    survives pair by pair. *)
Lemma ForallOrdPairs_rewrite {A : Type} (R : A -> A -> Prop)
    (S : A -> A -> Prop) (rows rows' : list A) :
  (forall a b a' b', R a b -> S a a' -> S b b' -> R a' b') ->
  Forall2 S rows rows' -> ForallOrdPairs R rows -> ForallOrdPairs R rows'.
Proof.
  intros HRS H2. induction H2 as [|a a' rows rows' Ha H2 IH]; intros H;
    [constructor|].
  inversion H as [|? ? Hfa Hr]; subst. constructor; [|now apply IH].
  clear IH H Hr. induction H2 as [|b b' rows rows' Hb H2 IH];
    [constructor|].
  inversion Hfa; subst. constructor; eauto.
Qed.

(** ** The rows the generation adds *)

Section GeneratedRows.

Variables (police_info : PoliceInfo) (uid sid : Z).

Lemma walk_day_rows (break_times : list (time * time)) (day_end : datetime)
    (fuel : nat) : forall cur s,
  exists new,
    walk_day fuel police_info uid sid break_times day_end cur s
    = with_slots (slots s ++ new) s
    /\ Forall (fun r => exists c, generated_row police_info uid sid c r
                                  /\ cur <= c
                                  /\ c + interview_duration <= day_end) new.
Proof.
  pose proof interview_duration_pos as Hd. pose proof gap_duration_pos as Hg.
  induction fuel as [|fuel IH]; intros cur s; cbn [walk_day].
  - exists []. now rewrite app_nil_r, with_slots_same.
  - destruct (cur + interview_duration <=? day_end) eqn:Hle.
    2:{ exists []. now rewrite app_nil_r, with_slots_same. }
    apply Z.leb_le in Hle.
    destruct (is_break_time break_times cur (cur + interview_duration)).
    + destruct (IH (cur + interview_duration) s) as (new & -> & Hn).
      exists new. split; [reflexivity|].
      eapply Forall_impl; [|exact Hn]. cbv beta.
      intros r (c & Hr & Hc & He). exists c. repeat split; auto; lia.
    + destruct (overlapping_slots uid cur (cur + interview_duration) (slots s)).
      * match goal with |- context [walk_day _ _ _ _ _ _ ?c ?s'] =>
          destruct (IH c s') as (new & -> & Hn) end.
        eexists (_ :: new). split.
        -- unfold add_slot. cbn [slots with_slots].
           rewrite <- app_assoc. reflexivity.
        -- constructor.
           ++ exists cur. repeat split; try lia. now exists s.
           ++ eapply Forall_impl; [|exact Hn]. cbv beta.
              intros r (c & Hr & Hc & He). exists c. repeat split; auto; lia.
      * destruct (IH (cur + interview_duration + gap_duration) s)
          as (new & -> & Hn).
        exists new. split; [reflexivity|].
        eapply Forall_impl; [|exact Hn]. cbv beta.
        intros r (c & Hr & Hc & He). exists c. repeat split; auto; lia.
Qed.

Variables (start_t end_t : time) (next_date : date).
Variable clock : nat -> datetime.

Lemma generate_weeks_rows (n : nat) : forall (k : nat) (s : DB),
  exists new,
    fold_left (generate_week police_info uid sid start_t end_t next_date clock)
              (seq k n) s
    = with_slots (slots s ++ new) s
    /\ Forall (fun r =>
                 exists (week : nat) (c : datetime),
                   (k <= week < k + n)%nat
                   /\ generated_row police_info uid sid c r
                   /\ combine (next_date + Z.of_nat week * 7) start_t <= c
                   /\ c + interview_duration
                      <= combine (next_date + Z.of_nat week * 7) end_t) new.
Proof.
  induction n as [|n IH]; intros k s; cbn [seq fold_left].
  - exists []. now rewrite app_nil_r, with_slots_same.
  - assert (H1 : exists new1,
               generate_week police_info uid sid start_t end_t next_date clock
                             s k
               = with_slots (slots s ++ new1) s
               /\ Forall (fun r =>
                            exists c, generated_row police_info uid sid c r
                              /\ combine (next_date + Z.of_nat k * 7) start_t
                                 <= c
                              /\ c + interview_duration
                                 <= combine (next_date + Z.of_nat k * 7) end_t)
                         new1).
    { unfold generate_week. destruct (_ <? clock k).
      - exists []. now rewrite app_nil_r, with_slots_same.
      - apply walk_day_rows. }
    destruct H1 as (new1 & -> & Hn1).
    destruct (IH (S k) (with_slots (slots s ++ new1) s)) as (new2 & -> & Hn2).
    exists (new1 ++ new2). split.
    + cbn [slots with_slots]. now rewrite app_assoc.
    + apply Forall_app. split.
      * eapply Forall_impl; [|exact Hn1]. cbv beta.
        intros r (c & Hr & Hs & He). exists k, c. repeat split; auto; lia.
      * eapply Forall_impl; [|exact Hn2]. cbv beta.
        intros r (week & c & Hw & Hr & Hs & He).
        exists week, c. repeat split; auto; lia.
Qed.

End GeneratedRows.

(** The ways the weekly route can end: the store as it was, or every check
    passed, the schedule and its breaks stored, and slots appended. *)
Ltac unchanged := left; split; [reflexivity|discriminate].

Lemma weekly_availability_cases (db : DB) (uid : Z) (form : WeeklyForm)
    (now : datetime) (clock : nat -> datetime) (accepts : bool) :
  (fst (police_add_weekly_availability db uid form now clock accepts) = db
   /\ forall m, snd (police_add_weekly_availability db uid form now clock
                                                    accepts)
                <> Flash "success" m)
  \/ exists cu police_info dow start_t end_t breaks new,
       current_user db uid = Some cu
       /\ userType cu = "police"%string
       /\ police_info_of db uid = Some police_info
       /\ isApproved police_info = true
       /\ form_day_of_week form = Parsed dow
       /\ form_start_time form = Parsed start_t
       /\ form_end_time form = Parsed end_t
       /\ start_t < end_t
       /\ find (fun w => (ws_officer_id w =? uid) && (day_of_week w =? dow)
                         && is_active w) (weekly_schedules db) = None
       /\ accepts = true
       /\ (let sid := next_id (map ws_id (weekly_schedules db)) in
           let next_date := date_of now + days_ahead_of dow end_t now in
           fst (police_add_weekly_availability db uid form now clock accepts)
           = with_slots (slots db ++ new)
               (with_scheduled_breaks (scheduled_breaks db ++ breaks)
                  (with_weekly_schedules
                     (weekly_schedules db ++
                      [mkWeeklySchedule sid uid dow start_t end_t true]) db))
           /\ Forall (fun b => schedule_id b = sid) breaks
           /\ Forall (fun r =>
                        exists (week : nat) (c : datetime),
                          (week < 4)%nat
                          /\ generated_row police_info uid sid c r
                          /\ combine (next_date + Z.of_nat week * 7) start_t
                             <= c
                          /\ c + interview_duration
                             <= combine (next_date + Z.of_nat week * 7) end_t)
                     new
           /\ snd (police_add_weekly_availability db uid form now clock accepts)
              = if (-7 <=? dow) && (dow <=? 6)
                then Flash "success" "Added weekly schedule for {day} and generated {slots_added} interview slots."
                else Flash "danger" "An error occurred while saving your weekly schedule. Please try again.").
Proof.
  unfold police_add_weekly_availability.
  destruct (current_user db uid) as [cu|] eqn:Hcu; [|unchanged].
  destruct (userType cu =? "police")%string eqn:Htype; cbn [negb];
    [|unchanged].
  destruct (police_info_of db uid) as [police_info|] eqn:Hpi; [|unchanged].
  destruct (isApproved police_info) eqn:Happr; cbn [negb]; [|unchanged].
  destruct (form_day_of_week form) as [| |dow] eqn:Hd;
    destruct (form_start_time form) as [| |start_t] eqn:Hs;
    destruct (form_end_time form) as [| |end_t] eqn:He; try unchanged.
  destruct (start_t >=? end_t) eqn:Hlt; [unchanged|].
  destruct (negb (fits_int64 dow)); [unchanged|].
  destruct (first _ (weekly_schedules db)) eqn:Hdup; [unchanged|].
  destruct (add_breaks _ _ _ _ _) as [sb|] eqn:Hb; [|unchanged].
  destruct accepts; [|unchanged]. cbn [commit].
  apply add_breaks_adds in Hb. destruct Hb as (breaks & -> & Hbreaks).
  match goal with |- context [fold_left (generate_week ?p ?u ?i ?st ?en ?nd ?c)
                                        (seq 0 4) ?s] =>
    destruct (generate_weeks_rows p u i st en nd c 4 0%nat s)
      as (new & Hfold & Hn) end.
  right. exists cu, police_info, dow, start_t, end_t, breaks, new.
  bool_hyps. repeat split; auto.
  - destruct (_ && _); cbn [fst]; rewrite Hfold; reflexivity.
  - eapply Forall_impl; [|exact Hn]. cbv beta.
    intros r (week & c & Hw & H). exists week, c. split; [lia|exact H].
  - destruct (_ && _); reflexivity.
Qed.

(** A day number the weekly route answers with success is one the store's
    INTEGER holds. *)
Lemma weekly_success_fits (db : DB) (uid : Z) (form : WeeklyForm)
    (now : datetime) (clock : nat -> datetime) (accepts : bool) (m : string)
    (dow : Z) :
  snd (police_add_weekly_availability db uid form now clock accepts)
  = Flash "success" m ->
  form_day_of_week form = Parsed dow ->
  fits_int64 dow = true.
Proof.
  unfold police_add_weekly_availability. intros Hok Hd. rewrite Hd in Hok.
  destruct (current_user db uid); [|discriminate].
  destruct (negb _); [discriminate|].
  destruct (police_info_of db uid); [|discriminate].
  destruct (negb _); [discriminate|].
  destruct (form_start_time form); destruct (form_end_time form);
    try discriminate.
  destruct (_ >=? _); [discriminate|].
  destruct (fits_int64 dow); [reflexivity|discriminate].
Qed.

(** ** The breaks of a submission *)

(** Reading past the end of [break_ends] for a break start that is filled
    in fails the loop, wherever it happens. *)
Lemma add_breaks_index_error (sid : Z) (break_ends : list (Field time)) :
  forall (rest : list (Field time)) (k : nat) (s : DB),
  (exists j b, nth_error rest j = Some b /\ b <> Absent
               /\ (length break_ends <= k + j)%nat) ->
  add_breaks sid rest break_ends k s = None.
Proof.
  induction rest as [|bs rest IH]; intros k s (j & b & Hj & Hb & Hlen).
  - destruct j; discriminate.
  - cbn [add_breaks]. destruct j as [|j].
    + injection Hj as ->.
      assert (Hnone : nth_error break_ends k = None)
        by (apply nth_error_None; lia).
      rewrite Hnone. destruct b; [contradiction|reflexivity|reflexivity].
    + assert (Hrec : forall s', add_breaks sid rest break_ends (S k) s' = None).
      { intros s'. apply IH. exists j, b. repeat split; auto. lia. }
      destruct bs; [apply Hrec| |];
        (destruct (nth_error break_ends k) as [[| |e]|];
         [apply Hrec|apply Hrec|apply Hrec|reflexivity]).
Qed.

(** With an end for every start the loop runs through. *)
Lemma add_breaks_succeeds (sid : Z) (break_ends : list (Field time)) :
  forall (rest : list (Field time)) (k : nat) (s : DB),
  (k + length rest <= length break_ends)%nat ->
  exists s', add_breaks sid rest break_ends k s = Some s'.
Proof.
  induction rest as [|bs rest IH]; intros k s Hlen; cbn [add_breaks].
  - eauto.
  - cbn [length] in Hlen.
    assert (Hrec : forall s', exists s'',
               add_breaks sid rest break_ends (S k) s' = Some s'')
      by (intros s'; apply IH; lia).
    destruct (nth_error break_ends k) as [be|] eqn:Hk.
    2:{ apply nth_error_None in Hk. lia. }
    destruct bs; [apply Hrec| |]; destruct be; apply Hrec.
Qed.

(** ** The schedule table *)

Lemma map_update_first {A B : Type} (key : A -> B) (p : A -> bool)
    (f : A -> A) (rows : list A) :
  (forall r, key (f r) = key r) ->
  map key (update_first p f rows) = map key rows.
Proof.
  intros Hkey. induction rows as [|r rows IH]; simpl; [reflexivity|].
  destruct (p r); simpl; [now rewrite Hkey|now rewrite IH].
Qed.

(** Marking rows inactive keeps the table at one active schedule per officer
    and day. *)
Lemma deactivation_keeps_one_active (rows rows' : list WeeklySchedule) :
  Forall2 (fun a a' => a' = a \/ a' = set_active false a) rows rows' ->
  one_active_per_day rows -> one_active_per_day rows'.
Proof.
  intros H2. unfold one_active_per_day.
  apply (ForallOrdPairs_rewrite _ _ _ _) with (2 := H2).
  intros a b a' b' Hab [->| ->] [->| ->] (Ho & Hd & Ha & Hb);
    try discriminate. apply Hab. repeat split; assumption.
Qed.

Lemma deactivation_keeps_weekdays (rows rows' : list WeeklySchedule) :
  Forall2 (fun a a' => a' = a \/ a' = set_active false a) rows rows' ->
  day_numbers_in_week rows -> one_active_per_weekday rows ->
  day_numbers_in_week rows' /\ one_active_per_weekday rows'.
Proof.
  intros H2 Hrange Hinv. split.
  - unfold day_numbers_in_week in *. clear Hinv.
    induction H2 as [|a a' rows rows' Ha H2 IH]; [constructor|].
    inversion Hrange; subst. constructor; [|now apply IH].
    destruct Ha as [->| ->]; assumption.
  - revert Hinv. unfold one_active_per_weekday.
    apply (ForallOrdPairs_rewrite _ _ _ _) with (2 := H2).
    intros a b a' b' Hab [->| ->] [->| ->] (Ho & Hd & Ha & Hb);
      try discriminate. apply Hab. repeat split; assumption.
Qed.

(** The ways the route that removes a schedule can end. *)
Lemma delete_weekly_schedule_cases (db : DB) (uid : Z) (schedule_id : Z)
    (now : datetime) (accepts : bool) :
  (fst (police_delete_weekly_schedule db uid schedule_id now accepts) = db
   /\ forall m, snd (police_delete_weekly_schedule db uid schedule_id now
                                                   accepts)
                <> Flash "success" m)
  \/ exists cu police_info schedule,
       current_user db uid = Some cu
       /\ userType cu = "police"%string
       /\ police_info_of db uid = Some police_info
       /\ isApproved police_info = true
       /\ find (fun w => (ws_id w =? schedule_id) && (ws_officer_id w =? uid))
               (weekly_schedules db) = Some schedule
       /\ accepts = true
       /\ fst (police_delete_weekly_schedule db uid schedule_id now accepts)
          = with_slots
              (filter (fun s => negb (generated_by (ws_id schedule) s
                                      && negb (is_booked s)
                                      && (start_time s >? now)))
                      (slots db))
              (with_weekly_schedules
                 (update_first (fun w => (ws_id w =? schedule_id)
                                         && (ws_officer_id w =? uid))
                               (set_active false) (weekly_schedules db)) db).
Proof.
  unfold police_delete_weekly_schedule.
  destruct (current_user db uid) as [cu|] eqn:Hcu; [|unchanged].
  destruct (userType cu =? "police")%string eqn:Htype; cbn [negb];
    [|unchanged].
  destruct (police_info_of db uid) as [police_info|] eqn:Hpi; [|unchanged].
  destruct (isApproved police_info) eqn:Happr; cbn [negb]; [|unchanged].
  destruct (first _ (weekly_schedules db)) as [schedule|] eqn:Hfind;
    [|unchanged].
  destruct accepts; cbn [commit]; [|unchanged].
  right. exists cu, police_info, schedule. bool_hyps.
  repeat split; auto. destruct (_ && _); reflexivity.
Qed.

(** ** Writers that keep the slot table free of overlaps *)

Lemma slots_disjoint_same_interval (rows rows' : list AvailableTimeSlot) :
  Forall2 same_interval rows rows' ->
  slots_disjoint rows -> slots_disjoint rows'.
Proof.
  intros H2. unfold slots_disjoint.
  apply (ForallOrdPairs_rewrite _ _ _ _) with (2 := H2).
  intros a b a' b' Hab (Ho & Hs & He) (Ho' & Hs' & He') (H1 & H3 & H4).
  apply Hab. unfold overlap. rewrite <- Ho, <- Ho', <- Hs, <- Hs', <- He, <- He'.
  auto.
Qed.

Lemma slots_disjoint_update_first (p : AvailableTimeSlot -> bool) (b : bool)
    (rows : list AvailableTimeSlot) :
  slots_disjoint rows -> slots_disjoint (update_first p (set_booked b) rows).
Proof.
  apply slots_disjoint_same_interval.
  eapply Forall2_impl; [|apply update_first_pointwise]. cbv beta.
  intros a a' [->| ->]; repeat split.
Qed.

Lemma slots_disjoint_update_where (p : AvailableTimeSlot -> bool) (b : bool)
    (rows : list AvailableTimeSlot) :
  slots_disjoint rows -> slots_disjoint (update_where p (set_booked b) rows).
Proof.
  apply slots_disjoint_same_interval.
  eapply Forall2_impl; [|apply update_where_pointwise]. cbv beta.
  intros a a' ->. destruct (p a); repeat split.
Qed.

Lemma slots_disjoint_filter (p : AvailableTimeSlot -> bool)
    (rows : list AvailableTimeSlot) :
  slots_disjoint rows -> slots_disjoint (filter p rows).
Proof. apply ForallOrdPairs_filter. Qed.

Lemma slots_disjoint_delete_first (p : AvailableTimeSlot -> bool)
    (rows : list AvailableTimeSlot) :
  slots_disjoint rows -> slots_disjoint (delete_first p rows).
Proof.
  intros H. destruct (find p rows) as [r|] eqn:Hfind.
  - destruct (delete_first_some _ _ _ Hfind) as (before & after & Hr & -> & _).
    rewrite Hr in H. exact (ForallOrdPairs_remove _ _ _ _ H).
  - replace (delete_first p rows) with rows; [assumption|].
    pose proof (List.find_none _ _ Hfind) as Hn. clear Hfind H.
    induction rows as [|x rows IH]; simpl; [reflexivity|].
    rewrite (Hn x) by now left. f_equal. apply IH.
    intros y Hy. apply Hn. now right.
Qed.

(** Walks a route to its exits; at each exit the slot table is the stored
    one, or the stored one with rows removed and booked flags set. *)
Ltac route_exits :=
  cbv zeta;
  repeat match goal with
         | |- context [commit ?a ?s] => destruct a; cbn [commit andb]
         | |- context [match ?x with _ => _ end] => destruct x
         end.

Ltac slots_kept :=
  cbn [fst slots with_users with_resident_infos with_applications
       with_appointments with_weekly_schedules with_scheduled_breaks
       with_slots with_certificates with_police_infos];
  repeat first [ assumption
               | apply slots_disjoint_update_first
               | apply slots_disjoint_update_where
               | apply slots_disjoint_filter
               | apply slots_disjoint_delete_first ].

(** The weekly route asks to delete the existing schedule only when it
    finds an active schedule of the officer for the submitted day. *)
Lemma weekly_route_not_duplicate (db : DB) (uid : Z) (form : WeeklyForm)
    (now : datetime) (clock : nat -> datetime) (accepts : bool) :
  (forall dow, form_day_of_week form = Parsed dow ->
               find (fun w => (ws_officer_id w =? uid)
                              && (day_of_week w =? dow) && is_active w)
                    (weekly_schedules db) = None) ->
  snd (police_add_weekly_availability db uid form now clock accepts)
  <> duplicate_schedule_flash.
Proof.
  intros Hnone. unfold police_add_weekly_availability.
  destruct (current_user db uid); [|discriminate].
  destruct (negb _); [discriminate|].
  destruct (police_info_of db uid); [|discriminate].
  destruct (negb _); [discriminate|].
  destruct (form_day_of_week form) as [| |dow];
    destruct (form_start_time form); destruct (form_end_time form);
    try discriminate.
  destruct (_ >=? _); [discriminate|].
  destruct (negb (fits_int64 _)); [discriminate|].
  unfold first. rewrite (Hnone dow eq_refl).
  destruct (add_breaks _ _ _ _ _); [|discriminate].
  destruct (commit _ _); [|discriminate].
  destruct ((-7 <=? _) && _); discriminate.
Qed.

(** ** The availability listings *)

Lemma In_insert_by_start (s x : AvailableTimeSlot)
    (rows : list AvailableTimeSlot) :
  In x (insert_by_start s rows) <-> x = s \/ In x rows.
Proof.
  induction rows as [|y rows IH]; simpl.
  - intuition.
  - destruct (start_time s <=? start_time y); simpl; [intuition|].
    rewrite IH. intuition.
Qed.

Lemma In_order_by_start_time (x : AvailableTimeSlot)
    (rows : list AvailableTimeSlot) :
  In x (order_by_start_time rows) <-> In x rows.
Proof.
  unfold order_by_start_time. induction rows as [|y rows IH]; simpl.
  - reflexivity.
  - rewrite In_insert_by_start, IH. intuition.
Qed.




(** The row a key finds is the row that carries the key, when keys are
    unique. *)
Lemma find_by_key {A : Type} (key : A -> Z) (rows : list A) (r : A) :
  NoDup (map key rows) -> In r rows ->
  find (fun x => key x =? key r) rows = Some r.
Proof.
  induction rows as [|x rows IH]; simpl; [contradiction|].
  intros Hnd [->|Hin].
  - now rewrite Z.eqb_refl.
  - inversion Hnd as [|? ? Hx Hrest]; subst.
    destruct (key x =? key r) eqn:E; [|now apply IH].
    apply Z.eqb_eq in E. exfalso. apply Hx. rewrite E. now apply in_map.
Qed.

Lemma map_update_where {A B : Type} (key : A -> B) (p : A -> bool)
    (f : A -> A) (rows : list A) :
  (forall r, key (f r) = key r) ->
  map key (update_where p f rows) = map key rows.
Proof.
  intros Hkey. unfold update_where. rewrite map_map. apply map_ext.
  intros r. destruct (p r); [apply Hkey|reflexivity].
Qed.

(** What an entry of the officer's listing stands for. *)
Lemma api_officer_listed (db : DB) (uid officer : Z) (now : datetime)
    (body : list (Z * datetime * datetime)) (k : Z) (s e : datetime) :
  api_officer_availability db uid officer now = ApiOk body ->
  In (k, s, e) body ->
  (exists u, first (fun u => (user_id u =? officer)
                             && (userType u =? "police")%string) (users db)
             = Some u)
  /\ (exists p, police_info_of db officer = Some p /\ isApproved p = true)
  /\ exists row, In row (slots db) /\ slot_id row = k /\ start_time row = s
                 /\ end_time row = e /\ officer_id row = officer
                 /\ is_booked row = false /\ now < s.
Proof.
  unfold api_officer_availability, police_info_of.
  destruct (current_user db uid); [|discriminate].
  destruct (first _ (users db)) as [officer_row|];
    [|intros [= <-]; contradiction].
  destruct (first _ (police_infos db)) as [p|];
    [|intros [= <-]; contradiction].
  destruct (isApproved p) eqn:Happr; cbn [negb];
    [|intros [= <-]; contradiction].
  intros [= <-] Hin. apply in_map_iff in Hin.
  destruct Hin as (row & [= <- <- <-] & Hrow).
  apply In_order_by_start_time, filter_In in Hrow.
  destruct Hrow as [Hrow Hp]. bool_hyps.
  split; [now exists officer_row|]. split; [now exists p|].
  exists row. repeat split; auto; try lia.
Qed.

(** ** The interview flow *)

Lemma latest_created_In (rows : list AddressApplication)
    (a : AddressApplication) :
  latest_created rows = Some a -> In a rows.
Proof.
  revert a. induction rows as [|x rows IH]; simpl; [discriminate|].
  intros a. destruct (latest_created rows) as [b|].
  - destruct (_ >=? _); intros [= <-]; [now left|right; now apply IH].
  - intros [= <-]. now left.
Qed.

Lemma latest_created_none (rows : list AddressApplication) :
  latest_created rows = None -> rows = [].
Proof.
  destruct rows as [|x rows]; simpl; [reflexivity|].
  destruct (latest_created rows); [destruct (_ >=? _)|]; discriminate.
Qed.

Lemma find_In_some {A : Type} (p : A -> bool) (rows : list A) (x : A) :
  In x rows -> p x = true -> exists y, find p rows = Some y.
Proof.
  intros Hin Hp. destruct (find p rows) as [y|] eqn:E; [now exists y|].
  pose proof (List.find_none _ _ E x Hin). congruence.
Qed.

Lemma update_first_at {A : Type} (p : A -> bool) (f : A -> A)
    (before after : list A) (x : A) :
  Forall (fun y => p y = false) before -> p x = true ->
  update_first p f (before ++ x :: after) = before ++ f x :: after.
Proof.
  induction 1 as [|y before Hy Hb IH]; intros Hx; simpl.
  - now rewrite Hx.
  - rewrite Hy. f_equal. now apply IH.
Qed.

(** Booking a free slot and freeing the booked slot of that officer and
    start gives the table back, when no two slots of an officer overlap. *)
Lemma unbook_rebook (rows : list AvailableTimeSlot) (k : Z)
    (slot : AvailableTimeSlot) :
  slots_disjoint rows ->
  Forall (fun s => start_time s < end_time s) rows ->
  find (fun s => slot_id s =? k) rows = Some slot ->
  is_booked slot = false ->
  update_first (fun s => (officer_id s =? officer_id slot)
                         && (start_time s =? start_time slot) && is_booked s)
               (set_booked false)
               (update_first (fun s => slot_id s =? k) (set_booked true) rows)
  = rows.
Proof.
  intros Hdisj Hpos Hfind Hfree.
  destruct (update_first_some _ (set_booked true) _ _ Hfind)
    as (before & after & Hrows & -> & _ & _).
  rewrite update_first_at.
  - rewrite Hrows. destruct slot. cbn in Hfree. subst. reflexivity.
  - rewrite Hrows in Hdisj, Hpos. clear Hrows Hfind.
    unfold slots_disjoint in Hdisj.
    induction before as [|b before IH]; [constructor|].
    cbn [app] in Hdisj, Hpos.
    inversion Hdisj as [|? ? Hb Hrest]; subst.
    inversion Hpos as [|? ? Hpb Hprest]; subst.
    constructor; [|now apply IH].
    destruct (officer_id b =? officer_id slot) eqn:E1; [|reflexivity].
    destruct (start_time b =? start_time slot) eqn:E2; [|reflexivity].
    exfalso. apply Z.eqb_eq in E1, E2.
    rewrite Forall_forall in Hb, Hprest.
    assert (Hin : In slot (before ++ slot :: after))
      by (apply in_or_app; right; now left).
    apply (Hb slot Hin). pose proof (Hprest slot Hin).
    unfold overlap. repeat split; [assumption|lia|lia].
  - cbn [officer_id start_time is_booked set_booked].
    now rewrite !Z.eqb_refl.
Qed.

(** ** The demo slots *)

Lemma add_mock_slots_rows (officer : Z) (times : list datetime) :
  forall session,
  exists new,
    add_mock_slots officer times session
    = with_slots (slots session ++ new) session
    /\ Forall2 (demo_slot officer) times new.
Proof.
  unfold add_mock_slots.
  induction times as [|t times IH]; intros session; cbn [fold_left].
  - exists []. split; [|constructor].
    now rewrite app_nil_r, with_slots_same.
  - match goal with |- context [fold_left _ _ ?s] =>
      destruct (IH s) as (new & -> & Hnew) end.
    eexists (_ :: new). split.
    + unfold add_slot. cbn [slots with_slots].
      rewrite <- app_assoc. reflexivity.
    + constructor; [reflexivity|exact Hnew].
Qed.

Lemma mock_slot_times_ahead (now t : datetime) :
  In t (mock_slot_times now) -> now < t /\ t < now + days 8.
Proof.
  unfold mock_slot_times. cbv zeta. intros Hin.
  apply in_flat_map in Hin. destruct Hin as (day & Hday & Hin).
  apply in_map_iff in Hin. destruct Hin as (hour & <- & Hhour).
  assert (Hd : 0 <= day <= 6) by (cbn in Hday; lia).
  assert (Hh : 9 <= hour <= 15) by (cbn in Hhour; lia).
  clear Hday Hhour. unfold combine, date_of, days, hours.
  pose proof us_per_day_pos as Hpos.
  pose proof (Z.mod_pos_bound (now + 1 * us_per_day + day * us_per_day)
                              us_per_day Hpos) as Hmod.
  pose proof (Z.div_mod (now + 1 * us_per_day + day * us_per_day)
                        us_per_day ltac:(lia)) as Hdm.
  set (q := (now + 1 * us_per_day + day * us_per_day) / us_per_day) in *.
  set (m := (now + 1 * us_per_day + day * us_per_day) mod us_per_day) in *.
  assert (Hhour : 9 * us_per_hour <= hour * us_per_hour <= 15 * us_per_hour)
    by (unfold us_per_hour; lia).
  assert (H24 : 24 * us_per_hour = us_per_day) by reflexivity.
  assert (Hday : 0 <= day * us_per_day <= 6 * us_per_day)
    by (unfold us_per_day; lia).
  lia.
Qed.

Lemma find_app_some {A : Type} (p : A -> bool) (rows rows' : list A) (x : A) :
  find p rows = Some x -> find p (rows ++ rows') = Some x.
Proof.
  induction rows as [|y rows IH]; simpl; [discriminate|].
  destruct (p y); auto.
Qed.

Lemma delete_first_snoc_fresh {A : Type} (p : A -> bool) (rows : list A)
    (x : A) :
  (forall r, In r rows -> p r = false) -> p x = true ->
  delete_first p (rows ++ [x]) = rows.
Proof.
  intros Hrows Hx. induction rows as [|r rows IH]; simpl.
  - now rewrite Hx.
  - rewrite (Hrows r) by now left. f_equal. apply IH.
    intros y Hy. apply Hrows. now right.
Qed.

Lemma filter_all {A : Type} (p : A -> bool) (rows : list A) :
  (forall r, In r rows -> p r = true) -> filter p rows = rows.
Proof.
  induction rows as [|r rows IH]; simpl; intros H; [reflexivity|].
  rewrite (H r) by now left. f_equal. apply IH. intros y Hy. apply H.
  now right.
Qed.

(** * Properties of the other routes *)

(** ** The availability store *)

(** [police_delete_availability] removes at most one row of the slot table:
    the row with the requested key, and only when it belongs to the
    requesting officer and is not booked.  In every other case, a refused
    commit included, the store is as it was. *)
Theorem delete_availability_removes_one_free_slot (db : DB) (uid : Z)
    (slot_id : Z) (accepts : bool) :
  let r := police_delete_availability db uid slot_id accepts in
  fst r = db
  \/ (snd r = Flash "success" "Time slot deleted successfully."
      /\ exists before time_slot after,
           slots db = before ++ time_slot :: after
           /\ fst r = with_slots (before ++ after) db
           /\ Models.slot_id time_slot = slot_id
           /\ officer_id time_slot = uid
           /\ is_booked time_slot = false).
Proof.
  cbv zeta. unfold police_delete_availability.
  destruct (current_user db uid) as [cu|]; [|now left].
  destruct (negb _); [now left|].
  destruct (police_info_of db uid) as [police_info|]; [|now left].
  destruct (negb _); [now left|].
  destruct (first _ (slots db)) as [time_slot|] eqn:Hslot; [|now left].
  destruct (officer_id time_slot =? uid) eqn:Hown; cbn [negb]; [|now left].
  destruct (is_booked time_slot) eqn:Hb; [now left|].
  destruct accepts; cbn [commit]; [|now left].
  right. split; [reflexivity|]. unfold first in Hslot.
  destruct (delete_first_some _ _ _ Hslot) as (before & after & H1 & H2 & _ & Hp).
  exists before, time_slot, after. cbn [fst]. rewrite H2.
  apply Z.eqb_eq in Hp, Hown. auto.
Qed.

(** ** The generator *)


(** A break start that is filled in while the list of break ends is too
    short to hold its partner makes the whole submission fail: nothing is
    stored, neither the schedule nor a slot, and the answer is no success. *)
Theorem break_without_end_stores_nothing (db : DB) (uid : Z)
    (form : WeeklyForm) (now : datetime) (clock : nat -> datetime)
    (accepts : bool) (i : nat) (b : Field time) :
  nth_error (form_break_starts form) i = Some b ->
  b <> Absent ->
  (length (form_break_ends form) <= i)%nat ->
  fst (police_add_weekly_availability db uid form now clock accepts) = db
  /\ forall m, snd (police_add_weekly_availability db uid form now clock
                                                   accepts)
               <> Flash "success" m.
Proof.
  intros Hi Hb Hlen. unfold police_add_weekly_availability.
  destruct (current_user db uid) as [cu|]; [|split; [reflexivity|discriminate]].
  destruct (negb _); [split; [reflexivity|discriminate]|].
  destruct (police_info_of db uid) as [police_info|];
    [|split; [reflexivity|discriminate]].
  destruct (negb _); [split; [reflexivity|discriminate]|].
  destruct (form_day_of_week form) as [| |dow];
    destruct (form_start_time form) as [| |start_t];
    destruct (form_end_time form) as [| |end_t];
    try (split; [reflexivity|discriminate]).
  destruct (start_t >=? end_t); [split; [reflexivity|discriminate]|].
  destruct (negb (fits_int64 dow)); [split; [reflexivity|discriminate]|].
  destruct (first _ (weekly_schedules db));
    [split; [reflexivity|discriminate]|].
  rewrite add_breaks_index_error; [split; [reflexivity|discriminate]|].
  exists i, b. auto.
Qed.

(** A day number outside the seven names of the message, -7..6, that the
    store's INTEGER holds is stored all the same: the schedule is committed,
    with the slots generated for it, and only then the route fails on the
    name of the day and answers with the error message of a failed save.
    (A number beyond 64 bits fails earlier, in the query for an existing
    schedule, and stores nothing.) *)
Theorem schedule_saved_behind_error_message (db : DB) (uid : Z) (cu : User)
    (police_info : PoliceInfo) (form : WeeklyForm) (now : datetime)
    (clock : nat -> datetime) (dow : Z) (start_t end_t : time) :
  current_user db uid = Some cu ->
  userType cu = "police"%string ->
  police_info_of db uid = Some police_info ->
  isApproved police_info = true ->
  form_day_of_week form = Parsed dow ->
  fits_int64 dow = true ->
  form_start_time form = Parsed start_t ->
  form_end_time form = Parsed end_t ->
  start_t < end_t ->
  (length (form_break_starts form) <= length (form_break_ends form))%nat ->
  (forall w, In w (weekly_schedules db) -> ws_officer_id w = uid ->
             day_of_week w = dow -> is_active w = false) ->
  dow < -7 \/ 6 < dow ->
  let r := police_add_weekly_availability db uid form now clock true in
  snd r = Flash "danger" "An error occurred while saving your weekly schedule. Please try again."
  /\ exists breaks new,
       fst r = with_slots (slots db ++ new)
                 (with_scheduled_breaks (scheduled_breaks db ++ breaks)
                    (with_weekly_schedules
                       (weekly_schedules db ++
                        [mkWeeklySchedule
                           (next_id (map ws_id (weekly_schedules db)))
                           uid dow start_t end_t true]) db)).
Proof.
  intros Hcu Htype Hpi Happr Hd Hfits Hs He Hlt Hlen Hsched Hrange r.
  destruct (add_breaks_succeeds (next_id (map ws_id (weekly_schedules db)))
              (form_break_ends form) (form_break_starts form) 0
              (with_weekly_schedules
                 (weekly_schedules db ++
                  [mkWeeklySchedule (next_id (map ws_id (weekly_schedules db)))
                                    uid dow start_t end_t true]) db)
              Hlen) as (sb & Hsb).
  pose proof Hsb as Hadds. apply add_breaks_adds in Hadds.
  destruct Hadds as (breaks & Hsb' & _).
  destruct (generate_weeks_rows police_info uid
              (next_id (map ws_id (weekly_schedules db))) start_t end_t
              (date_of now + days_ahead_of dow end_t now) clock 4 0%nat sb)
    as (new & Hfold & _).
  assert (Hrun : r = (with_slots (slots sb ++ new) sb,
                      Flash "danger" "An error occurred while saving your weekly schedule. Please try again.")).
  { unfold r, police_add_weekly_availability.
    rewrite Hcu, Htype, Hpi, Happr, Hd, Hs, He.
    cbn [String.eqb Ascii.eqb Bool.eqb negb].
    replace (start_t >=? end_t) with false
      by (symmetry; rewrite Z.geb_leb; apply Z.leb_gt; assumption).
    rewrite Hfits. cbn [negb]. rewrite find_none.
    2:{ intros w Hw. destruct (ws_officer_id w =? uid) eqn:E1; [|reflexivity].
        destruct (day_of_week w =? dow) eqn:E2; [|reflexivity].
        bool_hyps. cbn [andb]. now apply Hsched. }
    rewrite Hsb, Hfold. cbn [commit].
    replace ((-7 <=? dow) && (dow <=? 6)) with false; [reflexivity|].
    symmetry. apply andb_false_iff.
    destruct Hrange; [left; apply Z.leb_gt|right; apply Z.leb_gt]; lia. }
  rewrite Hrun. cbn [fst snd]. split; [reflexivity|].
  exists breaks, new. rewrite Hsb'. reflexivity.
Qed.

(** Adding a slot and deleting it again gives the store back: after
    [police_add_availability] has answered with success, the officer's
    request to delete the slot under the key it was given succeeds and the
    store is the one before the slot was added. *)
Theorem added_slot_can_be_deleted (db : DB) (uid : Z) (form : SlotForm)
    (now : datetime) (accepts : bool) (m : string) :
  snd (police_add_availability db uid form now accepts) = Flash "success" m ->
  let db1 := fst (police_add_availability db uid form now accepts) in
  let k := next_id (map slot_id (slots db)) in
  (exists s, slots db1 = slots db ++ [s] /\ slot_id s = k)
  /\ police_delete_availability db1 uid k true
     = (db, Flash "success" "Time slot deleted successfully.").
Proof.
  unfold police_add_availability.
  destruct (current_user db uid) as [cu|] eqn:Hcu; [|discriminate].
  destruct (userType cu =? "police")%string eqn:Htype; cbn [negb];
    [|discriminate].
  destruct (police_info_of db uid) as [police_info|] eqn:Hpi; [|discriminate].
  destruct (isApproved police_info) eqn:Happr; cbn [negb]; [|discriminate].
  destruct (form_slot_date form) as [| |slot_date];
    destruct (form_slot_start form) as [| |start_t];
    destruct (form_slot_end form) as [| |end_t]; try discriminate.
  cbv zeta. destruct (_ >=? _); [discriminate|].
  destruct (_ <? _); [discriminate|].
  destruct (overlapping_slots _ _ _ _); [|discriminate].
  destruct accepts; cbn [commit fst snd]; [|discriminate].
  intros _. unfold add_slot. cbn [slots with_slots]. split.
  - eexists. split; reflexivity.
  - unfold police_delete_availability, current_user, police_info_of in *.
    cbn [users police_infos slots with_slots].
    rewrite Hcu, Htype, Hpi, Happr. cbn [negb].
    unfold first. rewrite find_snoc_fresh.
    + cbn [officer_id is_booked]. rewrite Z.eqb_refl. cbn [negb commit].
      rewrite delete_first_snoc_fresh.
      * now destruct db.
      * intros r Hr. apply Z.eqb_neq. intros E.
        apply (next_id_not_in (map slot_id (slots db))).
        rewrite <- E. now apply in_map.
      * cbn [slot_id]. apply Z.eqb_refl.
    + intros r Hr. apply Z.eqb_neq. intros E.
      apply (next_id_not_in (map slot_id (slots db))).
      rewrite <- E. now apply in_map.
    + cbn [slot_id]. apply Z.eqb_refl.
Qed.

(** ** Weekly schedules *)

(** Removing a weekly schedule keeps the history: the schedule row stays in
    the table, marked inactive; a slot leaves the table exactly when it was
    generated by this schedule, is unbooked and starts after the time of the
    request; breaks, appointments and certificates are untouched. *)
Theorem delete_weekly_schedule_keeps_history (db : DB) (uid : Z)
    (schedule_id : Z) (now : datetime) (accepts : bool) :
  let r := police_delete_weekly_schedule db uid schedule_id now accepts in
  fst r = db
  \/ exists schedule,
       first (fun w => (ws_id w =? schedule_id) && (ws_officer_id w =? uid))
             (weekly_schedules db) = Some schedule
       /\ first (fun w => (ws_id w =? schedule_id) && (ws_officer_id w =? uid))
                (weekly_schedules (fst r)) = Some (set_active false schedule)
       /\ map ws_id (weekly_schedules (fst r)) = map ws_id (weekly_schedules db)
       /\ (forall s, In s (slots (fst r)) <->
                     In s (slots db)
                     /\ (generated_by (ws_id schedule) s = false
                         \/ is_booked s = true
                         \/ start_time s <= now))
       /\ scheduled_breaks (fst r) = scheduled_breaks db
       /\ appointments (fst r) = appointments db
       /\ certificates (fst r) = certificates db.
Proof.
  cbv zeta.
  destruct (delete_weekly_schedule_cases db uid schedule_id now accepts)
    as [[H _]|(cu & police_info & schedule & _ & _ & _ & _ & Hfind & _ & Hrun)];
    [now left|].
  right. exists schedule. rewrite Hrun.
  cbn [slots weekly_schedules scheduled_breaks appointments certificates
       with_slots with_weekly_schedules].
  split; [exact Hfind|]. split; [|split; [|split]].
  - unfold first. apply find_update_first; [exact Hfind|].
    apply find_some in Hfind. apply Hfind.
  - now apply map_update_first.
  - intros s. rewrite filter_In. split; intros [Hin Hkeep]; split; auto.
    + destruct (generated_by (ws_id schedule) s); [|now left].
      destruct (is_booked s); [now (right; left)|].
      cbn [andb negb] in Hkeep. right; right. bool_hyps. lia.
    + destruct Hkeep as [-> | [-> |Hpast]]; [reflexivity| |].
      * now rewrite andb_false_r.
      * replace (start_time s >? now) with false; [now rewrite andb_false_r|].
        symmetry. rewrite Z.gtb_ltb. now apply Z.ltb_ge.
  - auto.
Qed.

(** With day numbers from the select box, 0..6, the three routes that
    write the schedule table keep it at one active schedule per officer
    and day of the week: when every stored day number is in 0..6 and the
    submitted one is, the table has both properties afterwards, whatever
    else is submitted.  The duplicate check compares the stored numbers, so
    the range matters: under another number of the same day a second active
    schedule is accepted. *)
Theorem schedule_routes_keep_one_active_per_weekday (db : DB) (uid : Z)
    (form : WeeklyForm) (schedule_id : Z) (now : datetime)
    (clock : nat -> datetime) (accepts : bool) :
  day_numbers_in_week (weekly_schedules db) ->
  one_active_per_weekday (weekly_schedules db) ->
  (forall dow, form_day_of_week form = Parsed dow -> 0 <= dow <= 6) ->
  let added :=
    weekly_schedules
      (fst (police_add_weekly_availability db uid form now clock accepts)) in
  let deleted :=
    weekly_schedules
      (fst (police_delete_weekly_schedule db uid schedule_id now accepts)) in
  let cleared :=
    weekly_schedules (fst (police_clear_availability db uid now accepts)) in
  (day_numbers_in_week added /\ one_active_per_weekday added)
  /\ (day_numbers_in_week deleted /\ one_active_per_weekday deleted)
  /\ (day_numbers_in_week cleared /\ one_active_per_weekday cleared).
Proof.
  intros Hrange Hdb Hform added deleted cleared. split; [|split].
  - unfold added.
    destruct (weekly_availability_cases db uid form now clock accepts)
      as [[-> _]|(cu & police_info & dow & start_t & end_t & breaks & new & _
                  & _ & _ & _ & Hd & _ & _ & _ & Hdup & _ & Hrun & _)];
      [now split|].
    rewrite Hrun. cbn [weekly_schedules with_slots with_scheduled_breaks
                       with_weekly_schedules].
    specialize (Hform dow Hd). split.
    + apply Forall_app. split; [exact Hrange|]. now repeat constructor.
    + apply ForallOrdPairs_snoc; [assumption|].
      apply Forall_forall. intros a Ha (Ho & Hday & Hact & _).
      pose proof (List.find_none _ _ Hdup a Ha) as Hp. cbv beta in Hp.
      unfold day_numbers_in_week in Hrange. rewrite Forall_forall in Hrange.
      specialize (Hrange a Ha).
      cbn [ws_officer_id day_of_week] in Ho, Hday.
      unfold day_of_number in Hday.
      rewrite !Z.mod_small in Hday by lia.
      rewrite Ho, Hday, Hact, !Z.eqb_refl in Hp. discriminate.
  - unfold deleted.
    destruct (delete_weekly_schedule_cases db uid schedule_id now accepts)
      as [[-> _]|(cu & police_info & schedule & _ & _ & _ & _ & _ & _ & ->)];
      [now split|].
    cbn [weekly_schedules with_slots with_weekly_schedules].
    eapply deactivation_keeps_weekdays; [|exact Hrange|exact Hdb].
    apply update_first_pointwise.
  - unfold cleared, police_clear_availability.
    destruct (current_user db uid) as [cu|]; [|now split].
    destruct (negb _); [now split|].
    destruct (police_info_of db uid) as [police_info|]; [|now split].
    destruct (negb _); [now split|].
    destruct accepts; cbn [commit fst]; [|now split].
    cbn [weekly_schedules with_slots with_weekly_schedules].
    eapply deactivation_keeps_weekdays; [|exact Hrange|exact Hdb].
    eapply Forall2_impl; [|apply update_where_pointwise]. cbv beta.
    intros a a' ->. destruct (_ && _); auto.
Qed.

(** The duplicate check compares day numbers, not days.  Once the weekly
    route has answered with success, every further submission of the officer
    with the same day number and start before end is answered with the
    request to delete the existing schedule first and stores nothing.  A
    submission for the same day of the week under another number of -7..6
    (Monday as -7 after Monday as 0) is not refused: with start before end,
    no break, no active schedule under that number and the commit taken it
    is answered with success, and the officer then has two active schedules
    for one day of the week. *)
Theorem duplicate_check_compares_day_numbers (db : DB) (uid : Z)
    (form : WeeklyForm) (now : datetime) (clock : nat -> datetime)
    (accepts : bool) (m : string) (dow : Z) :
  snd (police_add_weekly_availability db uid form now clock accepts)
  = Flash "success" m ->
  form_day_of_week form = Parsed dow ->
  let db' :=
    fst (police_add_weekly_availability db uid form now clock accepts) in
  (forall form' now' clock' accepts' start_t' end_t',
     form_day_of_week form' = Parsed dow ->
     form_start_time form' = Parsed start_t' ->
     form_end_time form' = Parsed end_t' ->
     start_t' < end_t' ->
     police_add_weekly_availability db' uid form' now' clock' accepts'
     = (db', duplicate_schedule_flash))
  /\ (forall form' now' clock' dow' start_t' end_t',
        form_day_of_week form' = Parsed dow' ->
        form_start_time form' = Parsed start_t' ->
        form_end_time form' = Parsed end_t' ->
        form_break_starts form' = [] ->
        start_t' < end_t' ->
        dow' <> dow ->
        day_of_number dow' = day_of_number dow ->
        -7 <= dow' <= 6 ->
        (forall w, In w (weekly_schedules db) -> ws_officer_id w = uid ->
                   day_of_week w = dow' -> is_active w = false) ->
        let r := police_add_weekly_availability db' uid form' now' clock'
                                                true in
        snd r = Flash "success" "Added weekly schedule for {day} and generated {slots_added} interview slots."
        /\ exists first_schedule,
             weekly_schedules db' = weekly_schedules db ++ [first_schedule]
             /\ ws_officer_id first_schedule = uid
             /\ day_of_week first_schedule = dow
             /\ is_active first_schedule = true
             /\ weekly_schedules (fst r)
                = weekly_schedules db
                  ++ [first_schedule;
                      mkWeeklySchedule
                        (next_id (map ws_id (weekly_schedules db')))
                        uid dow' start_t' end_t' true]).
Proof.
  intros Hok Hd db'.
  pose proof (weekly_success_fits _ _ _ _ _ _ _ _ Hok Hd) as Hfits.
  destruct (weekly_availability_cases db uid form now clock accepts)
    as [[_ Hno]|(cu & police_info & dow0 & start_t & end_t & breaks & new & Hcu
                 & Htype & Hpi & Happr & Hd0 & _ & _ & _ & Hdup & _ & Hrun & _)].
  { exfalso. now apply (Hno m). }
  rewrite Hd in Hd0. injection Hd0 as <-.
  fold db' in Hrun.
  assert (Hcu' : current_user db' uid = Some cu)
    by (rewrite Hrun; exact Hcu).
  assert (Hpi' : police_info_of db' uid = Some police_info)
    by (rewrite Hrun; exact Hpi).
  assert (Hws : weekly_schedules db'
                = weekly_schedules db
                  ++ [mkWeeklySchedule (next_id (map ws_id (weekly_schedules db)))
                                       uid dow start_t end_t true])
    by (rewrite Hrun; reflexivity).
  split.
  - intros form' now' clock' accepts' start_t' end_t' Hd' Hs' He' Hlt.
    unfold police_add_weekly_availability.
    rewrite Hcu', Htype, Hpi', Happr, Hd', Hs', He'.
    cbn [String.eqb Ascii.eqb Bool.eqb negb].
    replace (start_t' >=? end_t') with false
      by (symmetry; rewrite Z.geb_leb; apply Z.leb_gt; assumption).
    rewrite Hfits. cbn [negb]. rewrite Hws.
    unfold first. rewrite find_snoc_fresh.
    + reflexivity.
    + intros w Hw. exact (List.find_none _ _ Hdup w Hw).
    + cbn [ws_officer_id day_of_week is_active]. now rewrite !Z.eqb_refl.
  - intros form' now' clock' dow' start_t' end_t' Hd' Hs' He' Hbr Hlt Hne
           Hsame Hrange Hfree r.
    match type of Hws with _ = _ ++ [?w] => set (first_schedule := w) in * end.
    set (sid' := next_id (map ws_id (weekly_schedules db'))).
    destruct (generate_weeks_rows police_info uid sid' start_t' end_t'
                (date_of now' + days_ahead_of dow' end_t' now') clock' 4 0%nat
                (with_weekly_schedules
                   (weekly_schedules db'
                    ++ [mkWeeklySchedule sid' uid dow' start_t' end_t' true])
                   db'))
      as (new' & Hfold & _).
    assert (Hrun' : r = (with_slots
                           (slots db' ++ new')
                           (with_weekly_schedules
                              (weekly_schedules db'
                               ++ [mkWeeklySchedule sid' uid dow' start_t'
                                                    end_t' true]) db'),
                         Flash "success" "Added weekly schedule for {day} and generated {slots_added} interview slots.")).
    { unfold r, police_add_weekly_availability.
      rewrite Hcu', Htype, Hpi', Happr, Hd', Hs', He', Hbr.
      cbn [String.eqb Ascii.eqb Bool.eqb negb].
      replace (start_t' >=? end_t') with false
        by (symmetry; rewrite Z.geb_leb; apply Z.leb_gt; assumption).
      replace (fits_int64 dow') with true.
      2:{ symmetry. unfold fits_int64. apply andb_true_intro.
          split; apply Z.leb_le; cbn; lia. }
      cbn [negb]. rewrite find_none.
      2:{ intros w Hw. rewrite Hws in Hw. apply in_app_or in Hw.
          destruct (ws_officer_id w =? uid) eqn:E1; [|reflexivity].
          destruct (day_of_week w =? dow') eqn:E2; [|reflexivity].
          bool_hyps. cbn [andb]. destruct Hw as [Hw|[<-|[]]].
          - now apply Hfree.
          - exfalso. apply Hne. symmetry. exact E2. }
      cbn [add_breaks]. fold sid'. rewrite Hfold. cbn [commit slots
        with_weekly_schedules].
      replace ((-7 <=? dow') && (dow' <=? 6)) with true; [reflexivity|].
      symmetry. apply andb_true_intro. split; apply Z.leb_le; lia. }
    rewrite Hrun'. cbn [fst snd]. split; [reflexivity|].
    exists first_schedule. split; [exact Hws|].
    repeat split.
    cbn [weekly_schedules with_slots with_weekly_schedules].
    rewrite Hws, <- app_assoc. reflexivity.
Qed.

(** Deleting makes room: when the officer's active schedule for a day is
    removed, the weekly route no longer answers a submission for that day
    with the request to delete the existing schedule first. *)
Theorem deleted_day_is_free_again (db : DB) (uid : Z) (cu : User)
    (police_info : PoliceInfo) (schedule : WeeklySchedule) (now : datetime)
    (form : WeeklyForm) (now' : datetime) (clock : nat -> datetime)
    (accepts' : bool) :
  current_user db uid = Some cu ->
  userType cu = "police"%string ->
  police_info_of db uid = Some police_info ->
  isApproved police_info = true ->
  one_active_per_day (weekly_schedules db) ->
  first (fun w => (ws_id w =? ws_id schedule) && (ws_officer_id w =? uid))
        (weekly_schedules db) = Some schedule ->
  is_active schedule = true ->
  form_day_of_week form = Parsed (day_of_week schedule) ->
  let db' :=
    fst (police_delete_weekly_schedule db uid (ws_id schedule) now true) in
  snd (police_add_weekly_availability db' uid form now' clock accepts')
  <> duplicate_schedule_flash.
Proof.
  intros Hcu Htype Hpi Happr Hinv Hfind Hact Hday db'.
  assert (Hdb' : weekly_schedules db'
                 = update_first (fun w => (ws_id w =? ws_id schedule)
                                          && (ws_officer_id w =? uid))
                                (set_active false) (weekly_schedules db)).
  { unfold db', police_delete_weekly_schedule.
    rewrite Hcu, Htype, Hpi, Happr, Hfind.
    cbn [String.eqb Ascii.eqb Bool.eqb negb commit].
    destruct (_ && _); reflexivity. }
  unfold first in Hfind.
  destruct (update_first_some _ (set_active false) _ _ Hfind)
    as (before & after & Hrows & Hrows' & _ & Hp).
  assert (Hnone : find (fun w => (ws_officer_id w =? uid)
                                 && (day_of_week w =? day_of_week schedule)
                                 && is_active w) (weekly_schedules db') = None).
  { rewrite Hdb', Hrows'. unfold one_active_per_day in Hinv.
    rewrite Hrows in Hinv. bool_hyps.
    apply find_none. intros w Hw.
    destruct (ws_officer_id w =? uid) eqn:E1; [|reflexivity].
    destruct (day_of_week w =? day_of_week schedule) eqn:E2; [|reflexivity].
    cbn [andb]. bool_hyps.
    apply in_app_or in Hw. destruct Hw as [Hw|[<-|Hw]]; [| reflexivity |].
    - destruct (is_active w) eqn:E3; [|reflexivity]. exfalso.
      clear Hrows Hrows' Hdb'. induction before as [|b before IH];
        [contradiction|].
      cbn [app] in Hinv. inversion Hinv as [|? ? Hb Hrest]; subst.
      destruct Hw as [->|Hw]; [|now apply IH].
      rewrite Forall_forall in Hb.
      apply (Hb schedule); [apply in_or_app; right; now left|].
      repeat split; congruence.
    - destruct (is_active w) eqn:E3; [|reflexivity]. exfalso.
      clear Hrows Hrows' Hdb'. induction before as [|b before IH].
      + cbn [app] in Hinv. inversion Hinv as [|? ? Hs _]; subst.
        rewrite Forall_forall in Hs. apply (Hs w Hw).
        repeat split; congruence.
      + cbn [app] in Hinv. inversion Hinv; subst. now apply IH. }
  unfold police_add_weekly_availability.
  destruct (current_user db' uid); [|discriminate].
  destruct (negb _); [discriminate|].
  destruct (police_info_of db' uid); [|discriminate].
  destruct (negb _); [discriminate|].
  rewrite Hday.
  destruct (form_start_time form); destruct (form_end_time form);
    try discriminate.
  destruct (_ >=? _); [discriminate|].
  destruct (negb (fits_int64 _)); [discriminate|].
  unfold first. rewrite Hnone.
  destruct (add_breaks _ _ _ _ _); [|discriminate].
  destruct (commit _ _); [|discriminate].
  destruct ((-7 <=? _) && _); discriminate.
Qed.

(** A deleted schedule takes its slots along: when every slot that names
    a schedule names a stored one, deleting the schedule that
    [police_add_weekly_availability] just stored succeeds, and of the slots
    that were generated only those that have started by the time of the
    deletion are left; the slots that were there before are all kept, the
    schedule row stays, inactive, and its breaks stay. *)
Theorem deleted_schedule_takes_its_slots (db : DB) (uid : Z)
    (form : WeeklyForm) (now : datetime) (clock : nat -> datetime)
    (accepts : bool) (m : string) (now' : datetime) :
  snd (police_add_weekly_availability db uid form now clock accepts)
  = Flash "success" m ->
  (forall s k, In s (slots db) -> weekly_schedule_id s = Some k ->
               In k (map ws_id (weekly_schedules db))) ->
  let db1 := fst (police_add_weekly_availability db uid form now clock
                                                 accepts) in
  let sid := next_id (map ws_id (weekly_schedules db)) in
  let r := police_delete_weekly_schedule db1 uid sid now' true in
  snd r = Flash "success" "Removed weekly schedule for {day} and {deleted_slots} future slots."
  /\ (exists new,
        slots db1 = slots db ++ new
        /\ slots (fst r)
           = slots db ++ filter (fun s => start_time s <=? now') new)
  /\ (exists schedule,
        weekly_schedules db1 = weekly_schedules db ++ [schedule]
        /\ ws_id schedule = sid /\ is_active schedule = true
        /\ weekly_schedules (fst r)
           = weekly_schedules db ++ [set_active false schedule])
  /\ scheduled_breaks (fst r) = scheduled_breaks db1.
Proof.
  intros Hok Hfk db1 sid.
  destruct (weekly_availability_cases db uid form now clock accepts)
    as [[_ Hno]|(cu & police_info & dow & start_t & end_t & breaks & new & Hcu
                 & Htype & Hpi & Happr & _ & _ & _ & _ & _ & _ & Hrun & _
                 & Hnew & Hsnd)].
  { exfalso. now apply (Hno m). }
  fold sid in Hrun, Hnew. fold db1 in Hrun.
  rewrite Hsnd in Hok.
  destruct ((-7 <=? dow) && (dow <=? 6)) eqn:Hrange; [|discriminate].
  clear Hok Hsnd.
  assert (Hfresh : forall w, In w (weekly_schedules db) ->
                             (ws_id w =? sid) && (ws_officer_id w =? uid)
                             = false).
  { intros w Hw. replace (ws_id w =? sid) with false; [reflexivity|].
    symmetry. apply Z.eqb_neq. intros E.
    apply (next_id_not_in (map ws_id (weekly_schedules db))).
    fold sid. rewrite <- E. now apply in_map. }
  assert (Hrun' : police_delete_weekly_schedule db1 uid sid now' true
                  = (with_slots
                       (slots db ++ filter (fun s => start_time s <=? now') new)
                       (with_weekly_schedules
                          (weekly_schedules db
                           ++ [mkWeeklySchedule sid uid dow start_t end_t
                                                false]) db1),
                     Flash "success" "Removed weekly schedule for {day} and {deleted_slots} future slots.")).
  { unfold police_delete_weekly_schedule, current_user, police_info_of in *.
    rewrite Hrun.
    cbn [users police_infos weekly_schedules slots with_slots
         with_scheduled_breaks with_weekly_schedules].
    rewrite Hcu, Htype, Hpi, Happr.
    cbn [String.eqb Ascii.eqb Bool.eqb negb].
    unfold first. rewrite find_snoc_fresh; [|exact Hfresh|].
    2:{ cbn [ws_id ws_officer_id]. now rewrite !Z.eqb_refl. }
    cbn [commit day_of_week ws_id]. rewrite Hrange.
    rewrite update_first_at.
    2:{ apply Forall_forall. exact Hfresh. }
    2:{ cbn [ws_id ws_officer_id]. now rewrite !Z.eqb_refl. }
    cbn [weekly_schedules slots with_slots with_scheduled_breaks
         with_weekly_schedules set_active ws_id ws_officer_id day_of_week
         ws_start_time ws_end_time].
    rewrite filter_app. f_equal. f_equal. f_equal.
    - apply filter_all. intros s Hs. unfold generated_by.
      destruct (weekly_schedule_id s) as [k|] eqn:Hk; [|reflexivity].
      replace (k =? sid) with false; [reflexivity|].
      symmetry. apply Z.eqb_neq. intros E.
      apply (next_id_not_in (map ws_id (weekly_schedules db))).
      fold sid. rewrite <- E. exact (Hfk s k Hs Hk).
    - apply filter_ext_in. intros s Hs. rewrite Forall_forall in Hnew.
      destruct (Hnew s Hs) as (week & c & _ & (session & ->) & _).
      unfold generated_by.
      cbn [weekly_schedule_id is_booked start_time new_generated_slot].
      rewrite Z.eqb_refl. cbn [negb andb].
      rewrite Z.gtb_ltb, Z.leb_antisym. reflexivity. }
  rewrite Hrun'. cbn [fst snd]. split; [reflexivity|]. split; [|split].
  - exists new. rewrite Hrun. split; reflexivity.
  - eexists. rewrite Hrun.
    cbn [weekly_schedules with_slots with_scheduled_breaks
         with_weekly_schedules].
    split; [reflexivity|]. repeat split.
  - rewrite Hrun. reflexivity.
Qed.

(** ** The slot table under the other writers *)

(** Apart from the demo seeding of the per-application schedule page, no
    route that writes the slot table can make two slots of one officer
    overlap: the three deletions, the two bookings with a certificate, the
    cancellation and the officer's decision keep a table that is free of
    overlaps free of overlaps, whatever is submitted and whether or not the
    commit is taken. *)
Theorem other_writers_keep_slots_disjoint (db : DB) (uid : Z)
    (slot_id schedule_id appointment_id : Z) (form : BookForm)
    (form_slot_id form_appointment_id : option Z) (method : Method)
    (form_decision form_officer_notes : option string) (now : datetime)
    (uuid_int : Z) (accepts : bool) :
  slots_disjoint (slots db) ->
  slots_disjoint
    (slots (fst (police_delete_availability db uid slot_id accepts)))
  /\ slots_disjoint
       (slots (fst (police_delete_weekly_schedule db uid schedule_id now
                                                  accepts)))
  /\ slots_disjoint (slots (fst (police_clear_availability db uid now accepts)))
  /\ slots_disjoint
       (slots (fst (book_interview_slot db uid form now uuid_int accepts)))
  /\ slots_disjoint
       (slots (fst (resident_schedule_interview db uid method form_slot_id now
                                                uuid_int accepts)))
  /\ slots_disjoint
       (slots (fst (cancel_interview db uid form_appointment_id accepts)))
  /\ slots_disjoint
       (slots (fst (conduct_interview db uid appointment_id method
                                      form_decision form_officer_notes now
                                      uuid_int accepts))).
Proof.
  intros Hdb. repeat split.
  - unfold police_delete_availability. route_exits; slots_kept.
  - unfold police_delete_weekly_schedule. route_exits; slots_kept.
  - unfold police_clear_availability. route_exits; slots_kept.
  - unfold book_interview_slot, booking_session. route_exits; slots_kept.
  - unfold resident_schedule_interview. route_exits; slots_kept.
  - unfold cancel_interview, cancellation_session. route_exits; slots_kept.
  - unfold conduct_interview, officer_decision. route_exits; slots_kept.
Qed.

(** ** Clearing the availability *)

(** A cleared availability: either nothing is stored, or a slot is left
    exactly when it belongs to another officer, is booked, or does not start
    after the time of the request; every schedule of the officer is inactive
    and no schedule row is removed, the schedules of other officers are as
    they were; and the weekly route then takes a schedule for any day
    without asking to delete one first. *)
Theorem clear_availability_effects (db : DB) (uid : Z) (now : datetime)
    (accepts : bool) :
  let r := police_clear_availability db uid now accepts in
  fst r = db
  \/ ((forall s, In s (slots (fst r)) <->
                 In s (slots db)
                 /\ (officer_id s <> uid \/ is_booked s = true
                     \/ start_time s <= now))
      /\ (forall w, In w (weekly_schedules (fst r)) ->
                    ws_officer_id w = uid -> is_active w = false)
      /\ Forall2 (fun w w' =>
                    w' = w \/ (ws_officer_id w = uid /\ w' = set_active false w))
                 (weekly_schedules db) (weekly_schedules (fst r))
      /\ forall form now' clock accepts',
           snd (police_add_weekly_availability (fst r) uid form now' clock
                                               accepts')
           <> duplicate_schedule_flash).
Proof.
  cbv zeta. unfold police_clear_availability.
  destruct (current_user db uid) as [cu|]; [|now left].
  destruct (negb _); [now left|].
  destruct (police_info_of db uid) as [police_info|]; [|now left].
  destruct (negb _); [now left|].
  destruct accepts; cbn [commit fst]; [|now left].
  right. cbn [slots weekly_schedules with_slots with_weekly_schedules].
  assert (Hoff : forall w,
             In w (update_where (fun w => (ws_officer_id w =? uid)
                                          && is_active w)
                                (set_active false) (weekly_schedules db)) ->
             ws_officer_id w = uid -> is_active w = false).
  { intros w Hw Hu. unfold update_where in Hw. apply in_map_iff in Hw.
    destruct Hw as (w0 & <- & _).
    destruct ((ws_officer_id w0 =? uid) && is_active w0) eqn:E;
      [reflexivity|].
    apply Z.eqb_eq in Hu. rewrite Hu in E. exact E. }
  split; [|split; [exact Hoff|split]].
  - intros s. rewrite filter_In. split; intros [Hin Hkeep]; split; auto.
    + destruct (officer_id s =? uid) eqn:E1;
        [|left; now apply Z.eqb_neq].
      destruct (is_booked s); [now (right; left)|].
      cbn [andb negb] in Hkeep. right; right. bool_hyps. lia.
    + destruct Hkeep as [Hne| [-> |Hpast]].
      * apply Z.eqb_neq in Hne. now rewrite Hne.
      * now rewrite andb_false_r.
      * replace (start_time s >? now) with false; [now rewrite andb_false_r|].
        symmetry. rewrite Z.gtb_ltb. now apply Z.ltb_ge.
  - eapply Forall2_impl; [|apply update_where_pointwise]. cbv beta.
    intros w w' ->. destruct (ws_officer_id w =? uid) eqn:E; [|now left].
    destruct (is_active w); cbn [andb]; [|now left].
    right. split; [now apply Z.eqb_eq|reflexivity].
  - intros form now' clock accepts'. apply weekly_route_not_duplicate.
    intros dow _. cbn [weekly_schedules with_slots with_weekly_schedules].
    apply find_none. intros w Hw.
    destruct (ws_officer_id w =? uid) eqn:E; [|reflexivity].
    apply Z.eqb_eq in E. rewrite (Hoff w Hw E). apply andb_false_r.
Qed.

(** ** The camera step *)

(** The camera step approves the police: a signed-in user of type police
    that has a police record, approved or not, is verified and approved by
    one POST to the verification page, and the routes reserved to approved
    officers no longer answer that the account is pending approval. *)
Theorem verification_approves_police_officer (db : DB) (uid : Z) (cu : User)
    (police_info : PoliceInfo) :
  current_user db uid = Some cu ->
  userType cu = "police"%string ->
  police_info_of db uid = Some police_info ->
  let db' := fst (verification db uid POST true) in
  current_user db' uid = Some (set_verified true cu)
  /\ police_info_of db' uid = Some (set_police_approved true police_info)
  /\ (forall form now clock accepts,
        snd (police_add_weekly_availability db' uid form now clock accepts)
        <> pending_approval_flash)
  /\ (forall form now accepts,
        snd (police_add_availability db' uid form now accepts)
        <> pending_approval_flash)
  /\ (forall now accepts,
        snd (police_clear_availability db' uid now accepts)
        <> pending_approval_flash).
Proof.
  intros Hcu Htype Hpi db'.
  assert (Huid : user_id cu = uid).
  { unfold current_user, first in Hcu. apply find_some in Hcu.
    now apply Z.eqb_eq. }
  assert (Hcu' : current_user db' uid = Some (set_verified true cu)).
  { unfold db', verification. rewrite Hcu, Htype.
    cbn [String.eqb Ascii.eqb Bool.eqb commit fst].
    unfold current_user, first.
    cbn [users with_users with_police_infos].
    apply find_update_first; [exact Hcu|].
    cbn [user_id set_verified]. now apply Z.eqb_eq. }
  assert (Hpi' : police_info_of db' uid
                 = Some (set_police_approved true police_info)).
  { unfold db', verification. rewrite Hcu, Htype, Huid.
    cbn [String.eqb Ascii.eqb Bool.eqb commit fst].
    unfold police_info_of, first in *.
    cbn [police_infos with_users with_police_infos].
    apply find_update_first; [exact Hpi|].
    apply find_some in Hpi. apply Hpi. }
  split; [exact Hcu'|]. split; [exact Hpi'|]. repeat split.
  - intros form now clock accepts. unfold police_add_weekly_availability.
    rewrite Hcu', Hpi'. cbn [userType set_verified isApproved
                             set_police_approved negb].
    rewrite Htype. cbn [String.eqb Ascii.eqb Bool.eqb negb].
    route_exits; discriminate.
  - intros form now accepts. unfold police_add_availability.
    rewrite Hcu', Hpi'. cbn [userType set_verified isApproved
                             set_police_approved negb].
    rewrite Htype. cbn [String.eqb Ascii.eqb Bool.eqb negb].
    route_exits; discriminate.
  - intros now accepts. unfold police_clear_availability.
    rewrite Hcu', Hpi'. cbn [userType set_verified isApproved
                             set_police_approved negb].
    rewrite Htype. cbn [String.eqb Ascii.eqb Bool.eqb negb].
    route_exits; discriminate.
Qed.

(** ** The availability API and the booking *)


(** A listed slot can be booked, once: when keys are unique, a slot the
    officer's listing shows is booked by [book_interview_slot] for a
    resident's own leader-approved application, whenever the store takes
    the commit and the certificate number is free; the appointment is with
    the listed officer at the listed start; and the slot is in no later
    listing. *)
Theorem listed_slot_can_be_booked (db : DB) (viewer officer : Z)
    (now : datetime) (body : list (Z * datetime * datetime)) (k : Z)
    (s e : datetime) (uid : Z) (cu : User) (aid : Z)
    (application : AddressApplication) (now' : datetime) (uuid_int : Z) :
  api_officer_availability db viewer officer now = ApiOk body ->
  In (k, s, e) body ->
  NoDup (map slot_id (slots db)) ->
  current_user db uid = Some cu ->
  userType cu = "resident"%string ->
  first (fun a => app_id a =? aid) (applications db) = Some application ->
  applicant_id application = user_id cu ->
  app_status application = "leader_approved"%string ->
  certificate_number_free db (new_certificate db application uuid_int now')
  = true ->
  let r := book_interview_slot db uid (mkBookForm (Some k) (Some aid)) now'
                               uuid_int true in
  snd r = booked_flash
  /\ (exists appointment,
        In appointment (appointments (fst r))
        /\ resident_id appointment = user_id cu
        /\ appt_officer_id appointment = officer
        /\ application_id appointment = app_id application
        /\ appointment_date appointment = s)
  /\ forall viewer' now'' body' s' e',
       api_officer_availability (fst r) viewer' officer now'' = ApiOk body' ->
       ~ In (k, s', e') body'.
Proof.
  intros Hapi Hin Hnd Hcu Htype Happ Hown Hst Hfree r.
  destruct (api_officer_listed _ _ _ _ _ _ _ _ Hapi Hin)
    as (_ & _ & row & Hrow & Hk & Hs & He & Ho & Hb & Hfut).
  assert (Hfind : first (fun x => slot_id x =? slot_id row) (slots db)
                  = Some row) by now apply find_by_key.
  assert (Hrun : r = (booking_session db cu application row now' uuid_int,
                      booked_flash)).
  { unfold r, book_interview_slot. rewrite Hcu, Htype.
    cbn [negb String.eqb Ascii.eqb Bool.eqb book_slot_id book_application_id].
    rewrite Happ, Hown, Z.eqb_refl, Hst.
    cbn [negb String.eqb Ascii.eqb Bool.eqb].
    rewrite <- Hk, Hfind, Hb, Hfree. reflexivity. }
  rewrite Hrun. cbn [fst snd]. split; [reflexivity|]. split.
  - eexists. split.
    + unfold booking_session.
      cbn [appointments with_slots with_applications with_appointments
           with_certificates].
      apply in_or_app. right. left. reflexivity.
    + cbn [resident_id appt_officer_id application_id appointment_date].
      auto.
  - intros viewer' now'' body' s' e' Hapi' Hin'.
    destruct (api_officer_listed _ _ _ _ _ _ _ _ Hapi' Hin')
      as (_ & _ & row' & Hrow' & Hk' & _ & _ & _ & Hb' & _).
    assert (Hnd' : NoDup (map slot_id
                            (slots (booking_session db cu application row
                                                    now' uuid_int)))).
    { unfold booking_session.
      cbn [slots with_slots with_applications with_appointments
           with_certificates].
      rewrite map_update_where, map_update_first; auto. }
    pose proof (find_by_key slot_id _ _ Hnd' Hrow') as Hfind'.
    pose proof (booking_session_slot db cu application row now' uuid_int
                                     Hfind) as Hnew.
    unfold first in Hnew. rewrite Hk', <- Hk in Hfind'.
    rewrite Hfind' in Hnew. injection Hnew as ->. discriminate.
Qed.

(** A listed slot has details: when keys are unique, the slot-details
    endpoint answers for every key of the officer's listing with the row
    of that slot, unbooked and with the listed times. *)
Theorem listed_slot_has_details (db : DB) (uid officer : Z) (now : datetime)
    (body : list (Z * datetime * datetime)) (k : Z) (s e : datetime) :
  api_officer_availability db uid officer now = ApiOk body ->
  In (k, s, e) body ->
  NoDup (map slot_id (slots db)) ->
  exists row,
    api_slot_details db uid k = ApiOk row
    /\ slot_id row = k /\ start_time row = s /\ end_time row = e
    /\ officer_id row = officer /\ is_booked row = false.
Proof.
  intros Hapi Hin Hnd.
  destruct (api_officer_listed _ _ _ _ _ _ _ _ Hapi Hin)
    as ((u & Hu) & (p & Hp & _) & row & Hrow & Hk & Hs & He & Ho & Hb & _).
  exists row. repeat split; auto.
  unfold api_slot_details. unfold api_officer_availability in Hapi.
  destruct (current_user db uid); [|discriminate].
  rewrite <- Hk. unfold first. rewrite (find_by_key slot_id _ _ Hnd Hrow).
  rewrite Ho. unfold first in Hu. apply find_some in Hu.
  destruct Hu as [Hu Hpu]. apply andb_prop in Hpu. destruct Hpu as [Hid _].
  destruct (find (fun u0 => user_id u0 =? officer) (users db)) as [o|] eqn:Ho'.
  - apply find_some in Ho'. destruct Ho' as [_ Ho']. apply Z.eqb_eq in Ho'.
    rewrite Ho'. unfold police_info_of, first in Hp. now rewrite Hp.
  - pose proof (List.find_none _ _ Ho' u Hu) as Hn. cbv beta in Hn.
    congruence.
Qed.

(** ** Scheduling and cancelling *)

(** Scheduling through the per-application page and cancelling gives the
    slot table back: when some slot is free (so that nothing is seeded), no
    two slots of an officer overlap and every slot ends after it starts, a
    cancellation of the appointment just scheduled succeeds and leaves the
    slot table as it was before the booking; the application is
    "leader_approved" again and stays assigned to the officer, and the
    appointment stays in the table as "cancelled". *)
Theorem schedule_then_cancel_restores_slots (db : DB) (uid aid k : Z)
    (now : datetime) (accepts_slots accepts_booking : bool) :
  filter (fun s => negb (is_booked s)) (slots db) <> [] ->
  slots_disjoint (slots db) ->
  Forall (fun s => start_time s < end_time s) (slots db) ->
  snd (schedule_interview db uid aid POST (Some k) now accepts_slots
                          accepts_booking)
  = Flash "success" "Interview successfully scheduled." ->
  let db1 := fst (schedule_interview db uid aid POST (Some k) now
                                     accepts_slots accepts_booking) in
  let appointment_id := next_id (map appt_id (appointments db)) in
  let r := cancel_interview db1 uid (Some appointment_id) true in
  snd r = Flash "success" "Interview cancelled successfully."
  /\ slots (fst r) = slots db
  /\ slots db1 <> slots db
  /\ exists slot application,
       first (fun s => slot_id s =? k) (slots db) = Some slot
       /\ first (fun a => app_id a =? aid) (applications (fst r))
          = Some application
       /\ app_status application = "leader_approved"%string
       /\ app_officer_id application = Some (officer_id slot)
       /\ appointments (fst r)
          = appointments db
            ++ [mkAppointment appointment_id uid (officer_id slot) aid
                              (start_time slot) 30 "cancelled"].
Proof.
  intros Hfree Hdisj Hpos. unfold schedule_interview.
  destruct (current_user db uid) as [cu|] eqn:Hcu; [|discriminate].
  destruct (userType cu =? "resident")%string eqn:Htype; cbn [negb];
    [|discriminate].
  destruct (first _ (applications db)) as [application|] eqn:Happ;
    [|discriminate].
  destruct (applicant_id application =? user_id cu) eqn:Hown; cbn [negb];
    [|discriminate].
  destruct (app_status application =? "leader_approved")%string eqn:Hst;
    cbn [negb]; [|discriminate].
  cbv zeta.
  destruct (filter _ (slots db)) as [|free rest]; [contradiction|].
  destruct (first _ (slots db)) as [slot|] eqn:Hslot; [|discriminate].
  destruct (is_booked slot) eqn:Hbooked; [discriminate|].
  destruct accepts_booking; cbn [commit fst snd]; [|discriminate].
  intros _.
  assert (Huid : user_id cu = uid).
  { unfold current_user, first in Hcu. apply find_some in Hcu.
    now apply Z.eqb_eq. }
  assert (Hid : app_id application = aid).
  { unfold first in Happ. apply find_some in Happ. now apply Z.eqb_eq. }
  apply String.eqb_eq in Htype, Hst. apply Z.eqb_eq in Hown.
  unfold cancel_interview, current_user.
  cbn [users appointments with_slots with_applications with_appointments].
  unfold current_user in Hcu. rewrite Hcu, Htype.
  cbn [String.eqb Ascii.eqb Bool.eqb negb].
  unfold first. rewrite find_snoc_fresh.
  2:{ intros p Hp. apply Z.eqb_neq. intros E.
      apply (next_id_not_in (map appt_id (appointments db))).
      rewrite <- E. now apply in_map. }
  2:{ cbn [appt_id]. apply Z.eqb_refl. }
  cbn [resident_id appt_status]. rewrite Z.eqb_refl.
  cbn [String.eqb Ascii.eqb Bool.eqb negb commit fst snd].
  split; [reflexivity|]. unfold cancellation_session.
  cbn [slots applications appointments with_slots with_applications
       with_appointments appt_officer_id appointment_date appt_id
       application_id].
  rewrite Hid. split; [|split].
  - apply unbook_rebook; assumption.
  - unfold first in Hslot.
    destruct (update_first_some _ (set_booked true) _ _ Hslot)
      as (before & after & Hrows & -> & _ & _).
    rewrite Hrows. intros E. apply app_inv_head in E.
    injection E as E. rewrite <- E in Hbooked. discriminate.
  - exists slot. eexists. split; [reflexivity|]. split; [|split; [|split]].
    + unfold first in *. apply find_update_first.
      * apply find_update_first; [exact Happ|].
        apply find_some in Happ. apply Happ.
      * apply find_some in Happ. apply Happ.
    + reflexivity.
    + reflexivity.
    + rewrite update_first_at.
      * cbn [set_appt_status appt_id resident_id appt_officer_id
             application_id appointment_date duration_minutes].
        now rewrite Huid.
      * apply Forall_forall. intros p Hp. apply Z.eqb_neq. intros E.
        apply (next_id_not_in (map appt_id (appointments db))).
        rewrite <- E. now apply in_map.
      * cbn [appt_id]. apply Z.eqb_refl.
Qed.

(** A cancelled interview blocks the schedule page: after a successful
    cancellation the application is "leader_approved" again, but the
    cancelled appointment row is still found by the schedule page, which
    answers every request of the resident, GET or POST, with "You already
    have a scheduled interview." and stores nothing (when the resident has
    no other leader-approved application). *)
Theorem cancelled_interview_blocks_schedule_page (db : DB) (uid : Z)
    (appointment : Appointment) (application : AddressApplication)
    (accepts : bool) (method : Method) (form_slot_id : option Z)
    (now : datetime) (uuid_int : Z) (accepts' : bool) :
  snd (cancel_interview db uid (Some (appt_id appointment)) accepts)
  = Flash "success" "Interview cancelled successfully." ->
  first (fun p => appt_id p =? appt_id appointment) (appointments db)
  = Some appointment ->
  first (fun a => app_id a =? application_id appointment) (applications db)
  = Some application ->
  applicant_id application = uid ->
  (forall a, In a (applications db) -> applicant_id a = uid ->
             app_status a = "leader_approved"%string ->
             app_id a = application_id appointment) ->
  let db' := fst (cancel_interview db uid (Some (appt_id appointment))
                                   accepts) in
  resident_schedule_interview db' uid method form_slot_id now uuid_int accepts'
  = (db', Flash "info" "You already have a scheduled interview.").
Proof.
  intros Hok Happt Happ Hown Hothers db'.
  destruct (cancel_interview_cases db uid (Some (appt_id appointment)) accepts)
    as [[_ [H|[m H]]]|(cu & appointment' & Hcu & Htype & Hform & Happt' & Hres
                       & Hst & _ & Hrun)];
    [rewrite H in Hok; discriminate|rewrite H in Hok; discriminate|].
  injection Hform as Hform. rewrite <- Hform, Happt in Happt'.
  injection Happt' as <-.
  assert (Huid : user_id cu = uid).
  { unfold current_user, first in Hcu. apply find_some in Hcu.
    now apply Z.eqb_eq. }
  unfold db'. rewrite Hrun. cbn [fst].
  unfold resident_schedule_interview, current_user, cancellation_session.
  cbn [users applications appointments with_slots with_applications
       with_appointments].
  unfold current_user in Hcu. rewrite Hcu, Htype, Huid.
  cbn [String.eqb Ascii.eqb Bool.eqb negb].
  unfold first in Happ.
  destruct (update_first_some _ (set_app_status "leader_approved") _ _ Happ)
    as (before & after & Hrows & -> & _ & Hp).
  apply Z.eqb_eq in Hp.
  destruct (latest_created _) as [a|] eqn:Hlatest.
  2:{ exfalso. apply latest_created_none in Hlatest.
      assert (Hin : In (set_app_status "leader_approved" application)
                       (filter (fun a => (applicant_id a =? uid)
                                         && (app_status a =? "leader_approved")%string)
                               (before
                                ++ set_app_status "leader_approved" application
                                :: after))).
      { apply filter_In. split; [apply in_or_app; right; now left|].
        cbn [applicant_id app_status set_app_status].
        rewrite Hown, Z.eqb_refl. reflexivity. }
      rewrite Hlatest in Hin. contradiction. }
  apply latest_created_In, filter_In in Hlatest.
  destruct Hlatest as [Hin Hpa]. apply andb_prop in Hpa.
  destruct Hpa as [Hpa Hps]. apply Z.eqb_eq in Hpa.
  apply String.eqb_eq in Hps.
  assert (Hida : app_id a = application_id appointment).
  { apply in_app_or in Hin. destruct Hin as [Hin|[<-|Hin]].
    - apply Hothers; auto. rewrite Hrows. apply in_or_app. now left.
    - exact Hp.
    - apply Hothers; auto. rewrite Hrows. apply in_or_app. right. now right. }
  rewrite Hida.
  unfold first in Happt.
  destruct (update_first_some _ (set_appt_status "cancelled") _ _ Happt)
    as (before' & after' & _ & -> & _ & _).
  destruct (find_In_some
              (fun p => application_id p =? application_id appointment)
              (before' ++ set_appt_status "cancelled" appointment :: after')
              (set_appt_status "cancelled" appointment)) as [p Hfound].
  - apply in_or_app. right. now left.
  - cbn [application_id set_appt_status]. apply Z.eqb_refl.
  - unfold first. rewrite Hfound. reflexivity.
Qed.

(** ** A new address *)


(** ** The officer's decision *)


(** The officer's approval is not guarded by the state of the interview:
    after [book_interview_slot] has completed the appointment, approved the
    application and issued its certificate, the officer of the slot can
    still approve the same appointment, and the store then holds two
    certificates for one application. *)
Theorem approval_after_booking_issues_second_certificate (db : DB)
    (uid : Z) (form : BookForm) (now : datetime) (uuid_int : Z)
    (accepts : bool) (officer : Z) (cu_o : User)
    (form_officer_notes : option string) (now2 : datetime) (uuid2 : Z) :
  snd (book_interview_slot db uid form now uuid_int accepts) = booked_flash ->
  current_user db officer = Some cu_o ->
  userType cu_o = "police"%string ->
  (forall s, In s (slots db) -> book_slot_id form = Some (slot_id s) ->
             officer_id s = officer) ->
  let db1 := fst (book_interview_slot db uid form now uuid_int accepts) in
  let appointment_id := next_id (map appt_id (appointments db)) in
  existsb (fun c => (certificate_number c =? make_certificate_number uuid2)%string)
          (certificates db1) = false ->
  let r := conduct_interview db1 officer appointment_id POST (Some "approve"%string)
                             form_officer_notes now2 uuid2 true in
  snd r = Flash "success" "Application has been approved and certificate generated."
  /\ exists c1 c2 aid,
       certificates (fst r) = certificates db ++ [c1; c2]
       /\ book_application_id form = Some aid
       /\ cert_application_id c1 = aid /\ cert_application_id c2 = aid
       /\ certificate_number c1 = make_certificate_number uuid_int
       /\ certificate_number c2 = make_certificate_number uuid2.
Proof.
  intros Hok Hofficer Hpolice Hslot db1 appointment_id.
  destruct (book_interview_slot_cases db uid form now uuid_int accepts)
    as [[_ [H|[m H]]]|(cu & application & time_slot & Hcu & Htype & Hfs & Hfa
                       & Happ & Hown & Hst & Hfind & Hfree & _ & _ & Hrun)];
    [rewrite H in Hok; discriminate|rewrite H in Hok; discriminate|].
  unfold db1. rewrite Hrun. cbn [fst]. clear db1. intros Hfree2.
  assert (Hts : officer_id time_slot = officer).
  { apply Hslot; [|exact Hfs]. unfold first in Hfind.
    now apply find_some in Hfind. }
  assert (Hoid : user_id cu_o = officer).
  { unfold current_user, first in Hofficer. apply find_some in Hofficer.
    now apply Z.eqb_eq. }
  assert (Huid : user_id cu = uid).
  { unfold current_user, first in Hcu. apply find_some in Hcu.
    now apply Z.eqb_eq. }
  pose proof (booking_session_application db cu application time_slot now
                                          uuid_int Happ) as Happ'.
  unfold conduct_interview.
  replace (current_user (booking_session db cu application time_slot now
                                         uuid_int) officer)
    with (Some cu_o) by (symmetry; exact Hofficer).
  rewrite Hpolice. cbn [String.eqb Ascii.eqb Bool.eqb negb].
  replace (first (fun p => appt_id p =? appointment_id)
                 (appointments (booking_session db cu application time_slot
                                                now uuid_int)))
    with (Some (mkAppointment appointment_id (user_id cu)
                              (officer_id time_slot) (app_id application)
                              (start_time time_slot) 30 "completed")).
  2:{ symmetry. unfold booking_session, first.
      cbn [appointments with_slots with_applications with_appointments
           with_certificates].
      apply find_snoc_fresh.
      - intros p Hp. apply Z.eqb_neq. intros E.
        apply (next_id_not_in (map appt_id (appointments db))).
        fold appointment_id. rewrite <- E. now apply in_map.
      - cbn [appt_id]. apply Z.eqb_refl. }
  cbn [appt_officer_id resident_id application_id].
  rewrite Hts, Hoid, Z.eqb_refl. cbn [negb].
  rewrite Happ'.
  replace (first (fun u => user_id u =? user_id cu)
                 (users (booking_session db cu application time_slot now
                                         uuid_int)))
    with (Some cu) by (symmetry; rewrite Huid; exact Hcu).
  cbn [field_is String.eqb Ascii.eqb Bool.eqb].
  unfold certificate_number_free.
  cbn [certificate_number new_certificate]. rewrite Hfree2.
  cbn [negb andb commit fst snd]. split; [reflexivity|].
  unfold officer_decision, booking_session.
  cbn [certificates with_slots with_applications with_appointments
       with_certificates].
  rewrite <- app_assoc. cbn [app].
  eexists. eexists. exists (app_id application).
  split; [reflexivity|]. repeat split; assumption.
Qed.

(** ** The leader's decision *)

(** The leader's approval is not guarded by the status of the application:
    an approved leader sets any application, whatever its status, to
    "leader_approved" with the submitted notes, and the applicant can then
    book any free slot through [book_interview_slot] whenever the store
    takes the commit and the certificate number is free. *)
Theorem leader_approval_opens_booking (leader_infos : list LeaderInfo)
    (db : DB) (uid : Z) (cu : User) (leader_info : LeaderInfo) (aid : Z)
    (application : AddressApplication) (resident : User)
    (form_leader_notes : option string) :
  current_user db uid = Some cu ->
  userType cu = "leader"%string ->
  first (fun l => li_user_id l =? user_id cu) leader_infos = Some leader_info ->
  li_isApproved leader_info = true ->
  first (fun a => app_id a =? aid) (applications db) = Some application ->
  first (fun u => user_id u =? applicant_id application) (users db)
  = Some resident ->
  userType resident = "resident"%string ->
  let r := leader_review_application leader_infos db uid aid POST
                                     (Some "approve"%string) form_leader_notes
                                     true in
  snd r = Flash "success" "Application has been approved."
  /\ first (fun a => app_id a =? aid) (applications (fst r))
     = Some (set_leader_decision "leader_approved" form_leader_notes
                                 application)
  /\ forall k slot now uuid_int,
       first (fun s => slot_id s =? k) (slots db) = Some slot ->
       is_booked slot = false ->
       existsb (fun c => (certificate_number c
                          =? make_certificate_number uuid_int)%string)
               (certificates db) = false ->
       snd (book_interview_slot (fst r) (user_id resident)
                                (mkBookForm (Some k) (Some aid)) now uuid_int
                                true)
       = booked_flash.
Proof.
  intros Hcu Htype Hli Happr Happ Hres Hrt r.
  assert (Hrun : r = (leader_decision db aid "leader_approved"
                                      form_leader_notes,
                      Flash "success" "Application has been approved.")).
  { unfold r, leader_review_application.
    rewrite Hcu, Htype. cbn [String.eqb Ascii.eqb Bool.eqb negb].
    rewrite Hli, Happr. cbn [negb]. rewrite Happ, Hres.
    reflexivity. }
  rewrite Hrun. cbn [fst snd]. clear r Hrun.
  assert (Hnew : first (fun a => app_id a =? aid)
                       (applications (leader_decision db aid "leader_approved"
                                                      form_leader_notes))
                 = Some (set_leader_decision "leader_approved"
                                             form_leader_notes application)).
  { unfold leader_decision, first in *. cbn [applications with_applications].
    apply find_update_first; [exact Happ|].
    apply find_some in Happ. apply Happ. }
  split; [reflexivity|]. split; [exact Hnew|].
  intros k slot now uuid_int Hslot Hfree Hnumber.
  assert (Hrid : user_id resident = applicant_id application).
  { unfold first in Hres. apply find_some in Hres. now apply Z.eqb_eq. }
  unfold book_interview_slot, current_user, certificate_number_free.
  cbn [book_slot_id book_application_id]. rewrite Hnew.
  unfold leader_decision.
  cbn [users slots certificates with_applications].
  rewrite Hrid, Hres, Hrt. cbn [String.eqb Ascii.eqb Bool.eqb negb].
  cbn [applicant_id app_status set_leader_decision].
  rewrite Hrid, Z.eqb_refl. cbn [String.eqb Ascii.eqb Bool.eqb negb].
  rewrite Hslot, Hfree.
  cbn [certificate_number new_certificate]. rewrite Hnumber.
  reflexivity.
Qed.

(** ** The demo slots *)

(** The demo slots are seeded once: when a resident opens the schedule page
    of a leader-approved application while no slot of anybody is unbooked
    and an approved officer exists, 28 slots are stored for the first of
    the approved officers in the order the query returns them, that of the
    police records; each slot is unbooked, thirty minutes long, without
    schedule and location, and starts after the time of the request and
    within the next eight days; and opening the page again stores nothing
    more. *)
Theorem demo_slots_are_seeded_once (db : DB) (uid : Z) (cu : User) (aid : Z)
    (application : AddressApplication) (officer : User)
    (others : list User) (now : datetime) (accepts_booking : bool) :
  current_user db uid = Some cu ->
  userType cu = "resident"%string ->
  first (fun a => app_id a =? aid) (applications db) = Some application ->
  applicant_id application = user_id cu ->
  app_status application = "leader_approved"%string ->
  filter (fun s => negb (is_booked s)) (slots db) = [] ->
  approved_officers db = officer :: others ->
  let r := schedule_interview db uid aid GET None now true accepts_booking in
  snd r = Rendered
  /\ (exists new,
        slots (fst r) = slots db ++ new
        /\ length new = 28%nat
        /\ Forall (fun s => officer_id s = user_id officer
                            /\ is_booked s = false
                            /\ end_time s = start_time s + minutes 30
                            /\ now < start_time s < now + days 8
                            /\ weekly_schedule_id s = None
                            /\ municipality s = None
                            /\ station_name s = None
                            /\ postal_code s = None) new)
  /\ forall now' accepts_slots' accepts_booking',
       schedule_interview (fst r) uid aid GET None now' accepts_slots'
                          accepts_booking'
       = (fst r, Rendered).
Proof.
  intros Hcu Htype Happ Hown Hst Hnone Hoff r.
  destruct (add_mock_slots_rows (user_id officer) (mock_slot_times now) db)
    as (new & Hadd & Hnew).
  assert (Hrun : r = (with_slots (slots db ++ new) db, Rendered)).
  { unfold r, schedule_interview. rewrite Hcu, Htype.
    cbn [String.eqb Ascii.eqb Bool.eqb negb].
    rewrite Happ, Hown, Z.eqb_refl, Hst.
    cbn [String.eqb Ascii.eqb Bool.eqb negb]. cbv zeta.
    rewrite Hnone, Hoff. cbn [commit]. now rewrite Hadd. }
  rewrite Hrun. cbn [fst snd]. clear r Hrun Hadd.
  assert (Hrows : Forall (fun s => officer_id s = user_id officer
                            /\ is_booked s = false
                            /\ end_time s = start_time s + minutes 30
                            /\ now < start_time s < now + days 8
                            /\ weekly_schedule_id s = None
                            /\ municipality s = None
                            /\ station_name s = None
                            /\ postal_code s = None) new).
  { pose proof (mock_slot_times_ahead now) as Hahead.
    revert Hnew Hahead. generalize (mock_slot_times now).
    intros times Hnew. induction Hnew as [|t s times new Hs Hnew IH];
      intros Hahead; constructor.
    - destruct (Hahead t (or_introl eq_refl)). rewrite Hs.
      cbn [officer_id is_booked end_time start_time weekly_schedule_id
           municipality station_name postal_code].
      repeat split; auto.
    - apply IH. intros t' Ht'. apply Hahead. now right. }
  split; [reflexivity|]. split.
  - exists new. cbn [slots with_slots]. split; [reflexivity|].
    split; [|exact Hrows].
    rewrite <- (Forall2_length Hnew). reflexivity.
  - intros now' accepts_slots' accepts_booking'.
    unfold schedule_interview, current_user in *.
    cbn [users applications slots with_slots].
    rewrite Hcu, Htype. cbn [String.eqb Ascii.eqb Bool.eqb negb].
    rewrite Happ, Hown, Z.eqb_refl, Hst.
    cbn [String.eqb Ascii.eqb Bool.eqb negb]. cbv zeta.
    rewrite filter_app.
    destruct new as [|s new'];
      [apply Forall2_length in Hnew; discriminate Hnew|].
    inversion Hrows as [|? ? (_ & Hfree & _) _]; subst.
    cbn [filter]. rewrite Hfree. cbn [negb].
    destruct (filter _ (slots db)); reflexivity.
Qed.

(** ** Certificates after an address update *)

(** A superseded application keeps a certificate that is still served:
    after an accepted address update, the certificate of an application of
    the resident that was approved, and is superseded now, is still sent by
    [email_certificate] on the resident's request. *)
Theorem superseded_certificate_still_served (db : DB) (uid : Z)
    (ward : Field Z) (utcnow : datetime) (accepts : bool) (m : string)
    (certificate_id : Z) (certificate : AddressCertificate)
    (application : AddressApplication) (recipient : option string) :
  snd (resident_update_address db uid POST ward utcnow accepts)
  = Flash "info" m ->
  first (fun c => cert_id c =? certificate_id) (certificates db)
  = Some certificate ->
  first (fun a => app_id a =? cert_application_id certificate)
        (applications db) = Some application ->
  applicant_id application = uid ->
  app_status application = "approved"%string ->
  truthy recipient = true ->
  let db' := fst (resident_update_address db uid POST ward utcnow accepts) in
  (exists application',
     first (fun a => app_id a =? cert_application_id certificate)
           (applications db') = Some application'
     /\ app_status application' = "superseded"%string)
  /\ email_certificate db' uid certificate_id recipient
     = Flash "success" "Demo Mode: Certificate would be emailed to {recipient_email}. In a real application, the email would be sent with the certificate attached.".
Proof.
  unfold resident_update_address.
  destruct (current_user db uid) as [cu|] eqn:Hcu; [|discriminate].
  destruct (userType cu =? "resident")%string eqn:Htype; cbn [negb];
    [|discriminate].
  destruct (first _ (resident_infos db)) as [resident_info|];
    [|discriminate].
  destruct (latest_created _) as [pending|]; [discriminate|].
  assert (Huid : user_id cu = uid).
  { unfold current_user, first in Hcu. apply find_some in Hcu.
    now apply Z.eqb_eq. }
  rewrite Huid. intros Hok Hcert Happ Hown Hst Hto.
  assert (Hnew : forall new : AddressApplication,
             find (fun a => app_id a =? cert_application_id certificate)
                  (update_where (fun a => (applicant_id a =? uid)
                                          && (app_status a =? "approved")%string)
                                supersede (applications db) ++ [new])
             = Some (supersede application)).
  { intros new. unfold first in Happ. apply find_app_some.
    unfold update_where. rewrite find_map_preserved.
    - rewrite Happ. cbn [option_map].
      now rewrite Hown, Hst, Z.eqb_refl.
    - intros x. now destruct (_ && _). }
  assert (Hcu' : find (fun u => user_id u =? uid)
                      (update_first (fun u => user_id u =? uid) set_unverified
                                    (users db))
                 = Some (set_unverified cu)).
  { unfold current_user, first in Hcu. apply find_update_first; [exact Hcu|].
    cbn [user_id set_unverified]. now apply Z.eqb_eq. }
  assert (Hsess : forall session : DB,
             snd (match commit accepts session with
                  | Some db' =>
                      (db', Flash "info" "Your address has been updated. You will need to go through the verification process again.")
                  | None => (db, Flash "danger" "Error updating address: {e}")
                  end) = Flash "info" m ->
             fst (match commit accepts session with
                  | Some db' =>
                      (db', Flash "info" "Your address has been updated. You will need to go through the verification process again.")
                  | None => (db, Flash "danger" "Error updating address: {e}")
                  end) = session).
  { intros session. destruct accepts; cbn [commit fst snd];
      [reflexivity|discriminate]. }
  cbv zeta in Hok |- *. unfold first in Hcert.
  destruct (ward_number ward); [|discriminate];
    rewrite (Hsess _ Hok); clear Hsess Hok;
    unfold email_certificate, current_user, first;
    cbn [applications certificates users with_applications with_users];
    rewrite Hnew, Hcu', Hcert;
    cbn [userType set_unverified user_id];
    rewrite Htype, Hto; cbn [negb]; rewrite Hnew;
    cbn [applicant_id supersede];
    rewrite Hown, Huid, Z.eqb_refl; cbn [negb];
    (split; [eexists; split; reflexivity|reflexivity]).
Qed.

(** ** The registration forms *)

(** The resident's form never duplicates a record: either nothing is
    stored, or the resident has a record with the submitted names and
    phone number and an application; a resident who had an application,
    whatever its status, gets no new one; and a further submission adds no
    application and no record. *)
Theorem resident_form_never_duplicates (db : DB) (uid : Z)
    (form_firstName form_lastName form_phoneNumber : option string)
    (form_wardNumber : WardText) (utcnow : datetime) (accepts : bool) :
  let r := resident_form db uid POST form_firstName form_lastName
                         form_phoneNumber form_wardNumber utcnow accepts in
  fst r = db
  \/ (snd r = Redirect
      /\ (exists record,
            first (fun i => ri_user_id i =? uid) (resident_infos (fst r))
            = Some record
            /\ firstName record = text form_firstName
            /\ lastName record = text form_lastName
            /\ phoneNumber record = text form_phoneNumber)
      /\ (exists application,
            first (fun a => applicant_id a =? uid) (applications (fst r))
            = Some application)
      /\ (forall application,
            first (fun a => applicant_id a =? uid) (applications db)
            = Some application ->
            applications (fst r) = applications db)
      /\ (first (fun a => applicant_id a =? uid) (applications db) = None ->
          exists application,
            applications (fst r) = applications db ++ [application]
            /\ applicant_id application = uid
            /\ app_status application = "pending"%string)
      /\ forall first_name' last_name' phone_number' ward_number' utcnow'
                accepts',
           let r' := resident_form (fst r) uid POST first_name' last_name'
                                   phone_number' ward_number' utcnow'
                                   accepts' in
           applications (fst r') = applications (fst r)
           /\ map ri_id (resident_infos (fst r'))
              = map ri_id (resident_infos (fst r))).
Proof.
  cbv zeta.
  remember (resident_form db uid POST form_firstName form_lastName
                          form_phoneNumber form_wardNumber utcnow accepts)
    as r eqn:Hr.
  unfold resident_form in Hr.
  destruct (current_user db uid) as [cu|] eqn:Hcu; [|subst r; now left].
  destruct (userType cu =? "resident")%string eqn:Htype; cbn [negb] in Hr;
    [|subst r; now left].
  cbv zeta in Hr.
  match type of Hr with context [ward_to_store ?e ?w] =>
    destruct (ward_to_store e w) end; [|subst r; now left].
  destruct accepts; cbn [commit] in Hr; [|subst r; now left]. right.
  assert (Huid : user_id cu = uid).
  { unfold current_user, first in Hcu. apply find_some in Hcu.
    now apply Z.eqb_eq. }
  rewrite Huid in Hr.
  set (infos :=
         match first (fun r => ri_user_id r =? uid) (resident_infos db) with
         | Some _ =>
             with_resident_infos
               (update_first (fun r => ri_user_id r =? uid)
                             (set_names (text form_firstName)
                                        (text form_lastName)
                                        (text form_phoneNumber))
                             (resident_infos db)) db
         | None =>
             with_resident_infos
               (resident_infos db
                ++ [mkResidentInfo (next_id (map ri_id (resident_infos db)))
                                   uid (text form_firstName)
                                   (text form_lastName)
                                   (text form_phoneNumber)]) db
         end) in Hr.
  assert (Hinfo : exists record,
             first (fun i => ri_user_id i =? uid) (resident_infos infos)
             = Some record
             /\ firstName record = text form_firstName
             /\ lastName record = text form_lastName
             /\ phoneNumber record = text form_phoneNumber).
  { clear Hr. unfold infos, first.
    destruct (find _ (resident_infos db)) as [record|] eqn:Hrec;
      cbn [resident_infos with_resident_infos]; eexists; split.
    - apply find_update_first; [exact Hrec|].
      apply find_some in Hrec. apply Hrec.
    - repeat split.
    - apply find_snoc_fresh; [apply (List.find_none _ _ Hrec)|].
      cbn [ri_user_id]. apply Z.eqb_refl.
    - repeat split. }
  assert (Happs : applications infos = applications db)
    by (unfold infos; now destruct (first _ (resident_infos db))).
  assert (Husers : users infos = users db)
    by (unfold infos; now destruct (first _ (resident_infos db))).
  rewrite Happs in Hr.
  assert (Hagain : forall db1 : DB,
             users db1 = users db ->
             (exists record, first (fun i => ri_user_id i =? uid)
                                   (resident_infos db1) = Some record) ->
             (exists application,
                first (fun a => applicant_id a =? uid) (applications db1)
                = Some application) ->
             forall first_name' last_name' phone_number' ward_number'
                    utcnow' accepts',
               applications (fst (resident_form db1 uid POST first_name'
                                                last_name' phone_number'
                                                ward_number' utcnow' accepts'))
               = applications db1
               /\ map ri_id (resident_infos
                               (fst (resident_form db1 uid POST first_name'
                                                   last_name' phone_number'
                                                   ward_number' utcnow'
                                                   accepts')))
                  = map ri_id (resident_infos db1)).
  { intros db1 Hu (record & Hrec) (application & Happ) fn ln pn wn t a.
    unfold resident_form, current_user. rewrite Hu.
    unfold current_user in Hcu. rewrite Hcu, Htype, Huid. cbn [negb].
    rewrite Hrec. destruct (ward_to_store true wn); [|now split].
    cbn [applications with_resident_infos]. rewrite Happ.
    destruct a; cbn [commit fst]; [|now split].
    cbn [applications resident_infos with_resident_infos].
    split; [reflexivity|]. now apply map_update_first. }
  destruct (first (fun a => applicant_id a =? uid) (applications db))
    as [application|] eqn:Happ; subst r; cbn [fst snd].
  - split; [reflexivity|]. split; [exact Hinfo|].
    split; [exists application; now rewrite Happs|].
    split; [intros _ _; exact Happs|]. split; [discriminate|].
    destruct Hinfo as (record & Hrec & _).
    apply Hagain; [exact Husers|now exists record|].
    exists application. now rewrite Happs.
  - cbn [applications resident_infos users with_applications].
    split; [reflexivity|]. split; [exact Hinfo|].
    assert (Hnew : first (fun a => applicant_id a =? uid)
                         (applications db
                          ++ [mkApplication
                                (next_id (map app_id (applications db)))
                                uid None "pending" None None utcnow])
                   = Some (mkApplication
                             (next_id (map app_id (applications db)))
                             uid None "pending" None None utcnow)).
    { unfold first in *. apply find_snoc_fresh;
        [apply (List.find_none _ _ Happ)|].
      cbn [applicant_id]. apply Z.eqb_refl. }
    split; [eexists; exact Hnew|]. split; [discriminate|].
    split; [intros _; eexists; repeat split|].
    destruct Hinfo as (record & Hrec & _).
    intros fn ln pn wn t a.
    destruct (Hagain (with_applications
                        (applications db
                         ++ [mkApplication
                               (next_id (map app_id (applications db)))
                               uid None "pending" None None utcnow]) infos)
                     Husers (ex_intro _ record Hrec)
                     (ex_intro _ _ Hnew) fn ln pn wn t a) as [H1 H2].
    split; [exact H1|exact H2].
Qed.

(** Self-service onboarding of an officer: a signed-in user of type police
    who submits the police form and passes the camera step has an approved
    police record with the submitted station, municipality and postal code,
    and is among the approved officers, without a decision of anybody
    else. *)
Theorem police_self_onboarding (db : DB) (uid : Z) (cu : User)
    (form_stationName form_municipality form_postalCode : option string) :
  current_user db uid = Some cu ->
  userType cu = "police"%string ->
  let db1 := fst (police_form db uid POST form_stationName form_municipality
                              form_postalCode true) in
  let db2 := fst (verification db1 uid POST true) in
  (exists record,
     police_info_of db2 uid = Some record
     /\ isApproved record = true
     /\ stationName record = text form_stationName
     /\ pi_municipality record = text form_municipality
     /\ postalCode record = text form_postalCode)
  /\ In (set_verified true cu) (approved_officers db2).
Proof.
  intros Hcu Htype db1 db2.
  assert (Huid : user_id cu = uid).
  { unfold current_user, first in Hcu. apply find_some in Hcu.
    now apply Z.eqb_eq. }
  assert (H1 : users db1 = users db
               /\ exists record,
                    police_info_of db1 uid = Some record
                    /\ stationName record = text form_stationName
                    /\ pi_municipality record = text form_municipality
                    /\ postalCode record = text form_postalCode).
  { unfold db1, police_form. rewrite Hcu, Htype, Huid.
    cbn [String.eqb Ascii.eqb Bool.eqb negb commit].
    unfold police_info_of, first.
    destruct (find _ (police_infos db)) as [record|] eqn:Hrec;
      cbn [fst users police_infos with_police_infos];
      (split; [reflexivity|]); eexists; split.
    - apply find_update_first; [exact Hrec|].
      apply find_some in Hrec. apply Hrec.
    - repeat split.
    - apply find_snoc_fresh; [apply (List.find_none _ _ Hrec)|].
      cbn [pi_user_id]. apply Z.eqb_refl.
    - repeat split. }
  destruct H1 as (Husers & record & Hrec & Hst & Hmu & Hpc).
  assert (Hcu1 : current_user db1 uid = Some cu)
    by (unfold current_user in *; now rewrite Husers).
  assert (H2 : db2 = with_police_infos
                       (update_first (fun p => pi_user_id p =? uid)
                                     (set_police_approved true)
                                     (police_infos db1))
                       (with_users
                          (update_first (fun u => user_id u =? uid)
                                        (set_verified true) (users db1)) db1)).
  { unfold db2, verification. rewrite Hcu1, Htype, Huid. reflexivity. }
  assert (Hrec2 : police_info_of db2 uid
                  = Some (set_police_approved true record)).
  { rewrite H2. unfold police_info_of, first in *.
    cbn [police_infos with_police_infos].
    apply find_update_first; [exact Hrec|].
    apply find_some in Hrec. apply Hrec. }
  split.
  - exists (set_police_approved true record). repeat split; assumption.
  - unfold approved_officers. apply in_flat_map.
    exists (set_police_approved true record).
    unfold police_info_of, first in Hrec2. apply find_some in Hrec2.
    destruct Hrec2 as [Hin Hp]. split; [exact Hin|].
    cbn [isApproved set_police_approved pi_user_id] in *.
    apply filter_In. split.
    + rewrite H2. cbn [users with_users with_police_infos].
      unfold current_user, first in Hcu1.
      destruct (update_first_some _ (set_verified true) _ _ Hcu1)
        as (before & after & _ & -> & _). apply in_or_app. right. now left.
    + cbn [user_id set_verified]. apply Z.eqb_eq in Hp.
      rewrite Huid, Hp. apply Z.eqb_refl.
Qed.

(** * The properties on the concrete stores *)

Ltac computed := vm_compute; reflexivity.

Lemma break_without_end_stores_nothing_witness :
  fst (police_add_weekly_availability officer_db 7 open_break_form tuesday_10
                                      (fun _ => tuesday_10) true)
  = officer_db
  /\ forall m, snd (police_add_weekly_availability officer_db 7 open_break_form
                      tuesday_10 (fun _ => tuesday_10) true)
               <> Flash "success" m.
Proof.
  apply (break_without_end_stores_nothing officer_db 7 open_break_form
           tuesday_10 (fun _ => tuesday_10) true 0%nat (Parsed (hm 10 0))).
  - reflexivity.
  - discriminate.
  - apply le_n.
Defined.

Lemma schedule_saved_behind_error_message_witness :
  snd (police_add_weekly_availability officer_db 7 day_nine_form tuesday_10
                                      (fun _ => tuesday_10) true)
  = Flash "danger" "An error occurred while saving your weekly schedule. Please try again."
  /\ exists breaks new,
       fst (police_add_weekly_availability officer_db 7 day_nine_form
                                           tuesday_10 (fun _ => tuesday_10) true)
       = with_slots (slots officer_db ++ new)
           (with_scheduled_breaks (scheduled_breaks officer_db ++ breaks)
              (with_weekly_schedules
                 (weekly_schedules officer_db ++
                  [mkWeeklySchedule
                     (next_id (map ws_id (weekly_schedules officer_db)))
                     7 9 (hm 9 0) (hm 12 0) true]) officer_db)).
Proof.
  apply (schedule_saved_behind_error_message officer_db 7
           (mkUser 7 "Officer Seven" "seven@station.example" "police" true)
           (mkPoliceInfo 1 7 "Central" "Tshwane" "0001" true)
           day_nine_form tuesday_10 (fun _ => tuesday_10) 9 (hm 9 0) (hm 12 0));
    try reflexivity.
  - intros w [].
  - right. reflexivity.
Defined.

Lemma schedule_routes_keep_one_active_per_weekday_witness :
  (day_numbers_in_week
     (weekly_schedules
        (fst (police_add_weekly_availability two_day_db 7 wednesday_form
                tuesday_10 (fun _ => tuesday_10) true)))
   /\ one_active_per_weekday
        (weekly_schedules
           (fst (police_add_weekly_availability two_day_db 7 wednesday_form
                   tuesday_10 (fun _ => tuesday_10) true))))
  /\ (day_numbers_in_week
        (weekly_schedules
           (fst (police_delete_weekly_schedule two_day_db 7 1 tuesday_10 true)))
      /\ one_active_per_weekday
           (weekly_schedules
              (fst (police_delete_weekly_schedule two_day_db 7 1 tuesday_10
                                                  true))))
  /\ (day_numbers_in_week
        (weekly_schedules
           (fst (police_clear_availability two_day_db 7 tuesday_10 true)))
      /\ one_active_per_weekday
           (weekly_schedules
              (fst (police_clear_availability two_day_db 7 tuesday_10 true)))).
Proof.
  apply (schedule_routes_keep_one_active_per_weekday two_day_db 7
           wednesday_form 1 tuesday_10 (fun _ => tuesday_10) true).
  - replace (weekly_schedules two_day_db)
      with [monday_schedule; mkWeeklySchedule 2 7 1 (hm 9 0) (hm 12 0) true]
      by computed.
    repeat constructor; discriminate.
  - replace (weekly_schedules two_day_db)
      with [monday_schedule; mkWeeklySchedule 2 7 1 (hm 9 0) (hm 12 0) true]
      by computed.
    repeat constructor. intros (_ & H & _). discriminate H.
  - intros dow [= <-]. split; discriminate.
Defined.

Lemma duplicate_check_compares_day_numbers_witness :
  police_add_weekly_availability (fst tuesday_run) 7 monday_form_no_break
                                 monday_10 (fun _ => monday_10) true
  = (fst tuesday_run, duplicate_schedule_flash)
  /\ snd (police_add_weekly_availability (fst tuesday_run) 7 minus_seven_form
                                         tuesday_10 (fun _ => tuesday_10) true)
     = Flash "success" "Added weekly schedule for {day} and generated {slots_added} interview slots."
  /\ map (fun w => (ws_officer_id w, day_of_week w,
                    day_of_number (day_of_week w), is_active w))
         (weekly_schedules
            (fst (police_add_weekly_availability (fst tuesday_run) 7
                    minus_seven_form tuesday_10 (fun _ => tuesday_10) true)))
     = [(7, 0, 0, true); (7, -7, 0, true)].
Proof.
  destruct (duplicate_check_compares_day_numbers officer_db 7 monday_form
              tuesday_10 (fun _ => tuesday_10) true
              "Added weekly schedule for {day} and generated {slots_added} interview slots."
              0 eq_refl eq_refl) as [Hsame Hother].
  split.
  - apply (Hsame monday_form_no_break monday_10 (fun _ => monday_10) true
                 (hm 9 0) (hm 12 0)); reflexivity.
  - destruct (Hother minus_seven_form tuesday_10 (fun _ => tuesday_10) (-7)
                     (hm 13 0) (hm 15 0) eq_refl eq_refl eq_refl eq_refl
                     eq_refl ltac:(discriminate) eq_refl
                     ltac:(split; discriminate) ltac:(intros w []))
      as (Hok & first_schedule & Hfirst & Hu & Hday & Hact & Hboth).
    split; [exact Hok|].
    cbv zeta in Hboth. unfold tuesday_run. rewrite Hboth.
    cbn [map app weekly_schedules officer_db ws_officer_id day_of_week
         is_active].
    rewrite Hu, Hday, Hact. reflexivity.
Defined.

Lemma deleted_day_is_free_again_witness :
  is_active monday_schedule = true
  /\ snd (police_add_weekly_availability
            (fst (police_delete_weekly_schedule (fst tuesday_run) 7 1
                                                tuesday_10 true))
            7 monday_form_no_break tuesday_10 (fun _ => tuesday_10) true)
     <> duplicate_schedule_flash.
Proof.
  split; [reflexivity|].
  apply (deleted_day_is_free_again (fst tuesday_run) 7
           (mkUser 7 "Officer Seven" "seven@station.example" "police" true)
           (mkPoliceInfo 1 7 "Central" "Tshwane" "0001" true)
           monday_schedule tuesday_10 monday_form_no_break tuesday_10
           (fun _ => tuesday_10) true); try computed.
  replace (weekly_schedules (fst tuesday_run)) with [monday_schedule]
    by computed.
  repeat constructor.
Defined.

Lemma other_writers_keep_slots_disjoint_witness :
  slots_disjoint
    (slots (fst (police_delete_availability two_slot_db 7 2 true)))
  /\ slots_disjoint
       (slots (fst (police_delete_weekly_schedule two_slot_db 7 1 tuesday_10
                                                  true)))
  /\ slots_disjoint
       (slots (fst (police_clear_availability two_slot_db 7 tuesday_10 true)))
  /\ slots_disjoint
       (slots (fst (book_interview_slot two_slot_db 7
                      (mkBookForm (Some 1) (Some 1)) tuesday_10 uuid_a true)))
  /\ slots_disjoint
       (slots (fst (resident_schedule_interview two_slot_db 7 POST (Some 1)
                                                tuesday_10 uuid_a true)))
  /\ slots_disjoint (slots (fst (cancel_interview two_slot_db 7 (Some 1) true)))
  /\ slots_disjoint
       (slots (fst (conduct_interview two_slot_db 7 1 POST
                                      (Some "approve"%string) None tuesday_10
                                      uuid_a true))).
Proof.
  apply (other_writers_keep_slots_disjoint two_slot_db 7 2 1 1
           (mkBookForm (Some 1) (Some 1)) (Some 1) (Some 1) POST
           (Some "approve"%string) None tuesday_10 uuid_a true).
  apply slots_disjointb_spec. computed.
Defined.

Lemma verification_approves_police_officer_witness :
  current_user (fst (verification recruit_db 8 POST true)) 8
  = Some (mkUser 8 "Officer Eight" "eight@station.example" "police" true)
  /\ police_info_of (fst (verification recruit_db 8 POST true)) 8
     = Some (mkPoliceInfo 2 8 "North" "Tshwane" "0002" true)
  /\ (forall form now clock accepts,
        snd (police_add_weekly_availability
               (fst (verification recruit_db 8 POST true)) 8 form now clock
               accepts)
        <> pending_approval_flash)
  /\ (forall form now accepts,
        snd (police_add_availability
               (fst (verification recruit_db 8 POST true)) 8 form now accepts)
        <> pending_approval_flash)
  /\ (forall now accepts,
        snd (police_clear_availability
               (fst (verification recruit_db 8 POST true)) 8 now accepts)
        <> pending_approval_flash).
Proof.
  apply (verification_approves_police_officer recruit_db 8
           (mkUser 8 "Officer Eight" "eight@station.example" "police" false)
           (mkPoliceInfo 2 8 "North" "Tshwane" "0002" false));
    reflexivity.
Defined.

Lemma listed_slot_can_be_booked_witness :
  snd booked_run = booked_flash
  /\ (exists appointment,
        In appointment (appointments (fst booked_run))
        /\ resident_id appointment = 1
        /\ appt_officer_id appointment = 7
        /\ application_id appointment = 1
        /\ appointment_date appointment = combine 739923 (hm 9 0))
  /\ forall viewer' now'' body' s' e',
       api_officer_availability (fst booked_run) viewer' 7 now''
       = ApiOk body' ->
       ~ In (1, s', e') body'.
Proof.
  eapply (listed_slot_can_be_booked two_slot_db 1 7 tuesday_10 _ 1
            (combine 739923 (hm 9 0)) _ 1
            (mkUser 1 "Resident One" "one@home.example" "resident" true) 1
            (mkApplication 1 1 None "leader_approved" None None 100)
            tuesday_10 uuid_a); try computed.
  - left. reflexivity.
  - vm_compute. repeat constructor; simpl; intuition discriminate.
Defined.

Lemma listed_slot_has_details_witness :
  exists row,
    api_slot_details two_slot_db 1 2 = ApiOk row
    /\ slot_id row = 2
    /\ start_time row = combine 739923 (hm 9 30)
    /\ end_time row = combine 739923 (hm 10 0)
    /\ officer_id row = 7 /\ is_booked row = false.
Proof.
  eapply (listed_slot_has_details two_slot_db 1 7 tuesday_10 _ 2
            (combine 739923 (hm 9 30)) (combine 739923 (hm 10 0)));
    try computed.
  - right. left. reflexivity.
  - vm_compute. repeat constructor; simpl; intuition discriminate.
Defined.

Lemma schedule_then_cancel_restores_slots_witness :
  snd cancelled_run = Flash "success" "Interview cancelled successfully."
  /\ slots (fst cancelled_run) = slots two_slot_db
  /\ slots (fst scheduled_run) <> slots two_slot_db
  /\ exists slot application,
       first (fun s => slot_id s =? 1) (slots two_slot_db) = Some slot
       /\ first (fun a => app_id a =? 1) (applications (fst cancelled_run))
          = Some application
       /\ app_status application = "leader_approved"%string
       /\ app_officer_id application = Some (officer_id slot)
       /\ appointments (fst cancelled_run)
          = appointments two_slot_db
            ++ [mkAppointment 1 1 (officer_id slot) 1 (start_time slot) 30
                              "cancelled"].
Proof.
  apply (schedule_then_cancel_restores_slots two_slot_db 1 1 1 tuesday_10
           true true).
  - vm_compute. discriminate.
  - apply slots_disjointb_spec. computed.
  - vm_compute. repeat constructor.
  - computed.
Defined.

Lemma cancelled_interview_blocks_schedule_page_witness :
  resident_schedule_interview (fst cancelled_run) 1 POST (Some 2) tuesday_10
                              uuid_a true
  = (fst cancelled_run,
     Flash "info" "You already have a scheduled interview.").
Proof.
  apply (cancelled_interview_blocks_schedule_page (fst scheduled_run) 1
           (mkAppointment 1 1 7 1 (combine 739923 (hm 9 0)) 30 "scheduled")
           (mkApplication 1 1 (Some 7) "interview_scheduled" None None 100)
           true POST (Some 2) tuesday_10 uuid_a true); try computed.
  intros a Ha. vm_compute in Ha.
  destruct Ha as [<-|[<-|[]]]; intros; (reflexivity || discriminate).
Defined.


Lemma approval_after_booking_issues_second_certificate_witness :
  snd (conduct_interview (fst booked_run) 7 1 POST (Some "approve"%string)
                         None tuesday_10 uuid_b true)
  = Flash "success" "Application has been approved and certificate generated."
  /\ exists c1 c2 aid,
       certificates
         (fst (conduct_interview (fst booked_run) 7 1 POST
                                 (Some "approve"%string) None tuesday_10
                                 uuid_b true))
       = certificates two_slot_db ++ [c1; c2]
       /\ book_application_id (mkBookForm (Some 1) (Some 1)) = Some aid
       /\ cert_application_id c1 = aid /\ cert_application_id c2 = aid
       /\ certificate_number c1 = make_certificate_number uuid_a
       /\ certificate_number c2 = make_certificate_number uuid_b.
Proof.
  apply (approval_after_booking_issues_second_certificate two_slot_db 1
           (mkBookForm (Some 1) (Some 1)) tuesday_10 uuid_a true 7
           (mkUser 7 "Officer Seven" "seven@station.example" "police" true)
           None tuesday_10 uuid_b); try computed.
  intros s Hs _. vm_compute in Hs.
  destruct Hs as [<-|[<-|[]]]; reflexivity.
Defined.

Lemma leader_approval_opens_booking_witness :
  snd revived_run = Flash "success" "Application has been approved."
  /\ first (fun a => app_id a =? 1) (applications (fst revived_run))
     = Some (set_leader_decision "leader_approved" None
               (mkApplication 1 1 None "rejected" None None 100))
  /\ forall k slot now uuid_int,
       first (fun s => slot_id s =? k) (slots ward_db) = Some slot ->
       is_booked slot = false ->
       existsb (fun c => (certificate_number c
                          =? make_certificate_number uuid_int)%string)
               (certificates ward_db) = false ->
       snd (book_interview_slot (fst revived_run) 1
                                (mkBookForm (Some k) (Some 1)) now uuid_int
                                true)
       = booked_flash.
Proof.
  apply (leader_approval_opens_booking ward_leaders ward_db 5
           (mkUser 5 "Leader Five" "five@ward.example" "leader" true)
           (mkLeaderInfo 1 5 true) 1
           (mkApplication 1 1 None "rejected" None None 100)
           (mkUser 1 "Resident One" "one@home.example" "resident" true) None);
    reflexivity.
Defined.

Lemma demo_slots_are_seeded_once_witness :
  snd (schedule_interview two_station_db 2 2 GET None tuesday_10 true true)
  = Rendered
  /\ (exists new,
        slots (fst (schedule_interview two_station_db 2 2 GET None tuesday_10
                                       true true))
        = slots two_station_db ++ new
        /\ length new = 28%nat
        /\ Forall (fun s => officer_id s = 8
                            /\ is_booked s = false
                            /\ end_time s = start_time s + minutes 30
                            /\ tuesday_10 < start_time s < tuesday_10 + days 8
                            /\ weekly_schedule_id s = None
                            /\ municipality s = None
                            /\ station_name s = None
                            /\ postal_code s = None) new)
  /\ forall now' accepts_slots' accepts_booking',
       schedule_interview
         (fst (schedule_interview two_station_db 2 2 GET None tuesday_10 true
                                  true))
         2 2 GET None now' accepts_slots' accepts_booking'
       = (fst (schedule_interview two_station_db 2 2 GET None tuesday_10 true
                                  true), Rendered).
Proof.
  apply (demo_slots_are_seeded_once two_station_db 2
           (mkUser 2 "Resident Two" "two@home.example" "resident" true) 2
           (mkApplication 2 2 None "leader_approved" None None 200)
           (mkUser 8 "Officer Eight" "eight@station.example" "police" true)
           [mkUser 7 "Officer Seven" "seven@station.example" "police" true]
           tuesday_10 true); computed.
Defined.

Lemma superseded_certificate_still_served_witness :
  (exists application',
     first (fun a => app_id a =? 1) (applications (fst moved_run))
     = Some application'
     /\ app_status application' = "superseded"%string)
  /\ email_certificate (fst moved_run) 1 1 (Some "bank@example.org"%string)
     = Flash "success" "Demo Mode: Certificate would be emailed to {recipient_email}. In a real application, the email would be sent with the certificate attached.".
Proof.
  eapply (superseded_certificate_still_served (fst booked_run) 1 Absent
            tuesday_10 true _ 1
            (mkCertificate 1 1 (make_certificate_number uuid_a) tuesday_10
                           (tuesday_10 + days 365)
                           "/static/certificates/demo_certificate.pdf")
            (mkApplication 1 1 (Some 7) "approved" None
                           (Some "Auto-approved for testing purposes"%string)
                           100)
            (Some "bank@example.org"%string)); computed.
Defined.

Lemma police_self_onboarding_witness :
  (exists record,
     police_info_of
       (fst (verification
               (fst (police_form recruit_db 8 POST (Some "East"%string)
                                 (Some "Tshwane"%string) (Some "0003"%string)
                                 true)) 8 POST true)) 8
     = Some record
     /\ isApproved record = true
     /\ stationName record = "East"%string
     /\ pi_municipality record = "Tshwane"%string
     /\ postalCode record = "0003"%string)
  /\ In (mkUser 8 "Officer Eight" "eight@station.example" "police" true)
        (approved_officers
           (fst (verification
                   (fst (police_form recruit_db 8 POST (Some "East"%string)
                                     (Some "Tshwane"%string)
                                     (Some "0003"%string) true)) 8 POST true))).
Proof.
  apply (police_self_onboarding recruit_db 8
           (mkUser 8 "Officer Eight" "eight@station.example" "police" false)
           (Some "East"%string) (Some "Tshwane"%string) (Some "0003"%string));
    reflexivity.
Defined.

Lemma added_slot_can_be_deleted_witness :
  (exists s,
     slots (fst (police_add_availability officer_db 7
                   (mkSlotForm (Parsed 739923) (Parsed (hm 9 0))
                               (Parsed (hm 9 30))) tuesday_10 true))
     = slots officer_db ++ [s]
     /\ slot_id s = next_id (map slot_id (slots officer_db)))
  /\ police_delete_availability
       (fst (police_add_availability officer_db 7
               (mkSlotForm (Parsed 739923) (Parsed (hm 9 0))
                           (Parsed (hm 9 30))) tuesday_10 true))
       7 (next_id (map slot_id (slots officer_db))) true
     = (officer_db, Flash "success" "Time slot deleted successfully.").
Proof.
  eapply (added_slot_can_be_deleted officer_db 7
            (mkSlotForm (Parsed 739923) (Parsed (hm 9 0)) (Parsed (hm 9 30)))
            tuesday_10 true).
  computed.
Defined.

Lemma deleted_schedule_takes_its_slots_witness :
  snd (police_delete_weekly_schedule (fst tuesday_run) 7
         (next_id (map ws_id (weekly_schedules officer_db))) tuesday_10 true)
  = Flash "success" "Removed weekly schedule for {day} and {deleted_slots} future slots."
  /\ (exists new,
        slots (fst tuesday_run) = slots officer_db ++ new
        /\ slots (fst (police_delete_weekly_schedule (fst tuesday_run) 7
                         (next_id (map ws_id (weekly_schedules officer_db)))
                         tuesday_10 true))
           = slots officer_db
             ++ filter (fun s => start_time s <=? tuesday_10) new)
  /\ (exists schedule,
        weekly_schedules (fst tuesday_run)
        = weekly_schedules officer_db ++ [schedule]
        /\ ws_id schedule = next_id (map ws_id (weekly_schedules officer_db))
        /\ is_active schedule = true
        /\ weekly_schedules
             (fst (police_delete_weekly_schedule (fst tuesday_run) 7
                     (next_id (map ws_id (weekly_schedules officer_db)))
                     tuesday_10 true))
           = weekly_schedules officer_db ++ [set_active false schedule])
  /\ scheduled_breaks
       (fst (police_delete_weekly_schedule (fst tuesday_run) 7
               (next_id (map ws_id (weekly_schedules officer_db)))
               tuesday_10 true))
     = scheduled_breaks (fst tuesday_run).
Proof.
  eapply (deleted_schedule_takes_its_slots officer_db 7 monday_form
            tuesday_10 (fun _ => tuesday_10) true _ tuesday_10).
  - computed.
  - intros s k [].
Defined.
